(** * Voice-bot call/session lifecycle controller

    A shallow embedding of the converged revision of the voice-bot front end:

    - [VoiceBot]      the component state and handlers of the [VoiceBot]
                      component (message log, wake-word flags, call flags);
    - [RetellClient]  the [useRetellClient] hook with its guards
                      (operation-in-progress flags, minimum call duration,
                      debounce timer, inactivity watchdog);
    - [WakeWord]      the [useWakeWordDetection] hook (trigger flag, error
                      rate limiting, restart backoff);
    - [App]           the three wired together as one event-driven system:
                      every callback the browser, the SDK or a timer can
                      invoke is one event.

    Conventions.

    - The code is single threaded: a handler runs to its first [await] (or
      to its end) without interleaving, so every handler is a function on
      the state; the code after an [await] is a handler of its own, run
      when the awaited operation settles.
    - [setTimeout] registers a pending timer in the state; the timer
      firing is an event of its own.  Events carry no deadlines: a trace
      fixes their order only.
    - Values the environment supplies ([uuidv4()], [Date.now()], outcomes
      of network, SDK and browser calls) are arguments of the handler that
      reads them.  Clock readings are milliseconds, in [Z].
    - A callback reads the refs as they are when it runs, and the
      component state either through a state updater ([setState(prev =>
      ...)], the state as it is) or from the render that made the callback
      ([state.messages], [state.isCallActive], [state.isLoading] inside a
      [useCallback]).  Whatever holds on to a callback (a timer, the
      recognition object, a request in flight) is recorded with what that
      callback has seen.  The buttons of the page, and the timers of the
      two effects, which are registered again whenever their callback
      changes, hold the callbacks of the latest render.
    - What a handler does to the outside (callbacks of its parent, network
      and SDK calls) is returned as a list of actions, in order. *)

From Stdlib Require Import ZArith QArith Qminmax Qpower Lqa String Ascii Bool Lia.
From stdpp Require Import base list strings.

Local Open Scope string_scope.
Local Open Scope list_scope.
Local Open Scope Z_scope.

(** ** JavaScript primitives used by the handlers *)

Module JS.

(** Strings are sequences of 8-bit code units, read as the code points
    U+0000..U+00FF. *)

(** [String.prototype.toLowerCase] on that range: A-Z and the accented
    capitals U+00C0..U+00DE (except the multiplication sign U+00D7) move
    up by 32. *)
Definition lower_char (c : ascii) : ascii :=
  let n := nat_of_ascii c in
  if ((65 <=? n)%nat && (n <=? 90)%nat)
     || ((192 <=? n)%nat && (n <=? 222)%nat && negb (n =? 215)%nat)
  then ascii_of_nat (n + 32) else c.

Fixpoint toLowerCase (s : string) : string :=
  match s with
  | EmptyString => EmptyString
  | String c r => String (lower_char c) (toLowerCase r)
  end.

(** WhiteSpace and LineTerminator code points below U+0100: TAB, LF, VT, FF,
    CR, SPACE and NO-BREAK SPACE. *)
Definition isWhiteSpace (c : ascii) : bool :=
  let n := nat_of_ascii c in
  ((9 <=? n)%nat && (n <=? 13)%nat) || (n =? 32)%nat || (n =? 160)%nat.

Fixpoint trimStart (s : string) : string :=
  match s with
  | EmptyString => EmptyString
  | String c r => if isWhiteSpace c then trimStart r else s
  end.

(** Drops trailing white space: a character is kept when something that is
    kept follows it, or when it is not white space itself. *)
Fixpoint trimEnd (s : string) : string :=
  match s with
  | EmptyString => EmptyString
  | String c r =>
      match trimEnd r with
      | EmptyString => if isWhiteSpace c then EmptyString else String c EmptyString
      | r' => String c r'
      end
  end.

Definition trim (s : string) : string := trimEnd (trimStart s).

(** Truthiness of a string: the empty string is the only falsy one. *)
Definition truthy (s : string) : bool :=
  match s with EmptyString => false | _ => true end.

(** [s.includes(p)] *)
Fixpoint includes (p s : string) : bool :=
  String.prefix p s ||
  match s with
  | EmptyString => false
  | String _ r => includes p r
  end.

(** [xs.join(sep)] *)
Fixpoint join (sep : string) (xs : list string) : string :=
  match xs with
  | [] => EmptyString
  | [x] => x
  | x :: r => String.append x (String.append sep (join sep r))
  end.

(** [xs.findIndex(p)]: the index of the first element satisfying [p], or -1. *)
Fixpoint findIndex {A} (p : A -> bool) (xs : list A) : Z :=
  match xs with
  | [] => -1
  | x :: r =>
      if p x then 0
      else let i := findIndex p r in if i =? -1 then -1 else i + 1
  end.

(** [ys = [...xs]; ys[i] = f(ys[i])], the copy-and-replace idiom of the
    state updaters.  Every use in the handlers passes an index returned by
    a successful [findIndex] (lemma [findIndex_found] below), so only the
    in-range case of the assignment occurs; out of range the copy is
    returned as it is. *)
Definition modifyAt {A} (i : Z) (f : A -> A) (xs : list A) : list A :=
  if (0 <=? i) && (i <? Z.of_nat (length xs)) then alter f (Z.to_nat i) xs else xs.

End JS.

(** ** The VoiceBot component: state, message log, handlers *)

Module CallStatus.
Inductive t := idle | ongoing | ended | error.
End CallStatus.

Module VoiceBot.

Inductive MessageType := response | transcription | system.

(** [interface Message]; [role] and [isComplete] are optional fields. *)
Record Message := {
  id : string;
  type : MessageType;
  role : option string;
  content : string;
  timestamp : Z;
  isComplete : option bool
}.

(** [interface VoiceBotState] *)
Record VoiceBotState := {
  isCallActive : bool;
  isLoading : bool;
  error : option string;
  callStatus : CallStatus.t;
  messages : list Message;
  isListeningForWakeWord : bool;
  liveTranscript : string;
  liveTranscriptRole : option string
}.

Definition WAKE_WORD : string := "hey assistant".

Definition quote : string := String (ascii_of_nat 34) EmptyString.

(** What the callbacks made by one render read of [state] when they run
    later: [handleWakeWordDetected], [startWakeWordDetection] and
    [handleStartCall] are [useCallback]s over [state.isCallActive],
    [state.isLoading] and [state.messages] of the render that made them. *)
Record Snapshot := {
  snapCallActive : bool;
  snapLoading : bool;
  snapMessages : list Message
}.

Definition snapshot (s : VoiceBotState) : Snapshot :=
  {| snapCallActive := isCallActive s; snapLoading := isLoading s;
     snapMessages := messages s |}.

(** The component instance: its React state, its two refs, and the timers it
    has registered with [setTimeout] and that have not fired yet, oldest
    first, each with what the callback it holds has seen.  [messagesId]
    names the array held in [state.messages]: React compares the
    dependencies of effects and callbacks by identity, and a handler that
    stores an array stores a new one. *)
Record t := {
  state : VoiceBotState;
  isStartingCallRef : bool;
  wakeWordDetectionEnabledRef : bool;
  messagesId : nat;
  startCallTimers : list Snapshot;   (* 800 ms timers of handleWakeWordDetected *)
  listenTimers : list Snapshot       (* 1500 ms timers of onCallEnded / onError *)
}.

Definition initialState : VoiceBotState := {|
  isCallActive := false;
  isLoading := false;
  error := None;
  callStatus := CallStatus.idle;
  messages := [];
  isListeningForWakeWord := false;
  liveTranscript := EmptyString;
  liveTranscriptRole := None
|}.

Definition initial : t := {|
  state := initialState;
  isStartingCallRef := false;
  wakeWordDetectionEnabledRef := false;
  messagesId := 0;
  startCallTimers := [];
  listenTimers := []
|}.

(** Field updates, the pieces of [updateState({...})]. *)
Definition set_isCallActive (b : bool) (s : VoiceBotState) : VoiceBotState :=
  {| isCallActive := b; isLoading := isLoading s; error := error s;
     callStatus := callStatus s; messages := messages s;
     isListeningForWakeWord := isListeningForWakeWord s;
     liveTranscript := liveTranscript s; liveTranscriptRole := liveTranscriptRole s |}.

Definition set_isLoading (b : bool) (s : VoiceBotState) : VoiceBotState :=
  {| isCallActive := isCallActive s; isLoading := b; error := error s;
     callStatus := callStatus s; messages := messages s;
     isListeningForWakeWord := isListeningForWakeWord s;
     liveTranscript := liveTranscript s; liveTranscriptRole := liveTranscriptRole s |}.

Definition set_error (e : option string) (s : VoiceBotState) : VoiceBotState :=
  {| isCallActive := isCallActive s; isLoading := isLoading s; error := e;
     callStatus := callStatus s; messages := messages s;
     isListeningForWakeWord := isListeningForWakeWord s;
     liveTranscript := liveTranscript s; liveTranscriptRole := liveTranscriptRole s |}.

Definition set_callStatus (c : CallStatus.t) (s : VoiceBotState) : VoiceBotState :=
  {| isCallActive := isCallActive s; isLoading := isLoading s; error := error s;
     callStatus := c; messages := messages s;
     isListeningForWakeWord := isListeningForWakeWord s;
     liveTranscript := liveTranscript s; liveTranscriptRole := liveTranscriptRole s |}.

Definition set_messages (ms : list Message) (s : VoiceBotState) : VoiceBotState :=
  {| isCallActive := isCallActive s; isLoading := isLoading s; error := error s;
     callStatus := callStatus s; messages := ms;
     isListeningForWakeWord := isListeningForWakeWord s;
     liveTranscript := liveTranscript s; liveTranscriptRole := liveTranscriptRole s |}.

Definition set_isListeningForWakeWord (b : bool) (s : VoiceBotState) : VoiceBotState :=
  {| isCallActive := isCallActive s; isLoading := isLoading s; error := error s;
     callStatus := callStatus s; messages := messages s;
     isListeningForWakeWord := b;
     liveTranscript := liveTranscript s; liveTranscriptRole := liveTranscriptRole s |}.

Definition with_state (f : VoiceBotState -> VoiceBotState) (b : t) : t :=
  {| state := f (state b); isStartingCallRef := isStartingCallRef b;
     wakeWordDetectionEnabledRef := wakeWordDetectionEnabledRef b;
     messagesId := messagesId b;
     startCallTimers := startCallTimers b; listenTimers := listenTimers b |}.

(** The array in [state.messages] has been replaced. *)
Definition newArray (b : t) : t :=
  {| state := state b; isStartingCallRef := isStartingCallRef b;
     wakeWordDetectionEnabledRef := wakeWordDetectionEnabledRef b;
     messagesId := S (messagesId b);
     startCallTimers := startCallTimers b; listenTimers := listenTimers b |}.

Definition set_isStartingCallRef (v : bool) (b : t) : t :=
  {| state := state b; isStartingCallRef := v;
     wakeWordDetectionEnabledRef := wakeWordDetectionEnabledRef b;
     messagesId := messagesId b;
     startCallTimers := startCallTimers b; listenTimers := listenTimers b |}.

Definition set_wakeWordDetectionEnabledRef (v : bool) (b : t) : t :=
  {| state := state b; isStartingCallRef := isStartingCallRef b;
     wakeWordDetectionEnabledRef := v;
     messagesId := messagesId b;
     startCallTimers := startCallTimers b; listenTimers := listenTimers b |}.

Definition set_startCallTimers (l : list Snapshot) (b : t) : t :=
  {| state := state b; isStartingCallRef := isStartingCallRef b;
     wakeWordDetectionEnabledRef := wakeWordDetectionEnabledRef b;
     messagesId := messagesId b;
     startCallTimers := l; listenTimers := listenTimers b |}.

Definition set_listenTimers (l : list Snapshot) (b : t) : t :=
  {| state := state b; isStartingCallRef := isStartingCallRef b;
     wakeWordDetectionEnabledRef := wakeWordDetectionEnabledRef b;
     messagesId := messagesId b;
     startCallTimers := startCallTimers b; listenTimers := l |}.

(** *** Message log *)

(** [!m.isComplete]: an absent flag counts as incomplete. *)
Definition notComplete (m : Message) : bool :=
  match isComplete m with Some true => false | _ => true end.

(** [m.role === role] *)
Definition roleIs (r : string) (m : Message) : bool :=
  match role m with Some r' => String.eqb r' r | None => false end.

Definition withContent (c : string) (m : Message) : Message :=
  {| id := id m; type := type m; role := role m; content := c;
     timestamp := timestamp m; isComplete := isComplete m |}.

Definition markComplete (m : Message) : Message :=
  {| id := id m; type := type m; role := role m; content := content m;
     timestamp := timestamp m; isComplete := Some true |}.

Definition systemMessage (uuid : string) (now : Z) (text : string) : Message :=
  {| id := uuid; type := system; role := None; content := text;
     timestamp := now; isComplete := Some true |}.

(** [onTranscriptUpdate(role, content)] *)
Definition onTranscriptUpdate (uuid : string) (now : Z) (r c : string)
    (prev : VoiceBotState) : VoiceBotState :=
  let lastIncompleteMessageIndex :=
    JS.findIndex (fun m => roleIs r m && notComplete m) (reverse (messages prev)) in
  if lastIncompleteMessageIndex =? -1 then
    set_messages
      (messages prev ++
         [{| id := uuid; type := transcription; role := Some r; content := c;
             timestamp := now; isComplete := Some false |}]) prev
  else
    let actualIndex := Z.of_nat (length (messages prev)) - 1 - lastIncompleteMessageIndex in
    set_messages (JS.modifyAt actualIndex (withContent c) (messages prev)) prev.

(** [onResponseUpdate(content)] *)
Definition onResponseUpdate (uuid : string) (now : Z) (c : string)
    (prev : VoiceBotState) : VoiceBotState :=
  set_messages
    (messages prev ++
       [{| id := uuid; type := response; role := Some "assistant"; content := c;
           timestamp := now; isComplete := Some true |}]) prev.

(** [onSentenceComplete()] *)
Definition onSentenceComplete (prev : VoiceBotState) : VoiceBotState :=
  let lastIncompleteMessageIndex := JS.findIndex notComplete (messages prev) in
  if lastIncompleteMessageIndex =? -1 then prev
  else set_messages (JS.modifyAt lastIncompleteMessageIndex markComplete (messages prev)) prev.

(** *** Wake-word and call handlers *)

(** [handleWakeWordDetected()], as made by a render that saw [seen]: the
    guard reads [state.isCallActive] and [state.isLoading] of that render
    and the ref as it is now; the update stores the messages of that render
    with the notice appended, over the other fields as they are now.  The
    800 ms timer it registers is [App.StartCallTimer]; the [startCall] the
    timer holds is the one of the same render. *)
Definition handleWakeWordDetected (seen : Snapshot) (uuid : string) (now : Z)
    (b : t) : t :=
  if isStartingCallRef b || snapCallActive seen || snapLoading seen then b
  else
    let msg := systemMessage uuid now "Wake word detected! Starting conversation..." in
    set_startCallTimers (startCallTimers b ++ [seen])
      (set_isStartingCallRef true
         (newArray
            (with_state (fun prev =>
               set_messages (snapMessages seen ++ [msg])
                 (set_isListeningForWakeWord false prev)) b))).

(** [handleWakeWordError(error)]: whether a toast is shown. *)
Definition handleWakeWordError (e : string) : bool :=
  negb (String.eqb e "no-speech") && negb (String.eqb e "aborted").

(** [startWakeWordDetection()], as made by a render that saw [seen]. *)
Definition startWakeWordDetectionOf (seen : Snapshot) (uuid : string) (now : Z)
    (b : t) : t :=
  if snapCallActive seen || snapLoading seen then b
  else if negb (wakeWordDetectionEnabledRef b) then
    let text := String.append "Listening for wake word: "
                  (String.append quote (String.append WAKE_WORD quote)) in
    set_wakeWordDetectionEnabledRef true
      (newArray
         (with_state (fun prev =>
            set_messages (snapMessages seen ++ [systemMessage uuid now text])
              (set_isListeningForWakeWord true prev)) b))
  else with_state (set_isListeningForWakeWord true) b.

(** The same, run by the render that made it: a button of the page, or the
    timer of the listen-by-default effect, which is registered again
    whenever [startWakeWordDetection] changes. *)
Definition startWakeWordDetection (uuid : string) (now : Z) (b : t) : t :=
  startWakeWordDetectionOf (snapshot (state b)) uuid now b.

(** [stopWakeWordDetection()] *)
Definition stopWakeWordDetection (b : t) : t :=
  set_wakeWordDetectionEnabledRef false (with_state (set_isListeningForWakeWord false) b).

(** The callbacks handed to [useRetellClient].  [onCallEnded] and [onError]
    register a 1500 ms timer that holds the [startWakeWordDetection] of
    their own render, which saw [seen]. *)
Definition onCallStarted (b : t) : t :=
  set_wakeWordDetectionEnabledRef false
    (with_state (fun s =>
       set_callStatus CallStatus.ongoing (set_isLoading false (set_isCallActive true s))) b).

Definition onCallEnded (seen : Snapshot) (b : t) : t :=
  set_listenTimers (listenTimers b ++ [seen])
    (with_state (fun s =>
       set_isLoading false (set_callStatus CallStatus.ended (set_isCallActive false s))) b).

Definition onError (seen : Snapshot) (e : string) (b : t) : t :=
  set_listenTimers (listenTimers b ++ [seen])
    (with_state (fun s =>
       set_isLoading false
         (set_isCallActive false (set_callStatus CallStatus.error (set_error (Some e) s)))) b).

Definition onLoading (l : bool) (b : t) : t := with_state (set_isLoading l) b.

(** The three state updaters, with the identity of the array they store:
    [onSentenceComplete] returns [prev] itself when nothing is incomplete. *)
Definition transcriptUpdate (uuid : string) (now : Z) (r c : string) (b : t) : t :=
  newArray (with_state (onTranscriptUpdate uuid now r c) b).

Definition responseUpdate (uuid : string) (now : Z) (c : string) (b : t) : t :=
  newArray (with_state (onResponseUpdate uuid now c) b).

Definition sentenceComplete (b : t) : t :=
  if JS.findIndex notComplete (messages (state b)) =? -1 then b
  else newArray (with_state onSentenceComplete b).

End VoiceBot.

(** ** The useRetellClient hook (guarded revision) *)

Module RetellClient.

Definition MIN_CALL_DURATION_MS : Z := 10000.
Definition INACTIVITY_TIMEOUT_MS : Z := 300000.
Definition DEBOUNCE_TIME_MS : Z := 500.

(** The callbacks of [RetellClientOptions]. *)
Inductive Callback :=
| CallStarted
| CallEnded
| Error (message : string)
| Loading (isLoading : bool)
| TranscriptUpdate (role content : string)
| ResponseUpdate (content : string)
| SentenceComplete.

(** What a handler does to the outside: it invokes a callback of the parent
    component, posts the create-call request, or calls the SDK client. *)
Inductive Action :=
| Notify (cb : Callback)
| FetchCreateCall
| SdkStartCall
| SdkStopCall.

(** The body of the pending debounce timer. *)
Inductive Operation := StartOperation | EndOperation.

Record t := {
  clientRef : bool;                       (* a RetellWebClient is held *)
  isInitialized : bool;
  callStartTimeRef : option Z;
  lastActivityTimeRef : option Z;
  inactivityTimerRef : bool;              (* the watchdog is armed *)
  isEndingCallRef : bool;
  isStartingCallRef : bool;
  operationTimeoutRef : option Operation; (* the debounce timer still to fire *)
  fetchesInFlight : nat;                  (* startCall bodies awaiting fetch *)
  sdkStartsInFlight : nat                 (* startCall bodies awaiting the SDK *)
}.

Definition initial : t := {|
  clientRef := false; isInitialized := false;
  callStartTimeRef := None; lastActivityTimeRef := None;
  inactivityTimerRef := false;
  isEndingCallRef := false; isStartingCallRef := false;
  operationTimeoutRef := None;
  fetchesInFlight := 0; sdkStartsInFlight := 0
|}.

(** Truthiness of [callStartTimeRef.current]: [null] and [0] are falsy. *)
Definition timeSet (o : option Z) : bool :=
  match o with Some v => negb (v =? 0) | None => false end.

(** [cleanupClient()].  An exception of [removeAllListeners] or [stopCall]
    is caught and changes nothing that follows. *)
Definition cleanupClient (c : t) : t * list Action :=
  ({| clientRef := false; isInitialized := isInitialized c;
      callStartTimeRef := None; lastActivityTimeRef := None;
      inactivityTimerRef := false;
      isEndingCallRef := false; isStartingCallRef := false;
      operationTimeoutRef := None;
      fetchesInFlight := fetchesInFlight c;
      sdkStartsInFlight := sdkStartsInFlight c |},
   if clientRef c && timeSet (callStartTimeRef c) then [SdkStopCall] else []).

(** [initializeClient()] *)
Definition initializeClient (c : t) : t * list Action :=
  let (c1, acts) := cleanupClient c in
  ({| clientRef := true; isInitialized := true;
      callStartTimeRef := callStartTimeRef c1;
      lastActivityTimeRef := lastActivityTimeRef c1;
      inactivityTimerRef := inactivityTimerRef c1;
      isEndingCallRef := isEndingCallRef c1;
      isStartingCallRef := isStartingCallRef c1;
      operationTimeoutRef := operationTimeoutRef c1;
      fetchesInFlight := fetchesInFlight c1;
      sdkStartsInFlight := sdkStartsInFlight c1 |}, acts).

(** [resetInactivityTimer()] *)
Definition resetInactivityTimer (now : Z) (c : t) : t :=
  {| clientRef := clientRef c; isInitialized := isInitialized c;
     callStartTimeRef := callStartTimeRef c;
     lastActivityTimeRef := Some now;
     inactivityTimerRef := true;
     isEndingCallRef := isEndingCallRef c;
     isStartingCallRef := isStartingCallRef c;
     operationTimeoutRef := operationTimeoutRef c;
     fetchesInFlight := fetchesInFlight c;
     sdkStartsInFlight := sdkStartsInFlight c |}.

Definition set_flags (ending starting : bool) (c : t) : t :=
  {| clientRef := clientRef c; isInitialized := isInitialized c;
     callStartTimeRef := callStartTimeRef c;
     lastActivityTimeRef := lastActivityTimeRef c;
     inactivityTimerRef := inactivityTimerRef c;
     isEndingCallRef := ending;
     isStartingCallRef := starting;
     operationTimeoutRef := operationTimeoutRef c;
     fetchesInFlight := fetchesInFlight c;
     sdkStartsInFlight := sdkStartsInFlight c |}.

Definition set_operationTimeoutRef (o : option Operation) (c : t) : t :=
  {| clientRef := clientRef c; isInitialized := isInitialized c;
     callStartTimeRef := callStartTimeRef c;
     lastActivityTimeRef := lastActivityTimeRef c;
     inactivityTimerRef := inactivityTimerRef c;
     isEndingCallRef := isEndingCallRef c;
     isStartingCallRef := isStartingCallRef c;
     operationTimeoutRef := o;
     fetchesInFlight := fetchesInFlight c;
     sdkStartsInFlight := sdkStartsInFlight c |}.

Definition set_inFlight (f s : nat) (c : t) : t :=
  {| clientRef := clientRef c; isInitialized := isInitialized c;
     callStartTimeRef := callStartTimeRef c;
     lastActivityTimeRef := lastActivityTimeRef c;
     inactivityTimerRef := inactivityTimerRef c;
     isEndingCallRef := isEndingCallRef c;
     isStartingCallRef := isStartingCallRef c;
     operationTimeoutRef := operationTimeoutRef c;
     fetchesInFlight := f;
     sdkStartsInFlight := s |}.

Definition set_callStartTimeRef (o : option Z) (c : t) : t :=
  {| clientRef := clientRef c; isInitialized := isInitialized c;
     callStartTimeRef := o;
     lastActivityTimeRef := lastActivityTimeRef c;
     inactivityTimerRef := inactivityTimerRef c;
     isEndingCallRef := isEndingCallRef c;
     isStartingCallRef := isStartingCallRef c;
     operationTimeoutRef := operationTimeoutRef c;
     fetchesInFlight := fetchesInFlight c;
     sdkStartsInFlight := sdkStartsInFlight c |}.

Definition set_inactivityTimerRef (a : bool) (c : t) : t :=
  {| clientRef := clientRef c; isInitialized := isInitialized c;
     callStartTimeRef := callStartTimeRef c;
     lastActivityTimeRef := lastActivityTimeRef c;
     inactivityTimerRef := a;
     isEndingCallRef := isEndingCallRef c;
     isStartingCallRef := isStartingCallRef c;
     operationTimeoutRef := operationTimeoutRef c;
     fetchesInFlight := fetchesInFlight c;
     sdkStartsInFlight := sdkStartsInFlight c |}.

(** *** Inbound events of the realtime channel *)

Record TranscriptItem := { role : string; content : string }.

(** [response?: string | { content?: string; text?: string }].  For an
    object, [json] is what [JSON.stringify] returns for it. *)
Inductive Response :=
| ResponseString (s : string)
| ResponseObject (content text : option string) (json : string).

Record Update := {
  transcript : option (list TranscriptItem);
  response : option Response
}.

(** [a || b] on optional strings, falling back to [d]. *)
Definition orElse (a : option string) (d : string) : string :=
  match a with
  | Some s => if JS.truthy s then s else d
  | None => d
  end.

(** The second half of the "update" listener: [if (update.response) ...]. *)
Definition responseCallbacks (u : Update) : list Callback :=
  match response u with
  | None => []
  | Some (ResponseString s) => if JS.truthy s then [ResponseUpdate s] else []
  | Some (ResponseObject c x json) => [ResponseUpdate (orElse c (orElse x json))]
  end.

(** The role a transcript element is filed under. *)
Definition normalizeRole (r : string) : string :=
  if String.eqb (JS.toLowerCase r) "agent" then "assistant" else "user".

(** The "update" listener after [resetInactivityTimer()]: the callbacks it
    invokes, in order.  Both [return] statements leave the listener, so the
    response half is skipped as well.  The listener of the unguarded
    revision of the hook is this function alone. *)
Definition updateCallbacks (u : Update) : list Callback :=
  match transcript u with
  | Some items =>
      match last items with
      | None => []
      | Some latestTranscript =>
          let r := normalizeRole (role latestTranscript) in
          let c := JS.trim (content latestTranscript) in
          if negb (JS.truthy c) then []
          else TranscriptUpdate r c :: responseCallbacks u
      end
  | None => responseCallbacks u
  end.

Definition onUpdate (now : Z) (u : Update) (c : t) : t * list Action :=
  (resetInactivityTimer now c, map Notify (updateCallbacks u)).

(** "sentence_complete" *)
Definition onSentenceComplete (now : Z) (c : t) : t * list Action :=
  (resetInactivityTimer now c, [Notify SentenceComplete]).

(** "error": [error.message || 'An error occurred'] *)
Definition onSdkError (message : option string) (c : t) : t * list Action :=
  (set_flags false false c, [Notify (Error (orElse message "An error occurred"))]).

(** "call_ended" *)
Definition onSdkCallEnded (c : t) : t * list Action :=
  let (c1, acts) := cleanupClient (set_flags false false c) in
  (c1, acts ++ [Notify CallEnded]).

(** *** startCall *)

(** [startCall()] up to the registration of the debounce timer. *)
Definition startCall (c : t) : t * list Action :=
  if isStartingCallRef c || isEndingCallRef c then (c, [])
  else (set_operationTimeoutRef (Some StartOperation)
          (set_flags (isEndingCallRef c) true c), []).

(** The [catch] and [finally] blocks of the debounced body. *)
Definition startCallFailed (message : string) (c : t) : t * list Action :=
  let (c1, acts) := cleanupClient c in
  (set_flags (isEndingCallRef c1) false c1,
   [Notify (Error message); Notify (Loading false)] ++ acts).

(** The debounced body up to [await fetch(...)].  [initializeClient] has just
    stored a client, so the [!clientRef.current] test does not throw. *)
Definition startCallTimeout (c : t) : t * list Action :=
  let (c1, acts) := initializeClient c in
  (set_inFlight (S (fetchesInFlight c1)) (sdkStartsInFlight c1) c1,
   [Notify (Loading true)] ++ acts ++ [FetchCreateCall]).

Inductive FetchOutcome :=
| FetchOk                          (* 2xx with an access token *)
| FetchNotOk                       (* response.ok is false *)
| FetchThrew (message : string).   (* network failure *)

(** From the resumption after [await fetch] to [await startCall].  Without a
    client, [clientRef.current.startCall] is a TypeError with text [tyErr]. *)
Definition fetchSettled (o : FetchOutcome) (tyErr : string) (c : t) : t * list Action :=
  let c0 := set_inFlight (pred (fetchesInFlight c)) (sdkStartsInFlight c) c in
  match o with
  | FetchOk =>
      if clientRef c0
      then (set_inFlight (fetchesInFlight c0) (S (sdkStartsInFlight c0)) c0, [SdkStartCall])
      else startCallFailed tyErr c0
  | FetchNotOk => startCallFailed "Failed to create call" c0
  | FetchThrew m => startCallFailed m c0
  end.

(** From the resumption after [await clientRef.current.startCall] to the end.
    [None]: the call is open; [Some m]: the SDK rejected with message [m]. *)
Definition sdkStartSettled (rejected : option string) (now : Z) (c : t) : t * list Action :=
  let c0 := set_inFlight (fetchesInFlight c) (pred (sdkStartsInFlight c)) c in
  match rejected with
  | None =>
      let c1 := resetInactivityTimer now (set_callStartTimeRef (Some now) c0) in
      (set_flags (isEndingCallRef c1) false c1, [Notify CallStarted])
  | Some m => startCallFailed m c0
  end.

(** *** endCall *)

(** [endCall()] up to the registration of the debounce timer. *)
Definition endCall (now : Z) (c : t) : t * list Action :=
  if isEndingCallRef c || isStartingCallRef c then (c, [])
  else if timeSet (callStartTimeRef c)
          && (now - default 0 (callStartTimeRef c) <? MIN_CALL_DURATION_MS)
  then (c, [])
  else (set_operationTimeoutRef (Some EndOperation)
          (set_flags true (isStartingCallRef c) c), []).

(** The debounced body of [endCall]; [threw] is the exception of
    [stopCall()], if any. *)
Definition endCallTimeout (threw : option string) (c : t) : t * list Action :=
  if negb (clientRef c) then (set_flags false (isStartingCallRef c) c, [])
  else
    match threw with
    | None => (c, [SdkStopCall])
    | Some m =>
        let (c1, acts) := cleanupClient c in
        (c1, [SdkStopCall; Notify (Error m)] ++ acts ++ [Notify CallEnded])
    end.

(** The debounce timer fires: it runs the body registered last. *)
Definition operationTimeout (threw : option string) (c : t) : option (t * list Action) :=
  match operationTimeoutRef c with
  | Some StartOperation => Some (startCallTimeout (set_operationTimeoutRef None c))
  | Some EndOperation => Some (endCallTimeout threw (set_operationTimeoutRef None c))
  | None => None
  end.

(** The inactivity watchdog fires. *)
Definition inactivityTimeout (now : Z) (c : t) : t * list Action :=
  let c0 := set_inactivityTimerRef false c in
  if timeSet (callStartTimeRef c0)
     && (MIN_CALL_DURATION_MS <? now - default 0 (callStartTimeRef c0))
  then endCall now c0 else (c0, []).

End RetellClient.

(** ** The useWakeWordDetection hook *)

Module WakeWord.

Definition WAKE_WORD : string := VoiceBot.WAKE_WORD.

(** What a handler does to the outside: it invokes [onWakeWordDetected] or
    [onError] of the parent, drives the recognition engine, or shows the
    "Browser Not Supported" toast. *)
Inductive Action :=
| WakeWordDetected
| RecognitionError (kind : string)
| EngineStart
| EngineStop
| ToastNotSupported.

Record t := {
  recognitionRef : bool;            (* a SpeechRecognition object is held *)
  isRecognitionActiveRef : bool;
  wakeWordDetectedRef : bool;
  lastErrorTimeRef : Z;
  restartTimerRef : option Q;       (* pending restart timer and its delay, ms *)
  setupAttemptRef : nat;
  retryTimers : nat                 (* pending 1000 ms retries of a failed start *)
}.

Definition initial : t := {|
  recognitionRef := false; isRecognitionActiveRef := false;
  wakeWordDetectedRef := false; lastErrorTimeRef := 0;
  restartTimerRef := None; setupAttemptRef := 0; retryTimers := 0
|}.

Definition set_active (a : bool) (m : t) : t :=
  {| recognitionRef := recognitionRef m; isRecognitionActiveRef := a;
     wakeWordDetectedRef := wakeWordDetectedRef m;
     lastErrorTimeRef := lastErrorTimeRef m;
     restartTimerRef := restartTimerRef m;
     setupAttemptRef := setupAttemptRef m; retryTimers := retryTimers m |}.

Definition set_detected (d : bool) (m : t) : t :=
  {| recognitionRef := recognitionRef m;
     isRecognitionActiveRef := isRecognitionActiveRef m;
     wakeWordDetectedRef := d;
     lastErrorTimeRef := lastErrorTimeRef m;
     restartTimerRef := restartTimerRef m;
     setupAttemptRef := setupAttemptRef m; retryTimers := retryTimers m |}.

Definition set_lastErrorTime (v : Z) (m : t) : t :=
  {| recognitionRef := recognitionRef m;
     isRecognitionActiveRef := isRecognitionActiveRef m;
     wakeWordDetectedRef := wakeWordDetectedRef m;
     lastErrorTimeRef := v;
     restartTimerRef := restartTimerRef m;
     setupAttemptRef := setupAttemptRef m; retryTimers := retryTimers m |}.

Definition set_restartTimer (r : option Q) (m : t) : t :=
  {| recognitionRef := recognitionRef m;
     isRecognitionActiveRef := isRecognitionActiveRef m;
     wakeWordDetectedRef := wakeWordDetectedRef m;
     lastErrorTimeRef := lastErrorTimeRef m;
     restartTimerRef := r;
     setupAttemptRef := setupAttemptRef m; retryTimers := retryTimers m |}.

Definition set_setupAttempt (n : nat) (m : t) : t :=
  {| recognitionRef := recognitionRef m;
     isRecognitionActiveRef := isRecognitionActiveRef m;
     wakeWordDetectedRef := wakeWordDetectedRef m;
     lastErrorTimeRef := lastErrorTimeRef m;
     restartTimerRef := restartTimerRef m;
     setupAttemptRef := n; retryTimers := retryTimers m |}.

Definition set_recognition (r : bool) (m : t) : t :=
  {| recognitionRef := r;
     isRecognitionActiveRef := isRecognitionActiveRef m;
     wakeWordDetectedRef := wakeWordDetectedRef m;
     lastErrorTimeRef := lastErrorTimeRef m;
     restartTimerRef := restartTimerRef m;
     setupAttemptRef := setupAttemptRef m; retryTimers := retryTimers m |}.

Definition set_retryTimers (n : nat) (m : t) : t :=
  {| recognitionRef := recognitionRef m;
     isRecognitionActiveRef := isRecognitionActiveRef m;
     wakeWordDetectedRef := wakeWordDetectedRef m;
     lastErrorTimeRef := lastErrorTimeRef m;
     restartTimerRef := restartTimerRef m;
     setupAttemptRef := setupAttemptRef m; retryTimers := n |}.

(** [safelyStopRecognition()]; [recognition.stop()] does not throw. *)
Definition safelyStopRecognition (m : t) : t * list Action :=
  if recognitionRef m && isRecognitionActiveRef m
  then (set_active false m, [EngineStop]) else (m, []).

(** [cleanup()] *)
Definition cleanup (m : t) : t * list Action :=
  let (m1, acts) := safelyStopRecognition (set_restartTimer None m) in
  (set_setupAttempt 0 (set_active false (set_detected false m1)), acts).

(** What the browser answers to [setupRecognition()]. *)
Inductive SetupOutcome :=
| NotSupported       (* neither SpeechRecognition nor webkitSpeechRecognition *)
| ConstructorThrew
| Created.

(** [setupRecognition()]: the state, whether it returned [true], and the
    actions. *)
Definition setupRecognition (o : SetupOutcome) (m : t) : t * bool * list Action :=
  let (m1, acts) := cleanup m in
  match o with
  | NotSupported =>
      (m1, false, acts ++ (if (setupAttemptRef m1 =? 0)%nat then [ToastNotSupported] else []))
  | ConstructorThrew => (m1, false, acts)
  | Created => (set_recognition true m1, true, acts)
  end.

(** The [try]/[catch] around [recognition.start()] in [startDetection]. *)
Definition tryStart (startThrows : bool) (m : t) : t * list Action :=
  if recognitionRef m && negb (isRecognitionActiveRef m) then
    if startThrows then
      let m1 := set_setupAttempt (S (setupAttemptRef m)) (set_active false m) in
      (if (setupAttemptRef m1 <? 5)%nat
       then set_retryTimers (S (retryTimers m1)) m1 else m1, [EngineStart])
    else (set_setupAttempt 0 (set_active true m), [EngineStart])
  else (m, []).

(** [startDetection()] *)
Definition startDetection (o : SetupOutcome) (startThrows : bool) (m : t) : t * list Action :=
  if isRecognitionActiveRef m then (m, [])
  else
    let m1 := set_detected false m in
    if negb (recognitionRef m1) then
      match setupRecognition o m1 with
      | (m2, false, acts) => (set_setupAttempt (S (setupAttemptRef m2)) m2, acts)
      | (m2, true, acts) =>
          let (m3, acts') := tryStart startThrows m2 in (m3, acts ++ acts')
      end
    else tryStart startThrows m1.

(** [stopDetection()] *)
Definition stopDetection (m : t) : t * list Action :=
  let (m1, acts) := safelyStopRecognition m in
  (set_restartTimer None m1, acts).

(** [recognition.onresult]; [transcripts] are the texts of the first
    alternative of each result of the event. *)
Definition onresult (transcripts : list string) (m : t) : t * list Action :=
  if wakeWordDetectedRef m then (m, [])
  else
    let transcript := JS.join " " (map JS.toLowerCase transcripts) in
    if JS.includes WAKE_WORD transcript then
      let (m1, acts) := safelyStopRecognition (set_detected true m) in
      (m1, acts ++ [WakeWordDetected])
    else (m, []).

(** [Math.min(1000 * Math.pow(1.5, n), 10000)].  The doubles involved are
    exact: 1.5^n = 3^n / 2^n is a dyadic rational with a numerator below
    2^53 for every [n] at which the product stays below the cap. *)
Definition restartDelay (n : nat) : Q :=
  Qmin (Qmult (1000 # 1) (Qpower (3 # 2) (Z.of_nat n))) (10000 # 1).

(** [recognition.onend]; [isActive] is the prop of the hook. *)
Definition onend (isActive : bool) (m : t) : t :=
  let m1 := set_active false m in
  if negb (wakeWordDetectedRef m1) && isActive
  then set_restartTimer (Some (restartDelay (setupAttemptRef m1))) m1
  else m1.

(** The restart timer registered by [onend] fires. *)
Definition restartTimeout (isActive : bool) (o : SetupOutcome) (startThrows : bool)
    (m : t) : t * list Action :=
  let m1 := set_restartTimer None m in
  if isActive && negb (wakeWordDetectedRef m1)
  then startDetection o startThrows m1 else (m1, []).

(** The 1000 ms retry registered by a failed start fires. *)
Definition retryTimeout (isActive : bool) (o o' : SetupOutcome) (startThrows : bool)
    (m : t) : t * list Action :=
  let m0 := set_retryTimers (pred (retryTimers m)) m in
  if isActive then
    let '(m1, _, acts) := setupRecognition o m0 in
    let (m2, acts') := startDetection o' startThrows m1 in
    (m2, acts ++ acts')
  else (m0, []).

(** [recognition.onerror] *)
Definition onerror (now : Z) (errorType : string) (m : t) : t * list Action :=
  let m1 := set_active false m in
  if negb (String.eqb errorType "aborted") && (5000 <? now - lastErrorTimeRef m1) then
    (set_lastErrorTime now m1,
     if negb (String.eqb errorType "no-speech") then [RecognitionError errorType] else [])
  else (m1, []).

End WakeWord.

(** ** The page: component, hook and monitor wired together *)

Module App.

(** What the environment supplies to one handler run: the clock reading,
    the identifiers [uuidv4()] returns, in the order they are drawn, and,
    for an event that settles a request, which of the requests in flight
    it is, counted from the oldest. *)
Record Env := { now : Z; uuid : nat -> string; which : nat }.

(** Everything the three parts did to the outside, oldest first. *)
Inductive Output :=
| Transport (a : RetellClient.Action)
| Recognition (a : WakeWord.Action)
| WakeWordToast (e : string).

(** What a callback of the monitor hook holds of the render that made it:
    the [isActive] prop and, through [onWakeWordDetected], what the
    component's [handleWakeWordDetected] has seen. *)
Record Closure := { isActive : bool; seen : VoiceBot.Snapshot }.

(** The callbacks held outside the component.  The callbacks the hook's
    [startCall] and [endCall] hold are those of the render that made them;
    what matters of them is what their [startWakeWordDetection] has seen. *)
Record Pending := {
  bootTimer : bool;                       (* 1500 ms timer of the listen-by-default effect *)
  detectionTimer : option Closure;        (* 500 ms timer of the isActive effect *)
  recognitionHandlers : option Closure;   (* onresult, onend, onerror of the recognition object *)
  retries : list Closure;                 (* 1000 ms retries of startDetection, oldest first *)
  operation : option VoiceBot.Snapshot;   (* debounced body of startCall / endCall *)
  fetches : list VoiceBot.Snapshot;       (* startCall bodies awaiting create-call, oldest first *)
  sdkStartCalls : list VoiceBot.Snapshot  (* startCall bodies awaiting the SDK, oldest first *)
}.

Record t := {
  bot : VoiceBot.t;
  client : RetellClient.t;
  monitor : WakeWord.t;
  trace : list Output;
  pending : Pending
}.

Definition set_bootTimer (v : bool) (p : Pending) : Pending :=
  {| bootTimer := v; detectionTimer := detectionTimer p;
     recognitionHandlers := recognitionHandlers p; retries := retries p;
     operation := operation p; fetches := fetches p; sdkStartCalls := sdkStartCalls p |}.

Definition set_detectionTimer (v : option Closure) (p : Pending) : Pending :=
  {| bootTimer := bootTimer p; detectionTimer := v;
     recognitionHandlers := recognitionHandlers p; retries := retries p;
     operation := operation p; fetches := fetches p; sdkStartCalls := sdkStartCalls p |}.

Definition set_recognitionHandlers (v : option Closure) (p : Pending) : Pending :=
  {| bootTimer := bootTimer p; detectionTimer := detectionTimer p;
     recognitionHandlers := v; retries := retries p;
     operation := operation p; fetches := fetches p; sdkStartCalls := sdkStartCalls p |}.

Definition set_retries (v : list Closure) (p : Pending) : Pending :=
  {| bootTimer := bootTimer p; detectionTimer := detectionTimer p;
     recognitionHandlers := recognitionHandlers p; retries := v;
     operation := operation p; fetches := fetches p; sdkStartCalls := sdkStartCalls p |}.

Definition set_operation (v : option VoiceBot.Snapshot) (p : Pending) : Pending :=
  {| bootTimer := bootTimer p; detectionTimer := detectionTimer p;
     recognitionHandlers := recognitionHandlers p; retries := retries p;
     operation := v; fetches := fetches p; sdkStartCalls := sdkStartCalls p |}.

Definition set_fetches (v : list VoiceBot.Snapshot) (p : Pending) : Pending :=
  {| bootTimer := bootTimer p; detectionTimer := detectionTimer p;
     recognitionHandlers := recognitionHandlers p; retries := retries p;
     operation := operation p; fetches := v; sdkStartCalls := sdkStartCalls p |}.

Definition set_sdkStartCalls (v : list VoiceBot.Snapshot) (p : Pending) : Pending :=
  {| bootTimer := bootTimer p; detectionTimer := detectionTimer p;
     recognitionHandlers := recognitionHandlers p; retries := retries p;
     operation := operation p; fetches := fetches p; sdkStartCalls := v |}.

(** The state once the mount effects have run: the client is initialised,
    so the listen-by-default effect has registered its timer. *)
Definition mounted : t := {|
  bot := VoiceBot.initial;
  client := fst (RetellClient.initializeClient RetellClient.initial);
  monitor := WakeWord.initial;
  trace := [];
  pending := {| bootTimer := true; detectionTimer := None;
                recognitionHandlers := None; retries := [];
                operation := None; fetches := []; sdkStartCalls := [] |}
|}.

Definition listening (s : t) : bool := VoiceBot.isListeningForWakeWord (VoiceBot.state (bot s)).
Definition callActive (s : t) : bool := VoiceBot.isCallActive (VoiceBot.state (bot s)).
Definition loading (s : t) : bool := VoiceBot.isLoading (VoiceBot.state (bot s)).
Definition log (s : t) : list VoiceBot.Message := VoiceBot.messages (VoiceBot.state (bot s)).

(** What the callbacks of the latest render see. *)
Definition current (s : t) : VoiceBot.Snapshot := VoiceBot.snapshot (VoiceBot.state (bot s)).

(** What the callbacks of the first render have seen. *)
Definition first : VoiceBot.Snapshot := VoiceBot.snapshot VoiceBot.initialState.

Definition set_bot (b : VoiceBot.t) (s : t) : t :=
  {| bot := b; client := client s; monitor := monitor s; trace := trace s;
     pending := pending s |}.

Definition set_pending (p : Pending) (s : t) : t :=
  {| bot := bot s; client := client s; monitor := monitor s; trace := trace s;
     pending := p |}.

(** The [k]-th element of a list of requests in flight and the others; an
    index past the end means the last. *)
Definition takeAt {A} (k : nat) (l : list A) : option (A * list A) :=
  let i := Nat.min k (pred (length l)) in
  match l !! i with
  | Some x => Some (x, delete i l)
  | None => None
  end.

(** One callback of the hook, run by the component; [seen] is what the
    render that made the callback has seen. *)
Definition notify (seen : VoiceBot.Snapshot) (id : string) (now : Z)
    (cb : RetellClient.Callback) (b : VoiceBot.t) : VoiceBot.t :=
  match cb with
  | RetellClient.CallStarted => VoiceBot.onCallStarted b
  | RetellClient.CallEnded => VoiceBot.onCallEnded seen b
  | RetellClient.Error m => VoiceBot.onError seen m b
  | RetellClient.Loading l => VoiceBot.onLoading l b
  | RetellClient.TranscriptUpdate r c => VoiceBot.transcriptUpdate id now r c b
  | RetellClient.ResponseUpdate c => VoiceBot.responseUpdate id now c b
  | RetellClient.SentenceComplete => VoiceBot.sentenceComplete b
  end.

(** The actions of one run of a hook handler, in order; the [k]-th callback
    draws the [k]-th identifier. *)
Fixpoint deliver (env : Env) (seen : VoiceBot.Snapshot) (k : nat)
    (acts : list RetellClient.Action) (b : VoiceBot.t) : VoiceBot.t :=
  match acts with
  | [] => b
  | RetellClient.Notify cb :: r =>
      deliver env seen (S k) r (notify seen (uuid env k) (now env) cb b)
  | _ :: r => deliver env seen k r b
  end.

Definition fromClient (env : Env) (seen : VoiceBot.Snapshot)
    (r : RetellClient.t * list RetellClient.Action) (s : t) : t :=
  {| bot := deliver env seen 0 (snd r) (bot s);
     client := fst r;
     monitor := monitor s;
     trace := trace s ++ map Transport (snd r);
     pending := pending s |}.

(** The actions of one run of a monitor handler; [seen] is what the
    [onWakeWordDetected] of the handler has seen. *)
Fixpoint hear (env : Env) (seen : VoiceBot.Snapshot) (acts : list WakeWord.Action)
    (s : t) : t :=
  match acts with
  | [] => s
  | a :: r =>
      let s1 :=
        match a with
        | WakeWord.WakeWordDetected =>
            {| bot := VoiceBot.handleWakeWordDetected seen (uuid env 0) (now env) (bot s);
               client := client s; monitor := monitor s;
               trace := trace s ++ [Recognition a]; pending := pending s |}
        | WakeWord.RecognitionError e =>
            {| bot := bot s; client := client s; monitor := monitor s;
               trace := trace s ++ Recognition a ::
                          (if VoiceBot.handleWakeWordError e then [WakeWordToast e] else []);
               pending := pending s |}
        | _ =>
            {| bot := bot s; client := client s; monitor := monitor s;
               trace := trace s ++ [Recognition a]; pending := pending s |}
        end in
      hear env seen r s1
  end.

Definition fromMonitor (env : Env) (seen : VoiceBot.Snapshot)
    (r : WakeWord.t * list WakeWord.Action) (s : t) : t :=
  hear env seen (snd r)
    {| bot := bot s; client := client s; monitor := fst r; trace := trace s;
       pending := pending s |}.

(** The hook's [startCall()], called by a callback that has seen [seen]:
    when the request is taken, the debounce timer holds the body of that
    [startCall]. *)
Definition startCall (env : Env) (seen : VoiceBot.Snapshot) (s : t) : t :=
  let r := RetellClient.startCall (client s) in
  let s1 := fromClient env seen r s in
  if negb (RetellClient.isStartingCallRef (client s)) && RetellClient.isStartingCallRef (fst r)
  then set_pending (set_operation (Some seen) (pending s1)) s1
  else s1.

(** The hook's [endCall()], likewise. *)
Definition endCall (env : Env) (seen : VoiceBot.Snapshot) (s : t) : t :=
  let r := RetellClient.endCall (now env) (client s) in
  let s1 := fromClient env seen r s in
  if negb (RetellClient.isEndingCallRef (client s)) && RetellClient.isEndingCallRef (fst r)
  then set_pending (set_operation (Some seen) (pending s1)) s1
  else s1.

(** [handleStartCall()], from the button. *)
Definition handleStartCall (env : Env) (s : t) : t :=
  let b := bot s in
  if VoiceBot.isStartingCallRef b || callActive s || loading s then s
  else
    let b1 :=
      VoiceBot.with_state
        (fun st => VoiceBot.set_isListeningForWakeWord false (VoiceBot.set_error None st))
        (VoiceBot.set_isStartingCallRef true b) in
    let s1 := startCall env (current s) (set_bot b1 s) in
    set_bot (VoiceBot.set_isStartingCallRef false (bot s1)) s1.

(** [handleEndCall()], from the button. *)
Definition handleEndCall (env : Env) (s : t) : t :=
  let b1 := VoiceBot.with_state (VoiceBot.set_isLoading true) (bot s) in
  endCall env (current s) (set_bot b1 s).

(** The body of the oldest 800 ms timer of [handleWakeWordDetected]. *)
Definition startCallTimeout (env : Env) (s : t) : t :=
  match VoiceBot.startCallTimers (bot s) with
  | [] => s
  | seen :: rest =>
      let s1 := startCall env seen (set_bot (VoiceBot.set_startCallTimers rest (bot s)) s) in
      set_bot (VoiceBot.set_isStartingCallRef false (bot s1)) s1
  end.

(** The body of the oldest 1500 ms timer of [onCallEnded] / [onError]. *)
Definition listenTimeout (env : Env) (s : t) : t :=
  match VoiceBot.listenTimers (bot s) with
  | [] => s
  | seen :: rest =>
      set_bot (VoiceBot.startWakeWordDetectionOf seen (uuid env 0) (now env)
                 (VoiceBot.set_listenTimers rest (bot s))) s
  end.

(** The debounced body of [startCall] / [endCall]; a [startCall] body goes
    on to await the create-call request. *)
Definition operationTimeout (env : Env) (threw : option string) (s : t) : t :=
  match operation (pending s), RetellClient.operationTimeout threw (client s) with
  | Some seen, Some r =>
      let s1 := fromClient env seen r s in
      let p := set_operation None (pending s1) in
      set_pending
        (if (RetellClient.fetchesInFlight (client s) <? RetellClient.fetchesInFlight (fst r))%nat
         then set_fetches (fetches p ++ [seen]) p else p) s1
  | _, _ => s
  end.

(** The inactivity timer holds the [endCall] of the first render:
    [resetInactivityTimer] is a [useCallback] with no dependencies. *)
Definition inactivityTimeout (env : Env) (s : t) : t :=
  let r := RetellClient.inactivityTimeout (now env) (client s) in
  let s1 := fromClient env first r s in
  if negb (RetellClient.isEndingCallRef (client s)) && RetellClient.isEndingCallRef (fst r)
  then set_pending (set_operation (Some first) (pending s1)) s1
  else s1.

(** The create-call request of one [startCall] body settles; the body goes
    on to await the SDK when it has called [startCall] of the SDK. *)
Definition fetchSettled (env : Env) (o : RetellClient.FetchOutcome) (tyErr : string)
    (s : t) : t :=
  match takeAt (which env) (fetches (pending s)) with
  | Some (seen, rest) =>
      let r := RetellClient.fetchSettled o tyErr (client s) in
      let s1 := fromClient env seen r s in
      let p := set_fetches rest (pending s1) in
      set_pending
        (if (RetellClient.sdkStartsInFlight (client s) <?
             RetellClient.sdkStartsInFlight (fst r))%nat
         then set_sdkStartCalls (sdkStartCalls p ++ [seen]) p else p) s1
  | None => s
  end.

(** The SDK's [startCall] of one [startCall] body settles. *)
Definition sdkStartSettled (env : Env) (rejected : option string) (s : t) : t :=
  match takeAt (which env) (sdkStartCalls (pending s)) with
  | Some (seen, rest) =>
      let s1 :=
        fromClient env seen (RetellClient.sdkStartSettled rejected (now env) (client s)) s in
      set_pending (set_sdkStartCalls rest (pending s1)) s1
  | None => s
  end.

(** After a run of [startDetection] by the callback [cl]: a recognition
    object it has created holds the handlers of [cl], and so does a retry
    it has registered. *)
Definition afterStart (cl : Closure) (created : bool) (before after : WakeWord.t)
    (p : Pending) : Pending :=
  let p1 := if created then set_recognitionHandlers (Some cl) p else p in
  if (WakeWord.retryTimers before <? WakeWord.retryTimers after)%nat
  then set_retries (retries p1 ++ [cl]) p1 else p1.

Definition isCreated (o : WakeWord.SetupOutcome) : bool :=
  match o with WakeWord.Created => true | _ => false end.

(** The 500 ms timer of the [isActive] effect: [startDetection()]. *)
Definition detectionTimeout (env : Env) (o : WakeWord.SetupOutcome) (startThrows : bool)
    (s : t) : t :=
  match detectionTimer (pending s) with
  | Some cl =>
      let m := monitor s in
      let r := WakeWord.startDetection o startThrows m in
      let s1 := fromMonitor env (seen cl) r s in
      set_pending
        (afterStart cl (negb (WakeWord.recognitionRef m) && WakeWord.recognitionRef (fst r))
           m (fst r) (set_detectionTimer None (pending s1))) s1
  | None => s
  end.

(** The restart timer of [recognition.onend]: the callback is the one the
    recognition object holds. *)
Definition restartTimeout (env : Env) (o : WakeWord.SetupOutcome) (startThrows : bool)
    (s : t) : t :=
  match recognitionHandlers (pending s) with
  | Some cl =>
      let m := monitor s in
      let r := WakeWord.restartTimeout (isActive cl) o startThrows m in
      let s1 := fromMonitor env (seen cl) r s in
      set_pending
        (afterStart cl (negb (WakeWord.recognitionRef m) && WakeWord.recognitionRef (fst r))
           m (fst r) (pending s1)) s1
  | None => s
  end.

(** The oldest 1000 ms retry of a failed start: [setupRecognition();
    startDetection()] of the [startDetection] that failed. *)
Definition retryTimeout (env : Env) (o o' : WakeWord.SetupOutcome) (startThrows : bool)
    (s : t) : t :=
  match retries (pending s) with
  | cl :: rest =>
      let m := monitor s in
      let r := WakeWord.retryTimeout (isActive cl) o o' startThrows m in
      let s1 := fromMonitor env (seen cl) r s in
      set_pending
        (afterStart cl
           (isActive cl &&
            (isCreated o || negb (WakeWord.recognitionRef m) && WakeWord.recognitionRef (fst r)))
           (WakeWord.set_retryTimers (pred (WakeWord.retryTimers m)) m) (fst r)
           (set_retries rest (pending s1))) s1
  | [] => s
  end.

(** An event of the recognition object: the handler is the one made when
    the object was. *)
Definition recognition (env : Env)
    (handler : Closure -> WakeWord.t -> WakeWord.t * list WakeWord.Action) (s : t) : t :=
  match recognitionHandlers (pending s) with
  | Some cl => fromMonitor env (seen cl) (handler cl (monitor s)) s
  | None => s
  end.

Inductive Event :=
| ClickListenButton  (* "Listen for Wake Word" / "Stop Listening" *)
| ClickCallButton    (* "Start Call" / "End Call" *)
| BootTimer          (* 1500 ms timer of the listen-by-default effect *)
| ListenTimer        (* 1500 ms timer of onCallEnded / onError *)
| StartCallTimer     (* 800 ms timer of handleWakeWordDetected *)
| OperationTimer (threw : option string)
                     (* debounce timer of the hook; what stopCall() throws *)
| InactivityTimer
| FetchSettled (o : RetellClient.FetchOutcome) (tyErr : string)
| SdkStartSettled (rejected : option string)
| SdkUpdate (u : RetellClient.Update)
| SdkSentenceComplete
| SdkError (message : option string)
| SdkCallEnded
| DetectionTimer (o : WakeWord.SetupOutcome) (startThrows : bool)
                     (* 500 ms timer of the isActive effect *)
| RestartTimer (o : WakeWord.SetupOutcome) (startThrows : bool)
| RetryTimer (o o' : WakeWord.SetupOutcome) (startThrows : bool)
| RecognitionResult (transcripts : list string)
| RecognitionEnd
| RecognitionFailed (kind : string).

Definition isSome {A} (o : option A) : bool :=
  match o with Some _ => true | None => false end.

Definition nonEmpty {A} (l : list A) : bool :=
  match l with [] => false | _ => true end.

(** Whether the environment can deliver the event: a button must be
    enabled, a timer registered, a request in flight, an emitter held. *)
Definition enabled (e : Event) (s : t) : bool :=
  match e with
  | ClickListenButton => negb (callActive s)
  | ClickCallButton => negb (loading s || listening s)
  | BootTimer => bootTimer (pending s)
  | ListenTimer => nonEmpty (VoiceBot.listenTimers (bot s))
  | StartCallTimer => nonEmpty (VoiceBot.startCallTimers (bot s))
  | OperationTimer _ =>
      isSome (RetellClient.operationTimeoutRef (client s)) && isSome (operation (pending s))
  | InactivityTimer => RetellClient.inactivityTimerRef (client s)
  | FetchSettled _ _ =>
      (0 <? RetellClient.fetchesInFlight (client s))%nat && nonEmpty (fetches (pending s))
  | SdkStartSettled _ =>
      (0 <? RetellClient.sdkStartsInFlight (client s))%nat &&
      nonEmpty (sdkStartCalls (pending s))
  | SdkUpdate _ | SdkSentenceComplete | SdkError _ | SdkCallEnded =>
      RetellClient.clientRef (client s)
  | DetectionTimer _ _ => isSome (detectionTimer (pending s))
  | RestartTimer _ _ =>
      isSome (WakeWord.restartTimerRef (monitor s)) && isSome (recognitionHandlers (pending s))
  | RetryTimer _ _ _ =>
      (0 <? WakeWord.retryTimers (monitor s))%nat && nonEmpty (retries (pending s))
  | RecognitionResult _ | RecognitionEnd | RecognitionFailed _ =>
      WakeWord.recognitionRef (monitor s) && isSome (recognitionHandlers (pending s))
  end.

(** The handler the event runs.  The listeners of the SDK client are
    registered again by every render, so they hold the callbacks of the
    latest one. *)
Definition handle (env : Env) (e : Event) (s : t) : t :=
  match e with
  | ClickListenButton =>
      if listening s then set_bot (VoiceBot.stopWakeWordDetection (bot s)) s
      else set_bot (VoiceBot.startWakeWordDetection (uuid env 0) (now env) (bot s)) s
  | ClickCallButton =>
      if callActive s then handleEndCall env s else handleStartCall env s
  | BootTimer =>
      set_pending (set_bootTimer false (pending s))
        (set_bot (VoiceBot.startWakeWordDetection (uuid env 0) (now env) (bot s)) s)
  | ListenTimer => listenTimeout env s
  | StartCallTimer => startCallTimeout env s
  | OperationTimer threw => operationTimeout env threw s
  | InactivityTimer => inactivityTimeout env s
  | FetchSettled o tyErr => fetchSettled env o tyErr s
  | SdkStartSettled rej => sdkStartSettled env rej s
  | SdkUpdate u =>
      fromClient env (current s) (RetellClient.onUpdate (now env) u (client s)) s
  | SdkSentenceComplete =>
      fromClient env (current s) (RetellClient.onSentenceComplete (now env) (client s)) s
  | SdkError m => fromClient env (current s) (RetellClient.onSdkError m (client s)) s
  | SdkCallEnded => fromClient env (current s) (RetellClient.onSdkCallEnded (client s)) s
  | DetectionTimer o th => detectionTimeout env o th s
  | RestartTimer o th => restartTimeout env o th s
  | RetryTimer o o' th => retryTimeout env o o' th s
  | RecognitionResult ts => recognition env (fun _ => WakeWord.onresult ts) s
  | RecognitionEnd => recognition env (fun cl m => (WakeWord.onend (isActive cl) m, [])) s
  | RecognitionFailed k => recognition env (fun _ => WakeWord.onerror (now env) k) s
  end.

(** The effects of the render that follows a handler.  Both compare their
    dependencies with those of the render before: the callbacks
    [startWakeWordDetection] and [handleWakeWordDetected] (and with the
    latter [setupRecognition] and [startDetection]) are new when
    [state.messages], [state.isCallActive] or [state.isLoading] is. *)
Definition callbacksChanged (before after : t) : bool :=
  negb (Bool.eqb (callActive before) (callActive after)) ||
  negb (Bool.eqb (loading before) (loading after)) ||
  negb (VoiceBot.messagesId (bot before) =? VoiceBot.messagesId (bot after))%nat.

(** Listen by default: when a dependency has changed, the 1500 ms timer is
    cleared, and registered again if the client is initialised and no call
    is active or loading. *)
Definition listenByDefault (before after : t) : t :=
  if callbacksChanged before after ||
     negb (Bool.eqb (RetellClient.isInitialized (client before))
             (RetellClient.isInitialized (client after)))
  then
    set_pending
      (set_bootTimer
         (RetellClient.isInitialized (client after) && negb (callActive after) &&
          negb (loading after)) (pending after)) after
  else after.

(** The [isActive] effect of the monitor: when a dependency has changed,
    the clean-up of an effect that ran with [isActive] clears the 500 ms
    timer and calls [stopDetection()]; the new effect registers the timer
    when [isActive], and calls [stopDetection()] otherwise. *)
Definition isActiveEffect (env : Env) (before after : t) : t :=
  if callbacksChanged before after ||
     negb (Bool.eqb (listening before) (listening after))
  then
    let s1 :=
      if listening before || negb (listening after)
      then fromMonitor env (current after) (WakeWord.stopDetection (monitor after)) after
      else after in
    set_pending
      (set_detectionTimer
         (if listening after
          then Some {| isActive := listening after; seen := current after |}
          else None) (pending s1)) s1
  else after.

Definition rendered (env : Env) (before after : t) : t :=
  isActiveEffect env before (listenByDefault before after).

(** One event: its handler, then the effects of the new render. *)
Definition step (env : Env) (e : Event) (s : t) : option t :=
  if enabled e s then Some (rendered env s (handle env e s)) else None.

Fixpoint run (es : list (Env * Event)) (s : t) : option t :=
  match es with
  | [] => Some s
  | (env, e) :: r =>
      match step env e s with
      | Some s1 => run r s1
      | None => None
      end
  end.

(** How many create-call requests and SDK [startCall]s the trace holds. *)
Definition isFetch (o : Output) : bool :=
  match o with Transport RetellClient.FetchCreateCall => true | _ => false end.

Definition isSdkStart (o : Output) : bool :=
  match o with Transport RetellClient.SdkStartCall => true | _ => false end.

Definition opens (s : t) : nat := length (List.filter isFetch (trace s)).

Definition sdkStarts (s : t) : nat := length (List.filter isSdkStart (trace s)).

End App.

(** ** The call-history route: GET /api/retell/get-calls *)

Module GetCalls.

(** [CustomAnalysisData], the keys the route reads. *)
Record CustomAnalysisData := {
  name : option string;
  name_of_the_kid : option string;
  age_of_kid : option string;
  scenario : option string;
  our_advice : option string;
  what_caller_did_for_the_situation : option string
}.

(** [CallAnalysis], the fields the route reads. *)
Record CallAnalysis := {
  user_sentiment : option string;
  call_successful : option bool;
  call_summary : option string;
  custom_analysis_data : option CustomAnalysisData
}.

(** [RetellCall]; [duration] in milliseconds. *)
Record RetellCall := {
  call_id : string;
  call_status : string;
  duration : option Z;
  created_at : option string;
  call_analysis : option CallAnalysis
}.

Record TransformedAnalysis := {
  t_name : string;
  kidName : string;
  kidAge : string;
  t_scenario : string;
  advice : string;
  callerAction : string;
  callSummary : string;
  userSentiment : string;
  callSuccessful : bool
}.

Record TransformedCall := {
  t_call_id : string;
  t_call_status : string;
  t_duration : option Z;
  t_created_at : string;
  analysis : TransformedAnalysis
}.

(** [x || d] for an optional string. *)
Definition orString (x : option string) (d : string) : string :=
  match x with
  | Some s => if JS.truthy s then s else d
  | None => d
  end.

(** [x || false] for an optional boolean. *)
Definition orFalse (x : option bool) : bool :=
  match x with Some b => b | None => false end.

(** [{}] read as custom analysis data, and as a call analysis. *)
Definition noCustomAnalysis : CustomAnalysisData :=
  {| name := None; name_of_the_kid := None; age_of_kid := None;
     scenario := None; our_advice := None;
     what_caller_did_for_the_situation := None |}.

Definition noAnalysis : CallAnalysis :=
  {| user_sentiment := None; call_successful := None; call_summary := None;
     custom_analysis_data := None |}.

(** The body of the [try] block for one call; [detailedCall] is what
    [client.call.retrieve] resolved to and [nowIso] is
    [new Date().toISOString()]. *)
Definition transformCall (nowIso : string) (call detailedCall : RetellCall)
    : TransformedCall :=
  let callAnalysis := default noAnalysis (call_analysis detailedCall) in
  let customAnalysis := default noCustomAnalysis (custom_analysis_data callAnalysis) in
  {| t_call_id := call_id call;
     t_call_status := call_status call;
     t_duration := duration call;
     t_created_at := orString (created_at call) nowIso;
     analysis :=
       {| t_name := orString (name customAnalysis) EmptyString;
          kidName := orString (name_of_the_kid customAnalysis) EmptyString;
          kidAge := orString (age_of_kid customAnalysis) EmptyString;
          t_scenario := orString (scenario customAnalysis) EmptyString;
          advice := orString (our_advice customAnalysis) EmptyString;
          callerAction :=
            orString (what_caller_did_for_the_situation customAnalysis) EmptyString;
          callSummary := orString (call_summary callAnalysis) EmptyString;
          userSentiment := orString (user_sentiment callAnalysis) "Unknown";
          callSuccessful := orFalse (call_successful callAnalysis) |} |}.

(** The body of the [catch] block for one call. *)
Definition defaultCall (nowIso : string) (call : RetellCall) : TransformedCall :=
  {| t_call_id := call_id call;
     t_call_status := call_status call;
     t_duration := duration call;
     t_created_at := orString (created_at call) nowIso;
     analysis :=
       {| t_name := EmptyString; kidName := EmptyString; kidAge := EmptyString;
          t_scenario := EmptyString; advice := EmptyString;
          callerAction := EmptyString; callSummary := EmptyString;
          userSentiment := "Unknown"; callSuccessful := false |} |}.

(** One listed call with what the environment answers while it is
    processed: the outcome of [client.call.retrieve(call.call_id)] ([None]
    when it rejects) and the clock. *)
Record Listed := {
  call : RetellCall;
  retrieved : option RetellCall;
  nowIso : string
}.

Definition withAnalysis (l : Listed) : TransformedCall :=
  match retrieved l with
  | Some detailedCall => transformCall (nowIso l) (call l) detailedCall
  | None => defaultCall (nowIso l) (call l)
  end.

(** What [client.call.list] does. *)
Inductive ListOutcome :=
| ListThrew (message : option string)   (* [None]: the value thrown is no Error *)
| ListInvalid                           (* resolved, but not to an array *)
| ListReturned (calls : list Listed).

(** Requests the route sends to the platform. *)
Inductive Request :=
| ListCalls (limit : Z)
| RetrieveCall (id : string).

(** The response: its status and its body. *)
Inductive Response :=
| Ok (data : list TransformedCall)      (* 200, pagination_key undefined *)
| Failed (status : Z) (error : string).

(** [GET()]; [apiKey] is [serverRetellConfig.apiKey]. *)
Definition GET (apiKey : option string) (o : ListOutcome) : Response * list Request :=
  if negb (JS.truthy (default EmptyString apiKey)) then
    (Failed 400 "API key is required", [])
  else
    match o with
    | ListThrew m => (Failed 500 (default "Internal server error" m), [ListCalls 50])
    | ListInvalid =>
        (Failed 500 "Unexpected response format from Retell API", [ListCalls 50])
    | ListReturned calls =>
        (Ok (map withAnalysis calls),
         ListCalls 50 :: map (fun l => RetrieveCall (call_id (call l))) calls)
    end.

End GetCalls.

(** * Statements

    The predicates and traces the properties below are stated with. *)

(** How many elements of [xs] satisfy [p]. *)
Fixpoint countb {A} (p : A -> bool) (xs : list A) : nat :=
  match xs with
  | [] => 0
  | x :: r => (if p x then 1 else 0) + countb p r
  end.

(** The messages the log invariant counts: the incomplete transcriptions
    of speaker [r]. *)
Definition incompleteTranscription (r : string) (m : VoiceBot.Message) : bool :=
  match VoiceBot.type m with
  | VoiceBot.transcription => VoiceBot.roleIs r m && VoiceBot.notComplete m
  | _ => false
  end.

Definition atMostOneIncomplete (ms : list VoiceBot.Message) : Prop :=
  forall r, (countb (incompleteTranscription r) ms <= 1)%nat.

(** What a reachable log consists of: transcriptions filed under one of the
    two speakers, and responses and system notices, which are complete from
    the start. *)
Definition wellFormed (m : VoiceBot.Message) : Prop :=
  match VoiceBot.type m with
  | VoiceBot.transcription =>
      VoiceBot.role m = Some "user" \/ VoiceBot.role m = Some "assistant"
  | _ => VoiceBot.isComplete m = Some true
  end.

(** The four steps of the merge scenario. *)
Definition mergeScenario (u1 u2 u3 : string) (t1 t2 t3 : Z)
    (st : VoiceBot.VoiceBotState) : VoiceBot.VoiceBotState :=
  VoiceBot.onResponseUpdate u3 t3 "hello"
    (VoiceBot.onSentenceComplete
       (VoiceBot.onTranscriptUpdate u2 t2 "user" "hi there"
          (VoiceBot.onTranscriptUpdate u1 t1 "user" "hi" st))).

(** The same with the assistant's "hello" arriving as a transcript
    fragment instead of a response. *)
Definition mergeScenarioFragment (u1 u2 u3 : string) (t1 t2 t3 : Z)
    (st : VoiceBot.VoiceBotState) : VoiceBot.VoiceBotState :=
  VoiceBot.onTranscriptUpdate u3 t3 "assistant" "hello"
    (VoiceBot.onSentenceComplete
       (VoiceBot.onTranscriptUpdate u2 t2 "user" "hi there"
          (VoiceBot.onTranscriptUpdate u1 t1 "user" "hi" st))).

(** Callbacks as the hook issues them: a transcript fragment carries a
    normalized role. *)
Definition normalizedCallback (cb : RetellClient.Callback) : Prop :=
  match cb with
  | RetellClient.TranscriptUpdate r _ => r = "user" \/ r = "assistant"
  | _ => True
  end.

Definition normalizedAction (a : RetellClient.Action) : Prop :=
  match a with
  | RetellClient.Notify cb => normalizedCallback cb
  | _ => True
  end.

(** A property of logs holds of what a callback has seen. *)
Definition sawOnly (P : list VoiceBot.Message -> Prop) (sn : VoiceBot.Snapshot) : Prop :=
  P (VoiceBot.snapMessages sn).

(** It holds of the log of the component and of what the callbacks held
    by its pending timers have seen. *)
Definition botKeeps (P : list VoiceBot.Message -> Prop) (b : VoiceBot.t) : Prop :=
  P (VoiceBot.messages (VoiceBot.state b)) /\
  Forall (sawOnly P) (VoiceBot.startCallTimers b) /\
  Forall (sawOnly P) (VoiceBot.listenTimers b).

(** It holds of what the callbacks held outside the component have seen. *)
Definition pendingKeeps (P : list VoiceBot.Message -> Prop) (p : App.Pending) : Prop :=
  (forall cl, App.detectionTimer p = Some cl -> sawOnly P (App.seen cl)) /\
  (forall cl, App.recognitionHandlers p = Some cl -> sawOnly P (App.seen cl)) /\
  Forall (fun cl => sawOnly P (App.seen cl)) (App.retries p) /\
  (forall sn, App.operation p = Some sn -> sawOnly P sn) /\
  Forall (sawOnly P) (App.fetches p) /\
  Forall (sawOnly P) (App.sdkStartCalls p).

(** The property holds throughout the page: of the log as it is, and of
    every earlier log a pending callback would put back. *)
Definition throughout (P : list VoiceBot.Message -> Prop) (s : App.t) : Prop :=
  botKeeps P (App.bot s) /\ pendingKeeps P (App.pending s).

(** The callbacks of the monitor hook that the page holds on to were all
    made by a render whose [isActive] prop was true. *)
Definition activeClosures (p : App.Pending) : Prop :=
  (forall cl, App.detectionTimer p = Some cl -> App.isActive cl = true) /\
  (forall cl, App.recognitionHandlers p = Some cl -> App.isActive cl = true) /\
  Forall (fun cl => App.isActive cl = true) (App.retries p).

(** A short session used to exercise the run-level statements: the page
    starts listening, the user starts a call by hand, the call opens, a
    user fragment arrives twice, then a blank one, then a sentence
    boundary and an agent fragment. *)
Definition at_time (n : Z) : App.Env :=
  {| App.now := n; App.uuid := fun k => String (ascii_of_nat (48 + k)) "-id";
     App.which := 0 |}.

Definition fragment (r c : string) : RetellClient.Update :=
  {| RetellClient.transcript := Some [{| RetellClient.role := r; RetellClient.content := c |}];
     RetellClient.response := None |}.

Definition sampleSession : list (App.Env * App.Event) :=
  [ (at_time 1500, App.BootTimer);
    (at_time 2000, App.ClickListenButton);
    (at_time 3000, App.ClickCallButton);
    (at_time 3500, App.OperationTimer None);
    (at_time 3800, App.FetchSettled RetellClient.FetchOk "no client");
    (at_time 4000, App.SdkStartSettled None);
    (at_time 5000, App.SdkUpdate (fragment "user" "hi"));
    (at_time 5500, App.SdkUpdate (fragment "User" "hi there "));
    (at_time 5600, App.SdkUpdate (fragment "user" "  "));
    (at_time 6000, App.SdkSentenceComplete);
    (at_time 7000, App.SdkUpdate (fragment "AGENT" "hello")) ].

(** [r] is the word "agent" up to the case of its letters. *)
Definition isAgentIgnoringCase (r : string) : Prop :=
  exists c1 c2 c3 c4 c5 : ascii,
    r = String c1 (String c2 (String c3 (String c4 (String c5 EmptyString)))) /\
    (c1 = "a"%char \/ c1 = "A"%char) /\
    (c2 = "g"%char \/ c2 = "G"%char) /\
    (c3 = "e"%char \/ c3 = "E"%char) /\
    (c4 = "n"%char \/ c4 = "N"%char) /\
    (c5 = "t"%char \/ c5 = "T"%char).

(** Every character of [s] is white space (in particular, [s] is empty). *)
Fixpoint allWhiteSpace (s : string) : bool :=
  match s with
  | EmptyString => true
  | String c r => JS.isWhiteSpace c && allWhiteSpace r
  end.

(** The errors handed to [onError] along a sequence of "error" events of
    the recognition engine, each with the clock reading of its event. *)
Fixpoint surfaced (evs : list (Z * string)) (m : WakeWord.t) : list (Z * string) :=
  match evs with
  | [] => []
  | (now, kind) :: r =>
      let (m1, acts) := WakeWord.onerror now kind m in
      match acts with
      | [] => surfaced r m1
      | _ => (now, kind) :: surfaced r m1
      end
  end.

(** Every time in the list is more than [gap] after the one before it, and
    the first is more than [gap] after [t0]. *)
Fixpoint spaced (gap t0 : Z) (l : list (Z * string)) : Prop :=
  match l with
  | [] => True
  | (t1, _) :: r => gap < t1 - t0 /\ spaced gap t1 r
  end.

(** The page is loaded; the user presses "Start Call" 1.2 s later; the
    listen-by-default timer fires at 1.5 s; the debounce timer of the
    start fires at 1.7 s. *)
Definition startCallRace : list (App.Env * App.Event) :=
  [ (at_time 1200, App.ClickCallButton);
    (at_time 1500, App.BootTimer);
    (at_time 1700, App.OperationTimer None) ].

(** The same, until the call is open and the monitor has started the
    recognition engine. *)
Definition startCallRaceOpened : list (App.Env * App.Event) :=
  startCallRace ++
  [ (at_time 1900, App.FetchSettled RetellClient.FetchOk "no client");
    (at_time 2100, App.SdkStartSettled None);
    (at_time 2600, App.DetectionTimer WakeWord.Created false) ].

(** The page listens; the wake word is heard at 10.0 s; the user presses
    "Listen for Wake Word" at 10.05 s; the 800 ms timer of the detection
    fires at 10.8 s and the debounce timer of the start at 11.3 s. *)
Definition wakeWordRace : list (App.Env * App.Event) :=
  [ (at_time 1500, App.BootTimer);
    (at_time 2000, App.DetectionTimer WakeWord.Created false);
    (at_time 10000, App.RecognitionResult ["Hey assistant"]);
    (at_time 10050, App.ClickListenButton);
    (at_time 10800, App.StartCallTimer);
    (at_time 11300, App.OperationTimer None) ].

(** The page listens; the wake word is heard at 10.0 s; the user presses
    "Listen for Wake Word" at 10.05 s, so the monitor starts again at
    10.55 s; the 800 ms timer of the first detection fires at 10.8 s; the
    wake word is heard again at 10.9 s; the debounce timer fires at 11.3 s;
    the 800 ms timer of the second detection fires at 11.7 s and its
    debounce timer at 12.2 s.  No create-call request has been answered. *)
Definition doubleActivation : list (App.Env * App.Event) :=
  [ (at_time 1500, App.BootTimer);
    (at_time 2000, App.DetectionTimer WakeWord.Created false);
    (at_time 10000, App.RecognitionResult ["Hey assistant"]);
    (at_time 10050, App.ClickListenButton);
    (at_time 10550, App.DetectionTimer WakeWord.Created false);
    (at_time 10800, App.StartCallTimer);
    (at_time 10900, App.RecognitionResult ["hey assistant"]);
    (at_time 11300, App.OperationTimer None);
    (at_time 11700, App.StartCallTimer);
    (at_time 12200, App.OperationTimer None) ].

Definition isActivation (o : App.Output) : bool :=
  match o with App.Recognition WakeWord.WakeWordDetected => true | _ => false end.

Definition activations (s : App.t) : nat := countb isActivation (App.trace s).

(** ** Further predicates *)

(** The hook after a teardown: no client, no call, no timer, no flag. *)
Definition released (c : RetellClient.t) : Prop :=
  RetellClient.clientRef c = false /\
  RetellClient.callStartTimeRef c = None /\
  RetellClient.lastActivityTimeRef c = None /\
  RetellClient.inactivityTimerRef c = false /\
  RetellClient.isEndingCallRef c = false /\
  RetellClient.isStartingCallRef c = false /\
  RetellClient.operationTimeoutRef c = None.

(** The two operation-in-progress flags of the hook are not both set. *)
Definition oneOperation (c : RetellClient.t) : Prop :=
  RetellClient.isStartingCallRef c && RetellClient.isEndingCallRef c = false.

Definition isCallEnded (a : RetellClient.Action) : bool :=
  match a with RetellClient.Notify RetellClient.CallEnded => true | _ => false end.

Definition isStopCall (a : RetellClient.Action) : bool :=
  match a with RetellClient.SdkStopCall => true | _ => false end.

Definition isTranscriptUpdate (cb : RetellClient.Callback) : bool :=
  match cb with RetellClient.TranscriptUpdate _ _ => true | _ => false end.

Definition isResponseUpdate (cb : RetellClient.Callback) : bool :=
  match cb with RetellClient.ResponseUpdate _ => true | _ => false end.

(** [m'] is what the log may turn [m] into: the same entry, except that an
    incomplete one may have got new content or have been completed. *)
Definition evolves (m m' : VoiceBot.Message) : Prop :=
  VoiceBot.id m' = VoiceBot.id m /\
  VoiceBot.type m' = VoiceBot.type m /\
  VoiceBot.role m' = VoiceBot.role m /\
  VoiceBot.timestamp m' = VoiceBot.timestamp m /\
  (VoiceBot.notComplete m = false -> m' = m).

(** [ms'] keeps every entry of [ms] at its position, evolved. *)
Definition logExtends (ms ms' : list VoiceBot.Message) : Prop :=
  forall i m, ms !! i = Some m -> exists m', ms' !! i = Some m' /\ evolves m m'.

(** The events whose handler reads the log from an older render: the
    1500 ms timer of [onCallEnded] / [onError] and a result of the
    recognition object. *)
Definition runsOlderHandler (e : App.Event) : bool :=
  match e with
  | App.ListenTimer | App.RecognitionResult _ => true
  | _ => false
  end.

(** A sequence of result events handled by the monitor one after the
    other. *)
Fixpoint onresults (events : list (list string)) (m : WakeWord.t)
    : WakeWord.t * list WakeWord.Action :=
  match events with
  | [] => (m, [])
  | ts :: r =>
      let (m1, acts) := WakeWord.onresult ts m in
      let (m2, acts') := onresults r m1 in
      (m2, acts ++ acts')
  end.

Definition isDetection (a : WakeWord.Action) : bool :=
  match a with WakeWord.WakeWordDetected => true | _ => false end.

(** Sample inputs for the statements that have preconditions. *)
Definition openCall : RetellClient.t :=
  fst (RetellClient.sdkStartSettled None 1000000
         (fst (RetellClient.initializeClient RetellClient.initial))).

Definition nothingPending : App.Pending :=
  {| App.bootTimer := false; App.detectionTimer := None;
     App.recognitionHandlers := None; App.retries := [];
     App.operation := None; App.fetches := []; App.sdkStartCalls := [] |}.

Definition activeCallPage : App.t :=
  {| App.bot := VoiceBot.onCallStarted VoiceBot.initial;
     App.client := openCall;
     App.monitor := WakeWord.initial;
     App.trace := [];
     App.pending := nothingPending |}.

Definition connectingPage : App.t :=
  {| App.bot := VoiceBot.onLoading true VoiceBot.initial;
     App.client := fst (RetellClient.startCallTimeout
                          (fst (RetellClient.initializeClient RetellClient.initial)));
     App.monitor := WakeWord.initial;
     App.trace := [];
     App.pending := App.set_fetches [App.first] nothingPending |}.

Definition sampleCall (id : string) : GetCalls.RetellCall :=
  {| GetCalls.call_id := id; GetCalls.call_status := "ended";
     GetCalls.duration := Some 42000; GetCalls.created_at := None;
     GetCalls.call_analysis := None |}.

(** * Properties *)

(** ** Array primitives *)

Lemma findIndex_lower {A} (p : A -> bool) (xs : list A) : -1 <= JS.findIndex p xs.
Proof.
  induction xs as [|x r IH]; simpl; [lia|].
  destruct (p x); [lia|].
  destruct (Z.eqb_spec (JS.findIndex p r) (-1)); lia.
Qed.

(** [findIndex] answers -1 exactly when no element satisfies the test. *)
Lemma findIndex_none {A} (p : A -> bool) (xs : list A) :
  JS.findIndex p xs = -1 <-> (forall x, x ∈ xs -> p x = false).
Proof.
  induction xs as [|x r IH]; simpl.
  - split; [intros _ y Hy; inversion Hy | reflexivity].
  - destruct (p x) eqn:Hp.
    + split; [lia|]. intros H. specialize (H x (list_elem_of_here _ _)). congruence.
    + pose proof (findIndex_lower p r) as Hlow.
      destruct (Z.eqb_spec (JS.findIndex p r) (-1)) as [E|E].
      * split; [|reflexivity]. intros _ y Hy.
        apply elem_of_cons in Hy as [->|Hy]; [assumption|].
        apply IH; assumption.
      * split; [lia|]. intros H. exfalso. apply E, IH.
        intros y Hy. apply H. apply list_elem_of_further. assumption.
Qed.

(** Otherwise it answers the position of the first element that does. *)
Lemma findIndex_found {A} (p : A -> bool) (xs : list A) :
  JS.findIndex p xs <> -1 ->
  exists (i : nat) (x : A),
    JS.findIndex p xs = Z.of_nat i /\ xs !! i = Some x /\ p x = true /\
    (forall (j : nat) (y : A), (j < i)%nat -> xs !! j = Some y -> p y = false).
Proof.
  induction xs as [|x r IH]; simpl; [congruence|].
  destruct (p x) eqn:Hp.
  - intros _. exists 0%nat, x. repeat split; auto. intros j y Hj. lia.
  - destruct (Z.eqb_spec (JS.findIndex p r) (-1)) as [E|E]; [congruence|].
    intros _. destruct (IH E) as (i & y & Hi & Hl & Hy & Hmin).
    exists (S i), y. repeat split; auto; [lia|].
    intros [|j] z Hj Hz; simpl in Hz; [congruence|].
    apply (Hmin j); [lia|assumption].
Qed.

Lemma modifyAt_in_range {A} (f : A -> A) (i : nat) (xs : list A) (x : A) :
  xs !! i = Some x -> JS.modifyAt (Z.of_nat i) f xs = <[i := f x]> xs.
Proof.
  intros H. pose proof (lookup_lt_Some _ _ _ H) as Hlt.
  unfold JS.modifyAt.
  destruct (Z.leb_spec 0 (Z.of_nat i)); [|lia].
  destruct (Z.ltb_spec (Z.of_nat i) (Z.of_nat (length xs))); [|lia].
  simpl. rewrite Nat2Z.id.
  apply list_eq. intros j. destruct (decide (i = j)) as [->|Hne].
  - rewrite list_lookup_alter_eq, H, list_lookup_insert_eq by assumption. reflexivity.
  - rewrite list_lookup_alter_ne, list_lookup_insert_ne by assumption. reflexivity.
Qed.

(** ** Counting messages *)

Lemma countb_app {A} (p : A -> bool) (xs ys : list A) :
  countb p (xs ++ ys) = (countb p xs + countb p ys)%nat.
Proof. induction xs as [|x r IH]; simpl; [reflexivity|rewrite IH; lia]. Qed.

Lemma countb_zero {A} (p : A -> bool) (xs : list A) :
  (forall x, x ∈ xs -> p x = false) -> countb p xs = 0%nat.
Proof.
  induction xs as [|x r IH]; simpl; intros H; [reflexivity|].
  rewrite (H x (list_elem_of_here _ _)), IH; [reflexivity|].
  intros y Hy. apply H, list_elem_of_further, Hy.
Qed.

Lemma countb_insert_le {A} (p : A -> bool) (xs : list A) (i : nat) (x y : A) :
  xs !! i = Some x -> (p y = true -> p x = true) ->
  (countb p (<[i := y]> xs) <= countb p xs)%nat.
Proof.
  revert i. induction xs as [|z r IH]; intros [|i] Hl Himp; simpl in *; try discriminate.
  - injection Hl as ->. destruct (p y), (p x); first [lia | discriminate (Himp eq_refl)].
  - specialize (IH i Hl Himp). lia.
Qed.

Lemma countb_insert_same {A} (p : A -> bool) (xs : list A) (i : nat) (x y : A) :
  xs !! i = Some x -> p y = p x -> countb p (<[i := y]> xs) = countb p xs.
Proof.
  revert i. induction xs as [|z r IH]; intros [|i] Hl Heq; simpl in *; try discriminate.
  - injection Hl as ->. rewrite Heq. reflexivity.
  - rewrite (IH i Hl Heq). reflexivity.
Qed.

(** ** The message log *)

Lemma messages_set_messages ms st :
  VoiceBot.messages (VoiceBot.set_messages ms st) = ms.
Proof. reflexivity. Qed.

(** The two branches of [onTranscriptUpdate], with the index arithmetic
    resolved: the message replaced is the last incomplete one of the role. *)
Lemma onTranscriptUpdate_cases uuid now r c prev :
  let p := fun m => VoiceBot.roleIs r m && VoiceBot.notComplete m in
  let ms := VoiceBot.messages prev in
  ((forall m, m ∈ ms -> p m = false) /\
   VoiceBot.onTranscriptUpdate uuid now r c prev =
     VoiceBot.set_messages
       (ms ++ [{| VoiceBot.id := uuid; VoiceBot.type := VoiceBot.transcription;
                  VoiceBot.role := Some r; VoiceBot.content := c;
                  VoiceBot.timestamp := now; VoiceBot.isComplete := Some false |}]) prev)
  \/
  (exists (i : nat) (m : VoiceBot.Message),
     ms !! i = Some m /\ p m = true /\
     (forall j m', (i < j)%nat -> ms !! j = Some m' -> p m' = false) /\
     VoiceBot.onTranscriptUpdate uuid now r c prev =
       VoiceBot.set_messages (<[i := VoiceBot.withContent c m]> ms) prev).
Proof.
  intros p ms. unfold VoiceBot.onTranscriptUpdate. fold p. fold ms.
  destruct (Z.eqb_spec (JS.findIndex p (reverse ms)) (-1)) as [E|E].
  - left. split; [|reflexivity].
    intros m Hm. apply (proj1 (findIndex_none p (reverse ms)) E).
    apply elem_of_reverse. assumption.
  - right. destruct (findIndex_found p (reverse ms) E) as (j & m & Hj & Hl & Hp & Hmin).
    pose proof (lookup_lt_Some _ _ _ Hl) as Hlt. rewrite length_reverse in Hlt.
    rewrite reverse_lookup in Hl by assumption.
    exists (length ms - S j)%nat, m. repeat split; auto.
    + intros k m' Hk Hk'. pose proof (lookup_lt_Some _ _ _ Hk') as Hklt.
      apply (Hmin (length ms - S k)%nat); [lia|].
      rewrite reverse_lookup by lia.
      replace (length ms - S (length ms - S k))%nat with k by lia. assumption.
    + rewrite Hj.
      replace (Z.of_nat (length ms) - 1 - Z.of_nat j)
        with (Z.of_nat (length ms - S j)) by lia.
      rewrite (modifyAt_in_range _ _ _ _ Hl). reflexivity.
Qed.

(** The two branches of [onSentenceComplete]. *)
Lemma onSentenceComplete_cases prev :
  let ms := VoiceBot.messages prev in
  ((forall m, m ∈ ms -> VoiceBot.notComplete m = false) /\
   VoiceBot.onSentenceComplete prev = prev)
  \/
  (exists (i : nat) (m : VoiceBot.Message),
     ms !! i = Some m /\ VoiceBot.notComplete m = true /\
     (forall j m', (j < i)%nat -> ms !! j = Some m' -> VoiceBot.notComplete m' = false) /\
     VoiceBot.onSentenceComplete prev =
       VoiceBot.set_messages (<[i := VoiceBot.markComplete m]> ms) prev).
Proof.
  intros ms. unfold VoiceBot.onSentenceComplete. fold ms.
  destruct (Z.eqb_spec (JS.findIndex VoiceBot.notComplete ms) (-1)) as [E|E].
  - left. split; [|reflexivity]. apply findIndex_none. assumption.
  - right. destruct (findIndex_found _ ms E) as (i & m & Hi & Hl & Hp & Hmin).
    exists i, m. repeat split; auto.
    rewrite Hi, (modifyAt_in_range _ _ _ _ Hl). reflexivity.
Qed.

(** C1.  The merge scenario: from an empty log, the fragments ("user","hi")
    and ("user","hi there"), a sentenceComplete and the response "hello"
    leave exactly two messages, both complete: the user's "hi there", then
    the assistant's "hello". *)
Theorem merge_scenario_log (u1 u2 u3 : string) (t1 t2 t3 : Z)
    (st : VoiceBot.VoiceBotState) :
  VoiceBot.messages st = [] ->
  VoiceBot.messages (mergeScenario u1 u2 u3 t1 t2 t3 st) =
    [ {| VoiceBot.id := u1; VoiceBot.type := VoiceBot.transcription;
         VoiceBot.role := Some "user"; VoiceBot.content := "hi there";
         VoiceBot.timestamp := t1; VoiceBot.isComplete := Some true |};
      {| VoiceBot.id := u3; VoiceBot.type := VoiceBot.response;
         VoiceBot.role := Some "assistant"; VoiceBot.content := "hello";
         VoiceBot.timestamp := t3; VoiceBot.isComplete := Some true |} ].
Proof.
  intros H. destruct st as [a l e cs ms lw lt ltr]. simpl in H. subst ms.
  reflexivity.
Qed.

Lemma merge_scenario_log_witness :
  map (fun m => (VoiceBot.role m, VoiceBot.content m, VoiceBot.isComplete m))
    (VoiceBot.messages
       (mergeScenario "id-1" "id-2" "id-3" 100 200 300 VoiceBot.initialState)) =
  [ (Some "user", "hi there", Some true); (Some "assistant", "hello", Some true) ].
Proof.
  rewrite (merge_scenario_log "id-1" "id-2" "id-3" 100 200 300 VoiceBot.initialState);
    reflexivity.
Defined.

(** Had the assistant's "hello" come as a transcript fragment, it would
    wait for the next sentence boundary. *)
Example merge_scenario_fragment :
  map (fun m => (VoiceBot.role m, VoiceBot.content m, VoiceBot.isComplete m))
    (VoiceBot.messages
       (mergeScenarioFragment "id-1" "id-2" "id-3" 100 200 300 VoiceBot.initialState)) =
  [ (Some "user", "hi there", Some true); (Some "assistant", "hello", Some false) ].
Proof. reflexivity. Qed.

(** C6.  [onSentenceComplete] on a log with an incomplete message marks the
    oldest incomplete message complete, whatever its role, keeps its other
    fields and every other message; on a log without one it changes
    nothing. *)
Theorem sentenceComplete_marks_oldest (prev : VoiceBot.VoiceBotState) :
  let ms := VoiceBot.messages prev in
  let next := VoiceBot.onSentenceComplete prev in
  let ms' := VoiceBot.messages next in
  ((forall m, m ∈ ms -> VoiceBot.notComplete m = false) /\ next = prev)
  \/
  (exists (i : nat) (m : VoiceBot.Message),
     ms !! i = Some m /\ VoiceBot.notComplete m = true /\
     (forall j m', (j < i)%nat -> ms !! j = Some m' -> VoiceBot.notComplete m' = false) /\
     ms' !! i =
       Some {| VoiceBot.id := VoiceBot.id m; VoiceBot.type := VoiceBot.type m;
               VoiceBot.role := VoiceBot.role m; VoiceBot.content := VoiceBot.content m;
               VoiceBot.timestamp := VoiceBot.timestamp m;
               VoiceBot.isComplete := Some true |} /\
     length ms' = length ms /\
     (forall j, j <> i -> ms' !! j = ms !! j) /\
     next = VoiceBot.set_messages ms' prev).
Proof.
  intros ms next ms'.
  destruct (onSentenceComplete_cases prev) as [[Hall Heq]|(i & m & Hl & Hp & Hmin & Heq)].
  - left. split; assumption.
  - right. exists i, m.
    assert (Hms' : ms' = <[i := VoiceBot.markComplete m]> ms).
    { unfold ms', next. rewrite Heq. reflexivity. }
    pose proof (lookup_lt_Some _ _ _ Hl) as Hlt.
    repeat split; auto.
    + rewrite Hms'. rewrite list_lookup_insert_eq by assumption. reflexivity.
    + rewrite Hms'. apply length_insert.
    + intros j Hj. rewrite Hms'. apply list_lookup_insert_ne. congruence.
    + unfold next. rewrite Heq. f_equal. symmetry. exact Hms'.
Qed.

(** Both speakers mid-utterance: the boundary completes the assistant's
    message, which is the older one. *)
Example sentenceComplete_two_speakers :
  map (fun m => (VoiceBot.role m, VoiceBot.isComplete m))
    (VoiceBot.messages
       (VoiceBot.onSentenceComplete
          (VoiceBot.onTranscriptUpdate "b" 2 "user" "and"
             (VoiceBot.onTranscriptUpdate "a" 1 "assistant" "well" VoiceBot.initialState)))) =
  [ (Some "assistant", Some true); (Some "user", Some false) ].
Proof. reflexivity. Qed.

(** ** The two log invariants are kept by every handler *)

Lemma incompleteTranscription_test r m :
  incompleteTranscription r m = true ->
  VoiceBot.roleIs r m && VoiceBot.notComplete m = true.
Proof. unfold incompleteTranscription. destruct (VoiceBot.type m); congruence. Qed.

Lemma incompleteTranscription_complete r m :
  VoiceBot.isComplete m = Some true -> incompleteTranscription r m = false.
Proof.
  unfold incompleteTranscription, VoiceBot.notComplete. intros ->.
  destruct (VoiceBot.type m); auto using andb_false_r.
Qed.

Lemma atMostOneIncomplete_nil : atMostOneIncomplete [].
Proof. intros r. simpl. lia. Qed.

Lemma atMostOneIncomplete_snoc ms m :
  VoiceBot.isComplete m = Some true ->
  atMostOneIncomplete ms -> atMostOneIncomplete (ms ++ [m]).
Proof.
  intros Hc Hone r. rewrite countb_app. simpl.
  rewrite (incompleteTranscription_complete r m Hc). specialize (Hone r). lia.
Qed.

Lemma atMostOneIncomplete_onTranscriptUpdate uuid now r c prev :
  atMostOneIncomplete (VoiceBot.messages prev) ->
  atMostOneIncomplete (VoiceBot.messages (VoiceBot.onTranscriptUpdate uuid now r c prev)).
Proof.
  intros Hone r'.
  destruct (onTranscriptUpdate_cases uuid now r c prev)
    as [[Hnone ->]|(i & m & Hl & _ & _ & ->)]; rewrite messages_set_messages.
  - rewrite countb_app. simpl. unfold incompleteTranscription at 2. simpl.
    unfold VoiceBot.roleIs. simpl.
    destruct (String.eqb_spec r r') as [<-|Hne]; simpl; [|specialize (Hone r'); lia].
    rewrite countb_zero; [lia|].
    intros m Hm. destruct (incompleteTranscription r m) eqn:E; [|reflexivity].
    apply incompleteTranscription_test in E. rewrite (Hnone m Hm) in E. discriminate.
  - rewrite (countb_insert_same _ _ _ m); [apply Hone | assumption | reflexivity].
Qed.

Lemma atMostOneIncomplete_onSentenceComplete prev :
  atMostOneIncomplete (VoiceBot.messages prev) ->
  atMostOneIncomplete (VoiceBot.messages (VoiceBot.onSentenceComplete prev)).
Proof.
  intros Hone.
  destruct (onSentenceComplete_cases prev) as [[_ ->]|(i & m & Hl & _ & _ & ->)];
    [assumption|].
  rewrite messages_set_messages.
  intros r. etransitivity; [|apply (Hone r)].
  apply (countb_insert_le _ _ _ m); [assumption|].
  rewrite incompleteTranscription_complete; [discriminate | reflexivity].
Qed.

(** What a callback of the hook leaves in the log. *)
Lemma messages_notify seen uuid now cb b :
  VoiceBot.messages (VoiceBot.state (App.notify seen uuid now cb b)) =
  match cb with
  | RetellClient.TranscriptUpdate r c =>
      VoiceBot.messages (VoiceBot.onTranscriptUpdate uuid now r c (VoiceBot.state b))
  | RetellClient.ResponseUpdate c =>
      VoiceBot.messages (VoiceBot.onResponseUpdate uuid now c (VoiceBot.state b))
  | RetellClient.SentenceComplete =>
      VoiceBot.messages (VoiceBot.onSentenceComplete (VoiceBot.state b))
  | _ => VoiceBot.messages (VoiceBot.state b)
  end.
Proof.
  destruct cb; try reflexivity.
  unfold App.notify, VoiceBot.sentenceComplete, VoiceBot.onSentenceComplete.
  destruct (_ =? -1) eqn:E; simpl; rewrite ?E; reflexivity.
Qed.

Lemma atMostOneIncomplete_notify seen uuid now cb b :
  atMostOneIncomplete (VoiceBot.messages (VoiceBot.state b)) ->
  atMostOneIncomplete (VoiceBot.messages (VoiceBot.state (App.notify seen uuid now cb b))).
Proof.
  intros H. rewrite messages_notify. destruct cb; try assumption.
  - apply atMostOneIncomplete_onTranscriptUpdate; assumption.
  - apply atMostOneIncomplete_snoc; [reflexivity | assumption].
  - apply atMostOneIncomplete_onSentenceComplete; assumption.
Qed.

Lemma wellFormed_onTranscriptUpdate uuid now r c prev :
  r = "user" \/ r = "assistant" ->
  Forall wellFormed (VoiceBot.messages prev) ->
  Forall wellFormed (VoiceBot.messages (VoiceBot.onTranscriptUpdate uuid now r c prev)).
Proof.
  intros Hr Hwf.
  destruct (onTranscriptUpdate_cases uuid now r c prev)
    as [[_ ->]|(i & m & Hl & _ & _ & ->)]; rewrite messages_set_messages.
  - apply Forall_app. split; [assumption|]. apply Forall_singleton.
    unfold wellFormed. simpl. destruct Hr as [->| ->]; auto.
  - apply Forall_insert; [assumption|].
    apply (proj1 (Forall_lookup _ _) Hwf) in Hl. exact Hl.
Qed.

Lemma wellFormed_onSentenceComplete prev :
  Forall wellFormed (VoiceBot.messages prev) ->
  Forall wellFormed (VoiceBot.messages (VoiceBot.onSentenceComplete prev)).
Proof.
  intros Hwf.
  destruct (onSentenceComplete_cases prev) as [[_ ->]|(i & m & Hl & _ & _ & ->)];
    [assumption|].
  rewrite messages_set_messages. apply Forall_insert; [assumption|].
  apply (proj1 (Forall_lookup _ _) Hwf) in Hl.
  unfold wellFormed in *. simpl. destruct (VoiceBot.type m); auto.
Qed.

Lemma wellFormed_notify seen uuid now cb b :
  normalizedCallback cb ->
  Forall wellFormed (VoiceBot.messages (VoiceBot.state b)) ->
  Forall wellFormed (VoiceBot.messages (VoiceBot.state (App.notify seen uuid now cb b))).
Proof.
  intros Hcb H. rewrite messages_notify. destruct cb; simpl in *; try assumption.
  - apply wellFormed_onTranscriptUpdate; assumption.
  - apply Forall_app. split; [assumption|]. apply Forall_singleton. reflexivity.
  - apply wellFormed_onSentenceComplete; assumption.
Qed.

(** ** What the hook hands to the component *)

Lemma normalizeRole_cases r :
  RetellClient.normalizeRole r = "user" \/ RetellClient.normalizeRole r = "assistant".
Proof. unfold RetellClient.normalizeRole. destruct (String.eqb _ _); auto. Qed.

Lemma normalized_responseCallbacks u :
  Forall normalizedCallback (RetellClient.responseCallbacks u).
Proof.
  unfold RetellClient.responseCallbacks.
  destruct (RetellClient.response u) as [[s|c x j]|]; [destruct (JS.truthy s)| |];
    repeat constructor.
Qed.

Lemma normalized_updateCallbacks u :
  Forall normalizedCallback (RetellClient.updateCallbacks u).
Proof.
  unfold RetellClient.updateCallbacks.
  destruct (RetellClient.transcript u) as [items|]; [|apply normalized_responseCallbacks].
  destruct (last items) as [latest|]; [|constructor].
  destruct (negb _); constructor; [|apply normalized_responseCallbacks].
  simpl. apply normalizeRole_cases.
Qed.

Lemma normalized_cleanupClient c :
  Forall normalizedAction (snd (RetellClient.cleanupClient c)).
Proof. simpl. destruct (_ && _); repeat constructor. Qed.

Lemma normalized_startCallFailed m c :
  Forall normalizedAction (snd (RetellClient.startCallFailed m c)).
Proof.
  unfold RetellClient.startCallFailed.
  pose proof (normalized_cleanupClient c) as H.
  destruct (RetellClient.cleanupClient c) as [c1 acts]. simpl in *.
  repeat constructor. assumption.
Qed.

Lemma normalized_endCall now c :
  Forall normalizedAction (snd (RetellClient.endCall now c)).
Proof.
  unfold RetellClient.endCall. destruct (_ || _); [constructor|].
  destruct (_ && _); constructor.
Qed.

Lemma normalized_operationTimeout threw c r :
  RetellClient.operationTimeout threw c = Some r -> Forall normalizedAction (snd r).
Proof.
  unfold RetellClient.operationTimeout.
  destruct (RetellClient.operationTimeoutRef c) as [[|]|]; intros [= <-].
  - unfold RetellClient.startCallTimeout, RetellClient.initializeClient.
    set (c0 := RetellClient.set_operationTimeoutRef None c).
    pose proof (normalized_cleanupClient c0) as H.
    destruct (RetellClient.cleanupClient c0) as [c1 acts]. simpl in *.
    constructor; [exact I|]. apply Forall_app. split; [assumption|repeat constructor].
  - unfold RetellClient.endCallTimeout.
    set (c0 := RetellClient.set_operationTimeoutRef None c).
    destruct (negb _); [constructor|].
    destruct threw as [m|]; [|repeat constructor].
    pose proof (normalized_cleanupClient c0) as H.
    destruct (RetellClient.cleanupClient c0) as [c1 acts]. simpl in *.
    repeat constructor. apply Forall_app. split; [assumption|repeat constructor].
Qed.

Lemma normalized_fetchSettled o tyErr c :
  Forall normalizedAction (snd (RetellClient.fetchSettled o tyErr c)).
Proof.
  unfold RetellClient.fetchSettled. destruct o; try apply normalized_startCallFailed.
  destruct (RetellClient.clientRef _); [repeat constructor|apply normalized_startCallFailed].
Qed.

Lemma normalized_sdkStartSettled rej now c :
  Forall normalizedAction (snd (RetellClient.sdkStartSettled rej now c)).
Proof.
  unfold RetellClient.sdkStartSettled.
  destruct rej; [apply normalized_startCallFailed|repeat constructor].
Qed.

Lemma normalized_onUpdate now u c :
  Forall normalizedAction (snd (RetellClient.onUpdate now u c)).
Proof.
  simpl. apply Forall_map. eapply Forall_impl; [apply normalized_updateCallbacks|].
  intros cb H. exact H.
Qed.

Lemma normalized_onSdkCallEnded c :
  Forall normalizedAction (snd (RetellClient.onSdkCallEnded c)).
Proof.
  unfold RetellClient.onSdkCallEnded.
  set (c0 := RetellClient.set_flags false false c).
  pose proof (normalized_cleanupClient c0) as H.
  destruct (RetellClient.cleanupClient c0) as [c1 acts]. simpl in *.
  apply Forall_app. split; [assumption|repeat constructor].
Qed.

Lemma normalized_inactivityTimeout now c :
  Forall normalizedAction (snd (RetellClient.inactivityTimeout now c)).
Proof.
  unfold RetellClient.inactivityTimeout.
  destruct (_ && _); [apply normalized_endCall|constructor].
Qed.

Lemma normalized_startCall c :
  Forall normalizedAction (snd (RetellClient.startCall c)).
Proof. unfold RetellClient.startCall. destruct (_ || _); constructor. Qed.

(** ** What the handlers of the monitor and the effects leave alone *)

Lemma client_hear env seen acts : forall s,
  App.client (App.hear env seen acts s) = App.client s.
Proof.
  induction acts as [|a acts IH]; intros s; simpl; [reflexivity|].
  rewrite IH. destruct a; reflexivity.
Qed.

Lemma pending_hear env seen acts : forall s,
  App.pending (App.hear env seen acts s) = App.pending s.
Proof.
  induction acts as [|a acts IH]; intros s; simpl; [reflexivity|].
  rewrite IH. destruct a; reflexivity.
Qed.


Lemma bot_hear_quiet env seen acts : forall s,
  ~ In WakeWord.WakeWordDetected acts -> App.bot (App.hear env seen acts s) = App.bot s.
Proof.
  induction acts as [|a acts IH]; intros s Hn; simpl; [reflexivity|].
  rewrite IH by (intros H; apply Hn; right; exact H).
  destruct a; try reflexivity. exfalso. apply Hn. left. reflexivity.
Qed.

Lemma client_fromMonitor env seen r s :
  App.client (App.fromMonitor env seen r s) = App.client s.
Proof. unfold App.fromMonitor. rewrite client_hear. reflexivity. Qed.

Lemma pending_fromMonitor env seen r s :
  App.pending (App.fromMonitor env seen r s) = App.pending s.
Proof. unfold App.fromMonitor. rewrite pending_hear. reflexivity. Qed.


Lemma bot_fromMonitor_quiet env seen r s :
  ~ In WakeWord.WakeWordDetected (snd r) ->
  App.bot (App.fromMonitor env seen r s) = App.bot s.
Proof. intros H. unfold App.fromMonitor. rewrite bot_hear_quiet by exact H. reflexivity. Qed.

Lemma stopDetection_quiet m :
  ~ In WakeWord.WakeWordDetected (snd (WakeWord.stopDetection m)).
Proof.
  unfold WakeWord.stopDetection, WakeWord.safelyStopRecognition.
  destruct (_ && _); simpl; intuition discriminate.
Qed.

(** Only [onresult] reports a detection. *)
Lemma startDetection_quiet o th m :
  ~ In WakeWord.WakeWordDetected (snd (WakeWord.startDetection o th m)).
Proof.
  destruct m as [r a d l t n k].
  unfold WakeWord.startDetection, WakeWord.setupRecognition, WakeWord.cleanup,
    WakeWord.tryStart, WakeWord.safelyStopRecognition.
  destruct a, r, o, th; simpl; try (destruct (_ <? _)%nat); simpl;
    try (destruct (_ =? _)%nat); simpl; intuition discriminate.
Qed.

Lemma restartTimeout_quiet isActive o th m :
  ~ In WakeWord.WakeWordDetected (snd (WakeWord.restartTimeout isActive o th m)).
Proof.
  unfold WakeWord.restartTimeout. destruct (_ && _); [apply startDetection_quiet|].
  simpl. tauto.
Qed.

Lemma retryTimeout_quiet isActive o o' th m :
  ~ In WakeWord.WakeWordDetected (snd (WakeWord.retryTimeout isActive o o' th m)).
Proof.
  unfold WakeWord.retryTimeout. destruct isActive; [|simpl; tauto].
  set (m0 := WakeWord.set_retryTimers _ m).
  destruct (WakeWord.setupRecognition o m0) as [[m1 ok] acts] eqn:E.
  pose proof (startDetection_quiet o' th m1) as H.
  destruct (WakeWord.startDetection o' th m1) as [m2 acts']. simpl in *.
  rewrite in_app_iff. intros [Hin|Hin]; [|exact (H Hin)].
  unfold WakeWord.setupRecognition, WakeWord.cleanup, WakeWord.safelyStopRecognition in E.
  destruct (_ && _), o; simpl in E; injection E as <- <- <-; simpl in Hin;
    intuition discriminate.
Qed.

Lemma onerror_quiet now k m :
  ~ In WakeWord.WakeWordDetected (snd (WakeWord.onerror now k m)).
Proof.
  unfold WakeWord.onerror. destruct (_ && _); [|simpl; tauto].
  destruct (negb _); simpl; intuition discriminate.
Qed.

Lemma bot_listenByDefault before after :
  App.bot (App.listenByDefault before after) = App.bot after.
Proof. unfold App.listenByDefault. destruct (_ || _); reflexivity. Qed.

Lemma client_listenByDefault before after :
  App.client (App.listenByDefault before after) = App.client after.
Proof. unfold App.listenByDefault. destruct (_ || _); reflexivity. Qed.

Lemma monitor_listenByDefault before after :
  App.monitor (App.listenByDefault before after) = App.monitor after.
Proof. unfold App.listenByDefault. destruct (_ || _); reflexivity. Qed.

Lemma bot_isActiveEffect env before after :
  App.bot (App.isActiveEffect env before after) = App.bot after.
Proof.
  unfold App.isActiveEffect. destruct (_ || _); [|reflexivity].
  destruct (_ || _); simpl; [|reflexivity].
  apply bot_fromMonitor_quiet, stopDetection_quiet.
Qed.

Lemma client_isActiveEffect env before after :
  App.client (App.isActiveEffect env before after) = App.client after.
Proof.
  unfold App.isActiveEffect. destruct (_ || _); [|reflexivity].
  destruct (_ || _); simpl; [|reflexivity]. apply client_fromMonitor.
Qed.

Lemma bootTimer_isActiveEffect env before after :
  App.bootTimer (App.pending (App.isActiveEffect env before after)) =
  App.bootTimer (App.pending after).
Proof.
  unfold App.isActiveEffect. destruct (_ || _); [|reflexivity].
  destruct (_ || _); simpl; [|reflexivity].
  rewrite pending_fromMonitor. reflexivity.
Qed.

(** The effects of a render touch neither the component nor the hook. *)
Lemma bot_rendered env before after :
  App.bot (App.rendered env before after) = App.bot after.
Proof. unfold App.rendered. rewrite bot_isActiveEffect. apply bot_listenByDefault. Qed.

Lemma client_rendered env before after :
  App.client (App.rendered env before after) = App.client after.
Proof. unfold App.rendered. rewrite client_isActiveEffect. apply client_listenByDefault. Qed.

Lemma log_rendered env before after :
  App.log (App.rendered env before after) = App.log after.
Proof. unfold App.log. rewrite bot_rendered. reflexivity. Qed.


(** ** Log invariants along a run of the page

    A property [P] of the log that holds of the empty log and survives a
    system notice appended at the end and every callback the hook can
    issue holds after every run that starts where it holds throughout: a
    handler of an older render puts back a log that was reached before. *)

Lemma takeAt_Forall {A} (Q : A -> Prop) k (l : list A) x rest :
  App.takeAt k l = Some (x, rest) -> Forall Q l -> Q x /\ Forall Q rest.
Proof.
  unfold App.takeAt. destruct (l !! _) as [y|] eqn:E; [|discriminate].
  intros [= <- <-] H. split.
  - exact (proj1 (Forall_lookup _ _) H _ _ E).
  - apply Forall_delete. exact H.
Qed.

Lemma takeAt_Some {A} k (l : list A) :
  App.nonEmpty l = true -> exists x rest, App.takeAt k l = Some (x, rest).
Proof.
  intros H. unfold App.takeAt.
  destruct (l !! Nat.min k (pred (length l))) as [y|] eqn:E; [eauto|].
  apply lookup_ge_None in E. destruct l; [discriminate|]. simpl in E. lia.
Qed.

Section LogInvariant.

Variable P : list VoiceBot.Message -> Prop.

Hypothesis P_nil : P [].

Hypothesis P_notice : forall ms uuid now text,
  P ms -> P (ms ++ [VoiceBot.systemMessage uuid now text]).

Hypothesis P_notify : forall seen uuid now cb b,
  normalizedCallback cb ->
  P (VoiceBot.messages (VoiceBot.state b)) ->
  P (VoiceBot.messages (VoiceBot.state (App.notify seen uuid now cb b))).

Lemma saw_current s : throughout P s -> sawOnly P (App.current s).
Proof. intros [[H _] _]. exact H. Qed.

Lemma saw_first : sawOnly P App.first.
Proof. exact P_nil. Qed.

Lemma botKeeps_same b b' :
  VoiceBot.messages (VoiceBot.state b') = VoiceBot.messages (VoiceBot.state b) ->
  VoiceBot.startCallTimers b' = VoiceBot.startCallTimers b ->
  VoiceBot.listenTimers b' = VoiceBot.listenTimers b ->
  botKeeps P b -> botKeeps P b'.
Proof. unfold botKeeps. intros -> -> ->. auto. Qed.

Lemma kept_startWakeWordDetectionOf seen uuid now b :
  sawOnly P seen -> botKeeps P b ->
  botKeeps P (VoiceBot.startWakeWordDetectionOf seen uuid now b).
Proof.
  unfold VoiceBot.startWakeWordDetectionOf. intros Hs (Hm & Hsc & Hl).
  destruct (_ || _); [repeat split; assumption|].
  destruct (negb _); unfold botKeeps; repeat split; simpl; try assumption.
  apply P_notice. exact Hs.
Qed.

Lemma kept_startWakeWordDetection uuid now b :
  botKeeps P b -> botKeeps P (VoiceBot.startWakeWordDetection uuid now b).
Proof.
  intros H. apply kept_startWakeWordDetectionOf; [|exact H]. exact (proj1 H).
Qed.

Lemma kept_handleWakeWordDetected seen uuid now b :
  sawOnly P seen -> botKeeps P b ->
  botKeeps P (VoiceBot.handleWakeWordDetected seen uuid now b).
Proof.
  unfold VoiceBot.handleWakeWordDetected. intros Hs (Hm & Hsc & Hl).
  destruct (_ || _); unfold botKeeps; repeat split; simpl; try assumption.
  - apply P_notice. exact Hs.
  - apply Forall_app. split; [assumption|]. apply Forall_singleton. exact Hs.
Qed.

Lemma kept_notify seen uuid now cb b :
  sawOnly P seen -> normalizedCallback cb -> botKeeps P b ->
  botKeeps P (App.notify seen uuid now cb b).
Proof.
  intros Hs Hcb (Hm & Hsc & Hl). unfold botKeeps. split; [apply P_notify; assumption|].
  destruct cb; simpl; try (split; assumption).
  - split; [assumption|]. apply Forall_app. split; [assumption|].
    apply Forall_singleton. exact Hs.
  - split; [assumption|]. apply Forall_app. split; [assumption|].
    apply Forall_singleton. exact Hs.
  - unfold VoiceBot.sentenceComplete. destruct (_ =? -1); split; assumption.
Qed.

Lemma kept_deliver env seen acts : forall k b,
  sawOnly P seen -> Forall normalizedAction acts -> botKeeps P b ->
  botKeeps P (App.deliver env seen k acts b).
Proof.
  induction acts as [|a r IH]; intros k b Hs Hacts Hb; simpl; [assumption|].
  inversion Hacts as [|? ? Ha Hr]; subst.
  destruct a; try (apply IH; assumption).
  apply IH; [assumption | assumption |]. apply kept_notify; assumption.
Qed.

Lemma kept_fromClient env seen r s :
  sawOnly P seen -> Forall normalizedAction (snd r) -> throughout P s ->
  throughout P (App.fromClient env seen r s).
Proof.
  intros Hs Hr [Hb Hp]. split; [|exact Hp]. simpl. apply kept_deliver; assumption.
Qed.

Lemma kept_hear env seen acts : forall s,
  sawOnly P seen -> throughout P s -> throughout P (App.hear env seen acts s).
Proof.
  induction acts as [|a r IH]; intros s Hs Hk; simpl; [assumption|].
  apply IH; [assumption|]. destruct Hk as [Hb Hp].
  destruct a; split; simpl; try assumption.
  apply kept_handleWakeWordDetected; assumption.
Qed.

Lemma kept_fromMonitor env seen r s :
  sawOnly P seen -> throughout P s -> throughout P (App.fromMonitor env seen r s).
Proof. intros Hs [Hb Hp]. unfold App.fromMonitor. apply kept_hear; [assumption|]. split; assumption. Qed.

Lemma kept_set_bot b s : botKeeps P b -> throughout P s -> throughout P (App.set_bot b s).
Proof. intros Hb [_ Hp]. split; assumption. Qed.

Lemma kept_set_pending p s :
  pendingKeeps P p -> throughout P s -> throughout P (App.set_pending p s).
Proof. intros Hp [Hb _]. split; assumption. Qed.

Lemma kept_set_operation sn p :
  sawOnly P sn -> pendingKeeps P p -> pendingKeeps P (App.set_operation (Some sn) p).
Proof.
  intros Hs (H1 & H2 & H3 & H4 & H5 & H6).
  unfold pendingKeeps. repeat split; simpl; try assumption.
  intros sn' [= <-]. exact Hs.
Qed.

Lemma kept_startCall env seen s :
  sawOnly P seen -> throughout P s -> throughout P (App.startCall env seen s).
Proof.
  intros Hs Hk. unfold App.startCall.
  assert (H1 : throughout P (App.fromClient env seen (RetellClient.startCall (App.client s)) s)).
  { apply kept_fromClient; [assumption | apply normalized_startCall | assumption]. }
  destruct (_ && _); [|exact H1].
  apply kept_set_pending; [|exact H1]. apply kept_set_operation; [assumption|]. exact (proj2 H1).
Qed.

Lemma kept_endCall env seen s :
  sawOnly P seen -> throughout P s -> throughout P (App.endCall env seen s).
Proof.
  intros Hs Hk. unfold App.endCall.
  assert (H1 : throughout P
                 (App.fromClient env seen (RetellClient.endCall (App.now env) (App.client s)) s)).
  { apply kept_fromClient; [assumption | apply normalized_endCall | assumption]. }
  destruct (_ && _); [|exact H1].
  apply kept_set_pending; [|exact H1]. apply kept_set_operation; [assumption|]. exact (proj2 H1).
Qed.

Lemma kept_afterStart cl created m m' p :
  sawOnly P (App.seen cl) -> pendingKeeps P p ->
  pendingKeeps P (App.afterStart cl created m m' p).
Proof.
  intros Hs (H1 & H2 & H3 & H4 & H5 & H6). unfold App.afterStart.
  destruct created, (_ <? _)%nat; unfold pendingKeeps; repeat split; simpl; try assumption;
    try (intros cl' [= <-]; exact Hs);
    (apply Forall_app; split; [assumption|]; apply Forall_singleton; exact Hs).
Qed.

Lemma kept_recognition env handler s :
  throughout P s -> throughout P (App.recognition env handler s).
Proof.
  intros Hk. unfold App.recognition.
  destruct (App.recognitionHandlers (App.pending s)) as [cl|] eqn:E; [|exact Hk].
  apply kept_fromMonitor; [|exact Hk].
  destruct Hk as [_ (_ & H2 & _)]. exact (H2 cl E).
Qed.

Lemma kept_handle env e s : throughout P s -> throughout P (App.handle env e s).
Proof.
  intros Hk. pose proof Hk as [Hb Hp]. pose proof Hp as (H1 & H2 & H3 & H4 & H5 & H6).
  destruct e; cbn [App.handle].
  - destruct (App.listening s); apply kept_set_bot; try assumption.
    apply kept_startWakeWordDetection. assumption.
  - destruct (App.callActive s).
    + unfold App.handleEndCall. apply kept_endCall; [apply saw_current; assumption|].
      apply kept_set_bot; [|assumption].
      eapply botKeeps_same; [| | |exact Hb]; reflexivity.
    + unfold App.handleStartCall. destruct (_ || _); [assumption|].
      match goal with |- throughout P (App.set_bot _ ?s1) =>
        assert (Hs1 : throughout P s1) end.
      { apply kept_startCall; [apply saw_current; assumption|].
        apply kept_set_bot; [|assumption].
        eapply botKeeps_same; [| | |exact Hb]; reflexivity. }
      apply kept_set_bot; [|exact Hs1].
      eapply botKeeps_same; [| | |exact (proj1 Hs1)]; reflexivity.
  - apply kept_set_pending.
    + unfold pendingKeeps. repeat split; simpl; assumption.
    + apply kept_set_bot; [|assumption]. apply kept_startWakeWordDetection. assumption.
  - unfold App.listenTimeout.
    destruct (VoiceBot.listenTimers (App.bot s)) as [|seen rest] eqn:E; [assumption|].
    destruct Hb as (Hm & Hsc & Hl). rewrite E in Hl. inversion Hl; subst.
    apply kept_set_bot; [|assumption].
    apply kept_startWakeWordDetectionOf; [assumption|].
    unfold botKeeps. repeat split; assumption.
  - unfold App.startCallTimeout.
    destruct (VoiceBot.startCallTimers (App.bot s)) as [|seen rest] eqn:E; [assumption|].
    destruct Hb as (Hm & Hsc & Hl). rewrite E in Hsc. inversion Hsc; subst.
    match goal with |- throughout P (App.set_bot _ ?s1) =>
      assert (Hs1 : throughout P s1) end.
    { apply kept_startCall; [assumption|].
      apply kept_set_bot; [|assumption]. unfold botKeeps. repeat split; assumption. }
    apply kept_set_bot; [|exact Hs1].
    eapply botKeeps_same; [| | |exact (proj1 Hs1)]; reflexivity.
  - unfold App.operationTimeout.
    destruct (App.operation (App.pending s)) as [seen|] eqn:Eo; [|assumption].
    destruct (RetellClient.operationTimeout threw (App.client s)) as [r|] eqn:E;
      [|assumption].
    assert (Hseen : sawOnly P seen) by (apply H4; reflexivity).
    apply kept_set_pending.
    + simpl. destruct (_ <? _)%nat; unfold pendingKeeps; repeat split; simpl;
        try assumption; try discriminate.
      apply Forall_app. split; [assumption|]. apply Forall_singleton. exact Hseen.
    + apply kept_fromClient; [assumption| |assumption].
      eapply normalized_operationTimeout; eassumption.
  - unfold App.inactivityTimeout.
    assert (Hs1 : throughout P
              (App.fromClient env App.first
                 (RetellClient.inactivityTimeout (App.now env) (App.client s)) s)).
    { apply kept_fromClient; [apply saw_first | apply normalized_inactivityTimeout | assumption]. }
    destruct (_ && _); [|exact Hs1].
    apply kept_set_pending; [|exact Hs1].
    apply kept_set_operation; [apply saw_first | exact (proj2 Hs1)].
  - unfold App.fetchSettled.
    destruct (App.takeAt _ _) as [[seen rest]|] eqn:E; [|assumption].
    destruct (takeAt_Forall _ _ _ _ _ E H5) as [Hseen Hrest].
    apply kept_set_pending.
    + simpl. destruct (_ <? _)%nat; unfold pendingKeeps; repeat split; simpl;
        try assumption.
      apply Forall_app. split; [assumption|]. apply Forall_singleton. exact Hseen.
    + apply kept_fromClient; [assumption | apply normalized_fetchSettled | assumption].
  - unfold App.sdkStartSettled.
    destruct (App.takeAt _ _) as [[seen rest]|] eqn:E; [|assumption].
    destruct (takeAt_Forall _ _ _ _ _ E H6) as [Hseen Hrest].
    apply kept_set_pending.
    + unfold pendingKeeps. repeat split; simpl; assumption.
    + apply kept_fromClient; [assumption | apply normalized_sdkStartSettled | assumption].
  - apply kept_fromClient; [apply saw_current; assumption | apply normalized_onUpdate | assumption].
  - apply kept_fromClient; [apply saw_current; assumption | repeat constructor | assumption].
  - apply kept_fromClient; [apply saw_current; assumption | repeat constructor | assumption].
  - apply kept_fromClient;
      [apply saw_current; assumption | apply normalized_onSdkCallEnded | assumption].
  - unfold App.detectionTimeout.
    destruct (App.detectionTimer (App.pending s)) as [cl|] eqn:E; [|assumption].
    assert (Hseen : sawOnly P (App.seen cl)) by (apply H1; reflexivity).
    match goal with |- throughout P (App.set_pending _ ?s1) =>
      assert (Hs1 : throughout P s1) by (apply kept_fromMonitor; assumption) end.
    apply kept_set_pending; [|exact Hs1].
    apply kept_afterStart; [assumption|].
    destruct Hs1 as [_ (K1 & K2 & K3 & K4 & K5 & K6)].
    unfold pendingKeeps. repeat split; simpl; try assumption. discriminate.
  - unfold App.restartTimeout.
    destruct (App.recognitionHandlers (App.pending s)) as [cl|] eqn:E; [|assumption].
    assert (Hseen : sawOnly P (App.seen cl)) by (apply H2; reflexivity).
    match goal with |- throughout P (App.set_pending _ ?s1) =>
      assert (Hs1 : throughout P s1) by (apply kept_fromMonitor; assumption) end.
    apply kept_set_pending; [|exact Hs1].
    apply kept_afterStart; [assumption | exact (proj2 Hs1)].
  - unfold App.retryTimeout.
    destruct (App.retries (App.pending s)) as [|cl rest] eqn:E; [assumption|].
    inversion H3 as [|? ? Hcl Hrest]; subst.
    match goal with |- throughout P (App.set_pending _ ?s1) =>
      assert (Hs1 : throughout P s1) by (apply kept_fromMonitor; assumption) end.
    apply kept_set_pending; [|exact Hs1].
    apply kept_afterStart; [assumption|].
    destruct Hs1 as [_ (K1 & K2 & K3 & K4 & K5 & K6)].
    unfold pendingKeeps. repeat split; simpl; assumption.
  - apply kept_recognition; assumption.
  - apply kept_recognition; assumption.
  - apply kept_recognition; assumption.
Qed.

Lemma kept_listenByDefault before after :
  throughout P after -> throughout P (App.listenByDefault before after).
Proof.
  intros Hk. unfold App.listenByDefault. destruct (_ || _); [|exact Hk].
  apply kept_set_pending; [|exact Hk]. exact (proj2 Hk).
Qed.

Lemma kept_isActiveEffect env before after :
  throughout P after -> throughout P (App.isActiveEffect env before after).
Proof.
  intros Hk. unfold App.isActiveEffect. destruct (_ || _); [|exact Hk].
  match goal with |- throughout P (App.set_pending _ ?s1) =>
    assert (Hs1 : throughout P s1) end.
  { destruct (_ || _); [|exact Hk].
    apply kept_fromMonitor; [apply saw_current|]; exact Hk. }
  apply kept_set_pending; [|exact Hs1].
  destruct Hs1 as [_ (K1 & K2 & K3 & K4 & K5 & K6)].
  unfold pendingKeeps. repeat split; simpl; try assumption.
  destruct (App.listening after); [|discriminate].
  intros cl [= <-]. apply saw_current. exact Hk.
Qed.

Lemma kept_rendered env before after :
  throughout P after -> throughout P (App.rendered env before after).
Proof. intros Hk. apply kept_isActiveEffect, kept_listenByDefault, Hk. Qed.

Lemma kept_step env e s s' :
  App.step env e s = Some s' -> throughout P s -> throughout P s'.
Proof.
  unfold App.step. destruct (App.enabled e s); [|discriminate].
  intros [= <-] Hs. apply kept_rendered, kept_handle. exact Hs.
Qed.

Lemma kept_run es : forall s s',
  App.run es s = Some s' -> throughout P s -> throughout P s'.
Proof.
  induction es as [|[env e] r IH]; intros s s' Hrun Hs; simpl in Hrun.
  - injection Hrun as <-. assumption.
  - destruct (App.step env e s) as [s1|] eqn:E; [|discriminate].
    apply (IH s1); [assumption|]. eapply kept_step; eassumption.
Qed.

Lemma throughout_mounted : throughout P App.mounted.
Proof.
  split; [unfold botKeeps; repeat split; try constructor; exact P_nil|].
  unfold pendingKeeps. repeat split; simpl; try constructor; discriminate.
Qed.

End LogInvariant.

(** ** The [isActive] the monitor's callbacks were made with *)

Lemma activeClosures_same p p' :
  App.detectionTimer p' = App.detectionTimer p ->
  App.recognitionHandlers p' = App.recognitionHandlers p ->
  App.retries p' = App.retries p ->
  activeClosures p -> activeClosures p'.
Proof. unfold activeClosures. intros -> -> ->. auto. Qed.










(** ** Claims about the message log *)

(** C5.  In every log the page can reach there is at most one incomplete
    transcription per speaker role.  Every event keeps it so, of the log
    and of the earlier logs that pending callbacks have seen and may put
    back, and so does each of the three state updaters on any log.  A
    transcript fragment for a role either gives its content to the last
    incomplete message of the role, whose other fields, and every other
    message, stay as they were, or, when the role has no incomplete
    message, appends a new incomplete transcription of that role with that
    content. *)
Theorem one_incomplete_per_role :
  (forall es s, App.run es App.mounted = Some s -> atMostOneIncomplete (App.log s)) /\
  (forall env e s s',
     App.step env e s = Some s' ->
     throughout atMostOneIncomplete s -> throughout atMostOneIncomplete s') /\
  (forall uuid now r c prev,
     atMostOneIncomplete (VoiceBot.messages prev) ->
     atMostOneIncomplete (VoiceBot.messages (VoiceBot.onTranscriptUpdate uuid now r c prev)) /\
     atMostOneIncomplete (VoiceBot.messages (VoiceBot.onResponseUpdate uuid now c prev)) /\
     atMostOneIncomplete (VoiceBot.messages (VoiceBot.onSentenceComplete prev))) /\
  (forall uuid now r c prev,
     let ms := VoiceBot.messages prev in
     let next := VoiceBot.onTranscriptUpdate uuid now r c prev in
     let ms' := VoiceBot.messages next in
     next = VoiceBot.set_messages ms' prev /\
     ((exists (i : nat) (m : VoiceBot.Message),
         ms !! i = Some m /\ VoiceBot.roleIs r m = true /\ VoiceBot.notComplete m = true /\
         (forall j m', (i < j)%nat -> ms !! j = Some m' ->
            VoiceBot.roleIs r m' && VoiceBot.notComplete m' = false) /\
         ms' !! i =
           Some {| VoiceBot.id := VoiceBot.id m; VoiceBot.type := VoiceBot.type m;
                   VoiceBot.role := VoiceBot.role m; VoiceBot.content := c;
                   VoiceBot.timestamp := VoiceBot.timestamp m;
                   VoiceBot.isComplete := VoiceBot.isComplete m |} /\
         length ms' = length ms /\
         (forall j, j <> i -> ms' !! j = ms !! j))
      \/
      ((forall m, m ∈ ms -> VoiceBot.roleIs r m = true -> VoiceBot.notComplete m = false) /\
       ms' =
         ms ++ [{| VoiceBot.id := uuid; VoiceBot.type := VoiceBot.transcription;
                   VoiceBot.role := Some r; VoiceBot.content := c;
                   VoiceBot.timestamp := now; VoiceBot.isComplete := Some false |}]))).
Proof.
  assert (Hnotice : forall ms uuid now text,
            atMostOneIncomplete ms ->
            atMostOneIncomplete (ms ++ [VoiceBot.systemMessage uuid now text])).
  { intros ms uuid now text. apply atMostOneIncomplete_snoc. reflexivity. }
  assert (Hnotify : forall seen uuid now cb b,
            normalizedCallback cb ->
            atMostOneIncomplete (VoiceBot.messages (VoiceBot.state b)) ->
            atMostOneIncomplete
              (VoiceBot.messages (VoiceBot.state (App.notify seen uuid now cb b)))).
  { intros seen uuid now cb b _. apply atMostOneIncomplete_notify. }
  split; [|split; [|split]].
  - intros es s Hrun.
    apply (kept_run atMostOneIncomplete atMostOneIncomplete_nil Hnotice Hnotify
             es App.mounted s Hrun).
    apply throughout_mounted, atMostOneIncomplete_nil.
  - intros env e s s'.
    apply (kept_step atMostOneIncomplete atMostOneIncomplete_nil Hnotice Hnotify).
  - intros uuid now r c prev H. split; [|split].
    + apply atMostOneIncomplete_onTranscriptUpdate. exact H.
    + apply atMostOneIncomplete_snoc; [reflexivity | exact H].
    + apply atMostOneIncomplete_onSentenceComplete. exact H.
  - intros uuid now r c prev ms next ms'.
    destruct (onTranscriptUpdate_cases uuid now r c prev)
      as [[Hnone Heq]|(i & m & Hl & Hp & Hlast & Heq)]; fold ms in Hnone || fold ms in Hl.
    + split; [unfold ms', next; rewrite Heq; reflexivity|]. right. split.
      * intros m Hm Hr. specialize (Hnone m Hm). simpl in Hnone.
        rewrite Hr in Hnone. exact Hnone.
      * unfold ms', next. rewrite Heq. reflexivity.
    + assert (Hms' : ms' = <[i := VoiceBot.withContent c m]> ms).
      { unfold ms', next. rewrite Heq. reflexivity. }
      pose proof (lookup_lt_Some _ _ _ Hl) as Hlt.
      split; [unfold next at 1; rewrite Heq, Hms'; reflexivity|]. left.
      apply andb_true_iff in Hp as [Hr Hn].
      exists i, m. repeat split; auto.
      * rewrite Hms'. rewrite list_lookup_insert_eq by assumption. reflexivity.
      * rewrite Hms'. apply length_insert.
      * intros j Hj. rewrite Hms'. apply list_lookup_insert_ne. congruence.
Qed.

Lemma one_incomplete_per_role_witness :
  exists s, App.run sampleSession App.mounted = Some s /\ atMostOneIncomplete (App.log s).
Proof.
  destruct (App.run sampleSession App.mounted) as [s|] eqn:E; [|vm_compute in E; discriminate].
  exists s. split; [reflexivity|].
  exact (proj1 one_incomplete_per_role sampleSession s E).
Defined.

(** ** Claims about the "update" listener *)

Lemma lower_char_a c : JS.lower_char c = "a"%char -> c = "a"%char \/ c = "A"%char.
Proof.
  destruct c as [[] [] [] [] [] [] [] []]; vm_compute; intros H;
    first [discriminate H | auto].
Qed.

Lemma lower_char_g c : JS.lower_char c = "g"%char -> c = "g"%char \/ c = "G"%char.
Proof.
  destruct c as [[] [] [] [] [] [] [] []]; vm_compute; intros H;
    first [discriminate H | auto].
Qed.

Lemma lower_char_e c : JS.lower_char c = "e"%char -> c = "e"%char \/ c = "E"%char.
Proof.
  destruct c as [[] [] [] [] [] [] [] []]; vm_compute; intros H;
    first [discriminate H | auto].
Qed.

Lemma lower_char_n c : JS.lower_char c = "n"%char -> c = "n"%char \/ c = "N"%char.
Proof.
  destruct c as [[] [] [] [] [] [] [] []]; vm_compute; intros H;
    first [discriminate H | auto].
Qed.

Lemma lower_char_t c : JS.lower_char c = "t"%char -> c = "t"%char \/ c = "T"%char.
Proof.
  destruct c as [[] [] [] [] [] [] [] []]; vm_compute; intros H;
    first [discriminate H | auto].
Qed.

Lemma toLowerCase_agent r :
  JS.toLowerCase r = "agent" <-> isAgentIgnoringCase r.
Proof.
  split.
  - destruct r as [|c1 [|c2 [|c3 [|c4 [|c5 [|c6 r]]]]]]; simpl; intros H;
      try discriminate H.
    injection H as H1 H2 H3 H4 H5.
    exists c1, c2, c3, c4, c5. split; [reflexivity|].
    auto 10 using lower_char_a, lower_char_g, lower_char_e, lower_char_n, lower_char_t.
  - intros (c1 & c2 & c3 & c4 & c5 & -> & [-> | ->] & [-> | ->] & [-> | ->] &
            [-> | ->] & [-> | ->]); reflexivity.
Qed.

Lemma trimStart_blank s : allWhiteSpace s = true -> JS.trimStart s = EmptyString.
Proof.
  induction s as [|c r IH]; simpl; [reflexivity|].
  intros H. apply andb_true_iff in H as [Hc Hr]. rewrite Hc. apply IH, Hr.
Qed.

Lemma trimStart_head s c r : JS.trimStart s = String c r -> JS.isWhiteSpace c = false.
Proof.
  induction s as [|d t IH]; simpl; [discriminate|].
  destruct (JS.isWhiteSpace d) eqn:E; [exact IH|].
  intros [= -> _]. exact E.
Qed.

Lemma trimStart_empty s : JS.trimStart s = EmptyString -> allWhiteSpace s = true.
Proof.
  induction s as [|c r IH]; simpl; [reflexivity|].
  destruct (JS.isWhiteSpace c); [exact IH | discriminate].
Qed.

Lemma trimEnd_head c r : JS.isWhiteSpace c = false -> JS.trimEnd (String c r) <> EmptyString.
Proof. simpl. intros ->. destruct (JS.trimEnd r); discriminate. Qed.

(** [trim] answers the empty string exactly for the strings that are empty
    or hold white space only. *)
Lemma trim_blank s : JS.trim s = EmptyString <-> allWhiteSpace s = true.
Proof.
  unfold JS.trim. split.
  - intros H. apply trimStart_empty.
    destruct (JS.trimStart s) as [|c r] eqn:E; [reflexivity|].
    exfalso. apply (trimEnd_head c r); [|exact H].
    eapply trimStart_head; eassumption.
  - intros H. rewrite (trimStart_blank s H). reflexivity.
Qed.

(** C10.  The listener files a transcript element under "assistant" when
    its role is "agent" up to letter case and under "user" otherwise; the
    role it hands to [onTranscriptUpdate] is that one; hence every
    transcription in a reachable log has role "user" or "assistant". *)
Theorem roles_are_normalized :
  (forall r, isAgentIgnoringCase r -> RetellClient.normalizeRole r = "assistant") /\
  (forall r, ~ isAgentIgnoringCase r -> RetellClient.normalizeRole r = "user") /\
  (forall u r c,
     In (RetellClient.TranscriptUpdate r c) (RetellClient.updateCallbacks u) ->
     exists items latest,
       RetellClient.transcript u = Some items /\ last items = Some latest /\
       r = RetellClient.normalizeRole (RetellClient.role latest)) /\
  (forall es s m,
     App.run es App.mounted = Some s -> m ∈ App.log s ->
     VoiceBot.type m = VoiceBot.transcription ->
     VoiceBot.role m = Some "user" \/ VoiceBot.role m = Some "assistant").
Proof.
  split; [|split; [|split]].
  - intros r H. unfold RetellClient.normalizeRole.
    rewrite (proj2 (toLowerCase_agent r) H). reflexivity.
  - intros r H. unfold RetellClient.normalizeRole.
    destruct (String.eqb_spec (JS.toLowerCase r) "agent") as [E|E]; [|reflexivity].
    exfalso. apply H, toLowerCase_agent, E.
  - intros u r c. unfold RetellClient.updateCallbacks, RetellClient.responseCallbacks.
    destruct (RetellClient.transcript u) as [items|].
    + destruct (last items) as [latest|] eqn:El; [|intros []].
      destruct (negb _); [intros []|].
      intros [H|H].
      * injection H as <- _. exists items, latest. auto.
      * exfalso. destruct (RetellClient.response u) as [[x|x y j]|];
          [destruct (JS.truthy x)| |]; simpl in H; intuition discriminate.
    + intros H. exfalso. destruct (RetellClient.response u) as [[x|x y j]|];
        [destruct (JS.truthy x)| |]; simpl in H; intuition discriminate.
  - intros es s m Hrun Hm Ht.
    assert (Hwf : Forall wellFormed (App.log s)).
    { assert (Hk : throughout (Forall wellFormed) s).
      { apply (kept_run (Forall wellFormed)) with (es := es) (s := App.mounted).
        - constructor.
        - intros ms uuid now text H. apply Forall_app. split; [exact H|].
          apply Forall_singleton. reflexivity.
        - intros seen uuid now cb b. apply wellFormed_notify.
        - exact Hrun.
        - apply throughout_mounted. constructor. }
      exact (proj1 (proj1 Hk)). }
    apply (proj1 (Forall_forall _ _) Hwf) in Hm.
    unfold wellFormed in Hm. rewrite Ht in Hm. exact Hm.
Qed.

Lemma roles_are_normalized_witness :
  RetellClient.normalizeRole "AgEnT" = "assistant" /\
  RetellClient.normalizeRole "agents" = "user" /\
  exists s, App.run sampleSession App.mounted = Some s /\
    forall m, m ∈ App.log s -> VoiceBot.type m = VoiceBot.transcription ->
      VoiceBot.role m = Some "user" \/ VoiceBot.role m = Some "assistant".
Proof.
  destruct roles_are_normalized as (Hyes & Hno & _ & Hlog).
  split; [|split].
  - apply Hyes. exists "A"%char, "g"%char, "E"%char, "n"%char, "T"%char. auto 10.
  - apply Hno. intros (c1 & c2 & c3 & c4 & c5 & H & _). discriminate H.
  - destruct (App.run sampleSession App.mounted) as [s|] eqn:E;
      [|vm_compute in E; discriminate].
    exists s. split; [reflexivity|]. intros m. apply (Hlog sampleSession s m E).
Defined.

(** C9.  An update whose latest transcript element is blank once trimmed
    makes the listener return at once: it invokes no callback, neither
    [onTranscriptUpdate] nor any other, and the event leaves the component
    and with it the message log as they were. *)
Theorem blank_transcript_is_dropped (u : RetellClient.Update)
    (items : list RetellClient.TranscriptItem) (latest : RetellClient.TranscriptItem) :
  RetellClient.transcript u = Some items ->
  last items = Some latest ->
  JS.trim (RetellClient.content latest) = EmptyString ->
  RetellClient.updateCallbacks u = [] /\
  (forall now c, snd (RetellClient.onUpdate now u c) = []) /\
  (forall env s,
     RetellClient.clientRef (App.client s) = true ->
     exists s', App.step env (App.SdkUpdate u) s = Some s' /\
                App.bot s' = App.bot s /\ App.log s' = App.log s).
Proof.
  intros Ht Hl Hc.
  assert (Hcb : RetellClient.updateCallbacks u = []).
  { unfold RetellClient.updateCallbacks. rewrite Ht, Hl, Hc. reflexivity. }
  split; [exact Hcb|]. split.
  - intros now c. simpl. rewrite Hcb. reflexivity.
  - intros env s Hclient. unfold App.step. simpl. rewrite Hclient.
    eexists. split; [reflexivity|].
    assert (Hkeep : App.bot (App.rendered env s
                       (App.fromClient env (App.current s)
                          (RetellClient.onUpdate (App.now env) u (App.client s)) s))
                    = App.bot s).
    { rewrite bot_rendered. unfold App.fromClient. simpl. rewrite Hcb. reflexivity. }
    split; [exact Hkeep|]. unfold App.log. rewrite Hkeep. reflexivity.
Qed.

Lemma blank_transcript_is_dropped_witness :
  RetellClient.updateCallbacks (fragment "user" "  ") = [].
Proof.
  apply (blank_transcript_is_dropped (fragment "user" "  ")
           [{| RetellClient.role := "user"; RetellClient.content := "  " |}]
           {| RetellClient.role := "user"; RetellClient.content := "  " |});
    reflexivity.
Defined.

(** ** Claims about the session transport *)

Lemma endCall_too_short (c : RetellClient.t) (now opened : Z) :
  RetellClient.callStartTimeRef c = Some opened ->
  opened <> 0 ->
  now - opened < RetellClient.MIN_CALL_DURATION_MS ->
  RetellClient.endCall now c = (c, []).
Proof.
  intros Hs Hz Hlt.
  unfold RetellClient.endCall, RetellClient.timeSet. rewrite Hs. simpl.
  destruct (_ || _); [reflexivity|].
  destruct (Z.eqb_spec opened 0); [contradiction|].
  destruct (Z.ltb_spec (now - opened) RetellClient.MIN_CALL_DURATION_MS);
    [reflexivity|lia].
Qed.

(** C3.  An [endCall()] issued while a call is open and less than
    MIN_CALL_DURATION_MS (10 s) have passed since it was opened does
    nothing: the hook's state is unchanged (no flag set, no timer
    registered, so no [stopCall] follows) and no callback is invoked. *)
Theorem endCall_below_minimum_duration (c : RetellClient.t) (now opened : Z) :
  RetellClient.callStartTimeRef c = Some opened ->
  opened <> 0 ->
  now - opened < 10000 ->
  RetellClient.MIN_CALL_DURATION_MS = 10000 /\
  RetellClient.endCall now c = (c, []).
Proof.
  intros Hs Hz Hlt. split; [reflexivity|].
  apply (endCall_too_short c now opened Hs Hz). exact Hlt.
Qed.

Lemma endCall_below_minimum_duration_witness :
  let c := RetellClient.set_callStartTimeRef (Some 1000000)
             (fst (RetellClient.initializeClient RetellClient.initial)) in
  RetellClient.endCall 1002000 c = (c, []).
Proof.
  intros c.
  apply (endCall_below_minimum_duration c 1002000 1000000); [reflexivity|lia|lia].
Defined.

(** The "End Call" button in the same situation: the hook and the trace of
    outside actions stay as they were and the call stays active; the
    component has set its loading flag before it asked. *)
Lemma handleEndCall_below_minimum_duration env s opened :
  RetellClient.callStartTimeRef (App.client s) = Some opened ->
  opened <> 0 ->
  App.now env - opened < RetellClient.MIN_CALL_DURATION_MS ->
  let s' := App.handleEndCall env s in
  App.client s' = App.client s /\ App.trace s' = App.trace s /\
  App.callActive s' = App.callActive s /\ App.log s' = App.log s /\
  App.loading s' = true.
Proof.
  intros Hs Hz Hlt. unfold App.handleEndCall, App.endCall. simpl.
  rewrite (endCall_too_short _ _ _ Hs Hz Hlt).
  unfold App.fromClient. simpl.
  destruct (RetellClient.isEndingCallRef (App.client s)); simpl; rewrite app_nil_r; auto.
Qed.

(** Past the threshold the request is taken: the ending flag is set and the
    debounce timer registered. *)
Lemma endCall_after_minimum_duration (c : RetellClient.t) (now opened : Z) :
  RetellClient.callStartTimeRef c = Some opened ->
  10000 <= now - opened ->
  RetellClient.isEndingCallRef c = false ->
  RetellClient.isStartingCallRef c = false ->
  let c' := fst (RetellClient.endCall now c) in
  RetellClient.isEndingCallRef c' = true /\
  RetellClient.operationTimeoutRef c' = Some RetellClient.EndOperation.
Proof.
  intros Hs Hge He Hst. unfold RetellClient.endCall, RetellClient.MIN_CALL_DURATION_MS.
  rewrite He, Hst, Hs. simpl.
  destruct (Z.ltb_spec (now - opened) 10000); [lia|].
  rewrite andb_false_r. simpl. auto.
Qed.

(** ** Guards against duplicate starts *)

(** The trigger flag of the monitor: results that arrive after a detection
    and before the next start are ignored. *)
Lemma onresult_after_detection ts m :
  WakeWord.wakeWordDetectedRef m = true -> WakeWord.onresult ts m = (m, []).
Proof. unfold WakeWord.onresult. intros ->. reflexivity. Qed.

(** The guard of [handleWakeWordDetected]: the ref as it is, the call
    flags as the handler has seen them. *)
Lemma handleWakeWordDetected_guard seen uuid now b :
  VoiceBot.isStartingCallRef b = true \/
  VoiceBot.snapCallActive seen = true \/
  VoiceBot.snapLoading seen = true ->
  VoiceBot.handleWakeWordDetected seen uuid now b = b.
Proof.
  unfold VoiceBot.handleWakeWordDetected.
  intros [-> | [-> | ->]]; rewrite ?orb_true_r; reflexivity.
Qed.

(** The guard of the hook's [startCall]. *)
Lemma startCall_guard c :
  RetellClient.isStartingCallRef c = true \/ RetellClient.isEndingCallRef c = true ->
  RetellClient.startCall c = (c, []).
Proof.
  unfold RetellClient.startCall. intros [-> | ->]; rewrite ?orb_true_r; reflexivity.
Qed.

(** The guard of [startWakeWordDetection]: the call flags as the handler
    has seen them. *)
Lemma startWakeWordDetection_guard seen uuid now b :
  VoiceBot.snapCallActive seen = true \/ VoiceBot.snapLoading seen = true ->
  VoiceBot.startWakeWordDetectionOf seen uuid now b = b.
Proof.
  unfold VoiceBot.startWakeWordDetectionOf.
  intros [-> | ->]; rewrite ?orb_true_r; reflexivity.
Qed.

(** The debounced body of [startCall] releases the hook's starting flag
    before the create-call request is answered. *)
Lemma startCallTimeout_releases_flag c :
  let c' := fst (RetellClient.startCallTimeout c) in
  RetellClient.isStartingCallRef c' = false /\
  RetellClient.fetchesInFlight c' = S (RetellClient.fetchesInFlight c).
Proof. split; reflexivity. Qed.

(** C2.  The listening flag and a loading, then active, call at the same
    time.  First trace: "Start Call" pressed 1.2 s after the page is
    loaded, the listen-by-default timer at 1.5 s, the debounce timer of
    the start at 1.7 s; the flag stays on when the call opens, and the
    monitor starts the recognition engine during the call.  Second trace:
    "Listen for Wake Word" pressed within the 800 ms between a detection
    and the start it has scheduled. *)
Theorem listening_during_call :
  (exists s, App.run startCallRace App.mounted = Some s /\
     App.listening s = true /\ App.loading s = true) /\
  (exists s, App.run startCallRaceOpened App.mounted = Some s /\
     App.listening s = true /\ App.callActive s = true /\
     WakeWord.isRecognitionActiveRef (App.monitor s) = true) /\
  (exists s, App.run wakeWordRace App.mounted = Some s /\
     App.listening s = true /\ App.loading s = true).
Proof.
  split; [|split].
  - destruct (App.run startCallRace App.mounted) as [s|] eqn:E;
      [|vm_compute in E; discriminate].
    exists s. split; [reflexivity|].
    vm_compute in E. injection E as <-. split; reflexivity.
  - destruct (App.run startCallRaceOpened App.mounted) as [s|] eqn:E;
      [|vm_compute in E; discriminate].
    exists s. split; [reflexivity|].
    vm_compute in E. injection E as <-. repeat split; reflexivity.
  - destruct (App.run wakeWordRace App.mounted) as [s|] eqn:E;
      [|vm_compute in E; discriminate].
    exists s. split; [reflexivity|].
    vm_compute in E. injection E as <-. split; reflexivity.
Qed.

(** C4.  Two activations before connecting completes, two call-open
    operations: the second wake word is heard after the 800 ms timer of
    the first has released the component's starting flag and before the
    loading flag is set; when its own timer fires, the hook's starting flag
    has been released by [cleanupClient], so a second create-call request
    is posted while the first is still unanswered. *)
Theorem two_opens_for_two_activations :
  exists s, App.run doubleActivation App.mounted = Some s /\
    activations s = 2%nat /\ App.opens s = 2%nat /\
    RetellClient.fetchesInFlight (App.client s) = 2%nat /\
    App.sdkStarts s = 0%nat /\ App.callActive s = false.
Proof.
  destruct (App.run doubleActivation App.mounted) as [s|] eqn:E;
    [|vm_compute in E; discriminate].
  exists s. split; [reflexivity|].
  vm_compute in E. injection E as <-. repeat split; reflexivity.
Qed.

(** ** Claims about the activation monitor *)

Lemma onerror_lastErrorTime now kind m :
  let m' := fst (WakeWord.onerror now kind m) in
  WakeWord.lastErrorTimeRef m' = WakeWord.lastErrorTimeRef m \/
  (WakeWord.lastErrorTimeRef m' = now /\ 5000 < now - WakeWord.lastErrorTimeRef m).
Proof.
  unfold WakeWord.onerror. simpl.
  destruct (negb _); simpl; [|auto].
  destruct (Z.ltb_spec 5000 (now - WakeWord.lastErrorTimeRef m)); simpl; auto.
Qed.

Lemma onerror_reported now kind m :
  snd (WakeWord.onerror now kind m) <> [] ->
  WakeWord.lastErrorTimeRef (fst (WakeWord.onerror now kind m)) = now.
Proof.
  unfold WakeWord.onerror. simpl.
  destruct (negb _ && _); simpl; [reflexivity|congruence].
Qed.

Lemma onerror_actions now kind m :
  snd (WakeWord.onerror now kind m) =
    if negb (String.eqb kind "aborted") && negb (String.eqb kind "no-speech")
       && (5000 <? now - WakeWord.lastErrorTimeRef m)
    then [WakeWord.RecognitionError kind] else [].
Proof.
  unfold WakeWord.onerror. simpl.
  destruct (String.eqb kind "aborted"), (String.eqb kind "no-speech"),
    (5000 <? now - WakeWord.lastErrorTimeRef m); reflexivity.
Qed.

Lemma spaced_from_earlier gap t0 t1 l : t0 <= t1 -> spaced gap t1 l -> spaced gap t0 l.
Proof. destruct l as [|[t k] r]; simpl; [auto|]. intros H [H1 H2]. split; [lia|assumption]. Qed.

Lemma surfaced_spaced evs : forall m,
  spaced 5000 (WakeWord.lastErrorTimeRef m) (surfaced evs m).
Proof.
  induction evs as [|[now kind] r IH]; intros m; simpl; [exact I|].
  pose proof (onerror_lastErrorTime now kind m) as Ht.
  pose proof (onerror_actions now kind m) as Ha.
  pose proof (onerror_reported now kind m) as Hr.
  destruct (WakeWord.onerror now kind m) as [m1 acts]. simpl in Ht, Ha, Hr.
  specialize (IH m1).
  destruct acts as [|a acts'].
  - destruct Ht as [Ht|[Ht Hgap]]; rewrite Ht in IH; [exact IH|].
    apply (spaced_from_earlier _ _ now); [lia|exact IH].
  - simpl. rewrite Hr in IH by discriminate.
    destruct (5000 <? now - WakeWord.lastErrorTimeRef m) eqn:E.
    + apply Z.ltb_lt in E. split; [exact E|exact IH].
    + rewrite andb_false_r in Ha. discriminate Ha.
Qed.

Lemma surfaced_kinds evs : forall m,
  Forall (fun e => snd e <> "no-speech" /\ snd e <> "aborted") (surfaced evs m).
Proof.
  induction evs as [|[now kind] r IH]; intros m; simpl; [constructor|].
  pose proof (onerror_actions now kind m) as Ha.
  destruct (WakeWord.onerror now kind m) as [m1 acts]. simpl in Ha.
  destruct acts as [|a acts']; [apply IH|].
  constructor; [|apply IH]. simpl.
  destruct (String.eqb_spec kind "aborted"); [discriminate Ha|].
  destruct (String.eqb_spec kind "no-speech"); [discriminate Ha|]. auto.
Qed.

(** C7.  [recognition.onerror] never hands a "no-speech" or "aborted"
    error to [onError]; an error of another kind is handed over exactly
    when more than 5000 ms have passed since the last error that got
    through the limiter, and dropped otherwise; so along any sequence of
    error events the errors handed over are of other kinds and more than
    5000 ms apart.  The component shows no toast for the two benign kinds
    either. *)
Theorem recognition_errors_are_rate_limited :
  (forall now kind m,
     let acts := snd (WakeWord.onerror now kind m) in
     (kind = "no-speech" \/ kind = "aborted" -> acts = []) /\
     (acts = [] \/ acts = [WakeWord.RecognitionError kind]) /\
     (acts = [WakeWord.RecognitionError kind] <->
        kind <> "no-speech" /\ kind <> "aborted" /\
        5000 < now - WakeWord.lastErrorTimeRef m) /\
     (now - WakeWord.lastErrorTimeRef m < 5000 -> acts = [])) /\
  (forall evs m,
     spaced 5000 (WakeWord.lastErrorTimeRef m) (surfaced evs m) /\
     Forall (fun e => snd e <> "no-speech" /\ snd e <> "aborted") (surfaced evs m)) /\
  VoiceBot.handleWakeWordError "no-speech" = false /\
  VoiceBot.handleWakeWordError "aborted" = false.
Proof.
  split; [|split; [|split; reflexivity]].
  - intros now kind m acts. unfold acts. rewrite onerror_actions.
    destruct (String.eqb_spec kind "aborted") as [Ea|Ea];
      destruct (String.eqb_spec kind "no-speech") as [En|En];
      destruct (Z.ltb_spec 5000 (now - WakeWord.lastErrorTimeRef m)) as [Hl|Hl];
      simpl; repeat split; auto; try discriminate; try tauto; try lia;
      try (intros (? & ? & ?); first [contradiction | lia]).
  - intros evs m. split; [apply surfaced_spaced | apply surfaced_kinds].
Qed.

Lemma recognition_errors_are_rate_limited_witness :
  snd (WakeWord.onerror 1000 "aborted" WakeWord.initial) = [] /\
  snd (WakeWord.onerror 6001 "network" WakeWord.initial) = [WakeWord.RecognitionError "network"] /\
  snd (WakeWord.onerror 4000 "network" WakeWord.initial) = [] /\
  surfaced [(6000, "network"); (9000, "audio-capture"); (11000, "no-speech");
            (11001, "not-allowed"); (15000, "network"); (16002, "network")]
    WakeWord.initial = [(6000, "network"); (11001, "not-allowed"); (16002, "network")].
Proof.
  destruct recognition_errors_are_rate_limited as (Hone & _ & _).
  split; [|split; [|split]].
  - destruct (Hone 1000 "aborted" WakeWord.initial) as (Hbenign & _).
    apply Hbenign. right. reflexivity.
  - destruct (Hone 6001 "network" WakeWord.initial) as (_ & _ & Hiff & _).
    apply Hiff. split; [discriminate | split; [discriminate | reflexivity]].
  - destruct (Hone 4000 "network" WakeWord.initial) as (_ & _ & _ & Hdrop).
    apply Hdrop. reflexivity.
  - reflexivity.
Defined.

(** ** Restart with backoff *)










(** * Further properties of the hook *)

(** X1.  [cleanupClient] leaves the hook with no client, no recorded call,
    no timer and no flag; it calls [stopCall] at most once, and only when a
    client was held and a call start had been recorded; run again, it
    changes nothing and calls nothing. *)
Theorem cleanupClient_releases_once (c : RetellClient.t) :
  let c1 := fst (RetellClient.cleanupClient c) in
  released c1 /\
  RetellClient.cleanupClient c1 = (c1, []) /\
  (countb isStopCall (snd (RetellClient.cleanupClient c)) <= 1)%nat /\
  (In RetellClient.SdkStopCall (snd (RetellClient.cleanupClient c)) <->
     RetellClient.clientRef c = true /\
     exists t0, RetellClient.callStartTimeRef c = Some t0 /\ t0 <> 0).
Proof.
  intros c1. split; [|split; [|split]].
  - unfold released. simpl. repeat split.
  - reflexivity.
  - simpl. destruct (_ && _); simpl; lia.
  - simpl. unfold RetellClient.timeSet.
    destruct (RetellClient.clientRef c); simpl.
    + destruct (RetellClient.callStartTimeRef c) as [t0|]; simpl.
      * destruct (Z.eqb_spec t0 0) as [E|E]; simpl.
        -- split; [intros []|]. intros (_ & t1 & [= <-] & Hne). contradiction.
        -- split; [|auto]. intros _. split; [reflexivity|]. exists t0. auto.
      * split; [intros []|]. intros (_ & t1 & Hd & _). discriminate Hd.
    + split; [intros []|]. intros (Hd & _). discriminate Hd.
Qed.

(** X2.  While an operation is in progress every further request is
    dropped: after any [startCall], a second [startCall] and an [endCall]
    change nothing, and so do both after an [endCall] that was taken. *)
Theorem requests_in_progress_are_dropped :
  (forall c now,
     let c1 := fst (RetellClient.startCall c) in
     RetellClient.startCall c1 = (c1, []) /\ RetellClient.endCall now c1 = (c1, [])) /\
  (forall c now now',
     let c1 := fst (RetellClient.endCall now c) in
     RetellClient.isEndingCallRef c1 = true ->
     RetellClient.startCall c1 = (c1, []) /\ RetellClient.endCall now' c1 = (c1, [])).
Proof.
  split.
  - intros c now c1. unfold c1, RetellClient.startCall, RetellClient.endCall.
    destruct (RetellClient.isStartingCallRef c) eqn:Es,
      (RetellClient.isEndingCallRef c) eqn:Ee; simpl; rewrite ?Es, ?Ee; simpl; auto.
  - intros c now now' c1 He. unfold RetellClient.startCall, RetellClient.endCall.
    rewrite He. simpl. rewrite ?orb_true_r. auto.
Qed.

Lemma requests_in_progress_are_dropped_witness :
  let c1 := fst (RetellClient.endCall 1020000 openCall) in
  RetellClient.isEndingCallRef c1 = true /\
  RetellClient.startCall c1 = (c1, []) /\ RetellClient.endCall 1030000 c1 = (c1, []).
Proof.
  intros c1. split; [reflexivity|].
  apply (proj2 requests_in_progress_are_dropped openCall 1020000 1030000). reflexivity.
Defined.

(** ** The operation flags along a run *)

Lemma oneOperation_flags e s c :
  e && s = false -> oneOperation (RetellClient.set_flags e s c).
Proof. unfold oneOperation. simpl. intros H. rewrite andb_comm. exact H. Qed.

Lemma oneOperation_cleanupClient c : oneOperation (fst (RetellClient.cleanupClient c)).
Proof. reflexivity. Qed.

Lemma oneOperation_startCallFailed m c :
  oneOperation (fst (RetellClient.startCallFailed m c)).
Proof. reflexivity. Qed.

Lemma oneOperation_startCall c :
  oneOperation c -> oneOperation (fst (RetellClient.startCall c)).
Proof.
  unfold oneOperation, RetellClient.startCall. intros H.
  destruct (RetellClient.isStartingCallRef c) eqn:Es,
    (RetellClient.isEndingCallRef c) eqn:Ee; simpl in *;
    rewrite ?Es, ?Ee; first [reflexivity | discriminate H].
Qed.

Lemma oneOperation_endCall now c :
  oneOperation c -> oneOperation (fst (RetellClient.endCall now c)).
Proof.
  unfold oneOperation, RetellClient.endCall. intros H.
  destruct (RetellClient.isStartingCallRef c) eqn:Es,
    (RetellClient.isEndingCallRef c) eqn:Ee; simpl in *;
    rewrite ?Es, ?Ee; simpl; try congruence.
  destruct (RetellClient.timeSet _ && _); simpl; rewrite ?Es, ?Ee; reflexivity.
Qed.

Lemma oneOperation_operationTimeout threw c r :
  RetellClient.operationTimeout threw c = Some r ->
  oneOperation c -> oneOperation (fst r).
Proof.
  unfold RetellClient.operationTimeout.
  destruct (RetellClient.operationTimeoutRef c) as [[|]|]; intros [= <-] H.
  - reflexivity.
  - unfold RetellClient.endCallTimeout.
    destruct (negb _); [unfold oneOperation; simpl; apply andb_false_r|].
    destruct threw; [reflexivity|exact H].
Qed.

Lemma oneOperation_fetchSettled o tyErr c :
  oneOperation c -> oneOperation (fst (RetellClient.fetchSettled o tyErr c)).
Proof.
  unfold RetellClient.fetchSettled. intros H.
  destruct o; try reflexivity.
  destruct (RetellClient.clientRef _); [exact H|reflexivity].
Qed.

Lemma oneOperation_sdkStartSettled rej now c :
  oneOperation (fst (RetellClient.sdkStartSettled rej now c)).
Proof. unfold RetellClient.sdkStartSettled. destruct rej; reflexivity. Qed.

Lemma oneOperation_inactivityTimeout now c :
  oneOperation c -> oneOperation (fst (RetellClient.inactivityTimeout now c)).
Proof.
  unfold RetellClient.inactivityTimeout. intros H.
  destruct (_ && _); [apply oneOperation_endCall|]; exact H.
Qed.

Lemma client_startCall env seen s :
  App.client (App.startCall env seen s) = fst (RetellClient.startCall (App.client s)).
Proof. unfold App.startCall. destruct (_ && _); reflexivity. Qed.

Lemma client_endCall env seen s :
  App.client (App.endCall env seen s) =
  fst (RetellClient.endCall (App.now env) (App.client s)).
Proof. unfold App.endCall. destruct (_ && _); reflexivity. Qed.

Lemma oneOperation_handle env e s :
  oneOperation (App.client s) -> oneOperation (App.client (App.handle env e s)).
Proof.
  intros H. destruct e; cbn [App.handle]; try exact H.
  - destruct (App.listening s); exact H.
  - destruct (App.callActive s).
    + unfold App.handleEndCall. rewrite client_endCall. apply oneOperation_endCall, H.
    + unfold App.handleStartCall. destruct (_ || _); [exact H|].
      cbn [App.client App.set_bot]. rewrite client_startCall.
      apply oneOperation_startCall, H.
  - unfold App.listenTimeout. destruct (VoiceBot.listenTimers _); exact H.
  - unfold App.startCallTimeout. destruct (VoiceBot.startCallTimers _); [exact H|].
    cbn [App.client App.set_bot]. rewrite client_startCall.
    apply oneOperation_startCall, H.
  - unfold App.operationTimeout. destruct (App.operation _); [|exact H].
    destruct (RetellClient.operationTimeout threw (App.client s)) as [r|] eqn:E;
      [|exact H]. simpl. eapply oneOperation_operationTimeout; eassumption.
  - unfold App.inactivityTimeout. destruct (_ && _); simpl;
      apply oneOperation_inactivityTimeout, H.
  - unfold App.fetchSettled. destruct (App.takeAt _ _) as [[seen rest]|]; [|exact H].
    simpl. apply oneOperation_fetchSettled, H.
  - unfold App.sdkStartSettled. destruct (App.takeAt _ _) as [[seen rest]|]; [|exact H].
    simpl. apply oneOperation_sdkStartSettled.
  - reflexivity.
  - reflexivity.
  - unfold App.detectionTimeout. destruct (App.detectionTimer _); [|exact H].
    cbn [App.client App.set_pending]. rewrite client_fromMonitor. exact H.
  - unfold App.restartTimeout. destruct (App.recognitionHandlers _); [|exact H].
    cbn [App.client App.set_pending]. rewrite client_fromMonitor. exact H.
  - unfold App.retryTimeout. destruct (App.retries _); [exact H|].
    cbn [App.client App.set_pending]. rewrite client_fromMonitor. exact H.
  - unfold App.recognition. destruct (App.recognitionHandlers _); [|exact H].
    rewrite client_fromMonitor. exact H.
  - unfold App.recognition. destruct (App.recognitionHandlers _); [|exact H].
    rewrite client_fromMonitor. exact H.
  - unfold App.recognition. destruct (App.recognitionHandlers _); [|exact H].
    rewrite client_fromMonitor. exact H.
Qed.

Lemma oneOperation_step env e s s' :
  App.step env e s = Some s' -> oneOperation (App.client s) -> oneOperation (App.client s').
Proof.
  unfold App.step. destruct (App.enabled e s); [|discriminate].
  intros [= <-] H. rewrite client_rendered. apply oneOperation_handle, H.
Qed.

(** X3.  The hook never has its starting and its ending flag set together:
    not in any state the page reaches from its mounted state, and no event
    makes it so. *)
Theorem one_operation_at_a_time :
  (forall es s, App.run es App.mounted = Some s -> oneOperation (App.client s)) /\
  (forall env e s s',
     App.step env e s = Some s' ->
     oneOperation (App.client s) -> oneOperation (App.client s')).
Proof.
  split; [|apply oneOperation_step].
  assert (H : forall es s s', App.run es s = Some s' ->
                oneOperation (App.client s) -> oneOperation (App.client s')).
  { induction es as [|[env e] es IH]; intros s s' Hrun Hs; simpl in Hrun.
    - injection Hrun as <-. exact Hs.
    - destruct (App.step env e s) as [s1|] eqn:E; [|discriminate].
      apply (IH s1 s' Hrun). eapply oneOperation_step; eassumption. }
  intros es s Hrun. apply (H es App.mounted s Hrun). reflexivity.
Qed.

Lemma one_operation_at_a_time_witness :
  exists s, App.run doubleActivation App.mounted = Some s /\ oneOperation (App.client s).
Proof.
  destruct (App.run doubleActivation App.mounted) as [s|] eqn:E;
    [|vm_compute in E; discriminate].
  exists s. split; [reflexivity|].
  exact (proj1 one_operation_at_a_time doubleActivation s E).
Defined.

Lemma released_cleanupClient c : released (fst (RetellClient.cleanupClient c)).
Proof. unfold released. simpl. repeat split. Qed.

Lemma startCallFailed_shape m c :
  released (fst (RetellClient.startCallFailed m c)) /\
  firstn 2 (snd (RetellClient.startCallFailed m c)) =
    [RetellClient.Notify (RetellClient.Error m);
     RetellClient.Notify (RetellClient.Loading false)] /\
  ~ In RetellClient.SdkStartCall (snd (RetellClient.startCallFailed m c)) /\
  ~ In (RetellClient.Notify RetellClient.CallStarted)
      (snd (RetellClient.startCallFailed m c)).
Proof.
  unfold RetellClient.startCallFailed. simpl.
  split; [unfold released; simpl; repeat split|].
  split; [reflexivity|].
  destruct (_ && _); simpl; split; intros H; intuition discriminate.
Qed.

(** X4.  A start that fails, whether the create-call request is refused,
    fails or finds no client, or the SDK rejects [startCall], reports the
    error, then [onLoading(false)], never [onCallStarted], and leaves the
    hook with no client, no recorded call, no timer and no flag. *)
Theorem failed_start_releases_everything :
  (forall o tyErr c,
     o <> RetellClient.FetchOk \/ RetellClient.clientRef c = false ->
     let r := RetellClient.fetchSettled o tyErr c in
     released (fst r) /\
     (exists m, firstn 2 (snd r) =
        [RetellClient.Notify (RetellClient.Error m);
         RetellClient.Notify (RetellClient.Loading false)]) /\
     ~ In RetellClient.SdkStartCall (snd r) /\
     ~ In (RetellClient.Notify RetellClient.CallStarted) (snd r)) /\
  (forall m now c,
     let r := RetellClient.sdkStartSettled (Some m) now c in
     released (fst r) /\
     firstn 2 (snd r) =
       [RetellClient.Notify (RetellClient.Error m);
        RetellClient.Notify (RetellClient.Loading false)] /\
     ~ In (RetellClient.Notify RetellClient.CallStarted) (snd r)).
Proof.
  split.
  - intros o tyErr c Hfail r. unfold r, RetellClient.fetchSettled.
    set (c0 := RetellClient.set_inFlight _ _ c).
    assert (Hgo : forall m,
              released (fst (RetellClient.startCallFailed m c0)) /\
              (exists m', firstn 2 (snd (RetellClient.startCallFailed m c0)) =
                 [RetellClient.Notify (RetellClient.Error m');
                  RetellClient.Notify (RetellClient.Loading false)]) /\
              ~ In RetellClient.SdkStartCall (snd (RetellClient.startCallFailed m c0)) /\
              ~ In (RetellClient.Notify RetellClient.CallStarted)
                  (snd (RetellClient.startCallFailed m c0))).
    { intros m. destruct (startCallFailed_shape m c0) as (H1 & H2 & H3 & H4).
      repeat split; try assumption. exists m. exact H2. }
    destruct o as [| |m]; try apply Hgo.
    destruct Hfail as [Hne|Hc]; [contradiction|].
    replace (RetellClient.clientRef c0) with false by (symmetry; exact Hc).
    apply Hgo.
  - intros m now c r. unfold r, RetellClient.sdkStartSettled.
    destruct (startCallFailed_shape m
                (RetellClient.set_inFlight (RetellClient.fetchesInFlight c)
                   (pred (RetellClient.sdkStartsInFlight c)) c)) as (H1 & H2 & _ & H4).
    auto.
Qed.

Lemma failed_start_releases_everything_witness :
  let r := RetellClient.fetchSettled RetellClient.FetchNotOk "no client"
             (App.client connectingPage) in
  released (fst r) /\
  snd r = [RetellClient.Notify (RetellClient.Error "Failed to create call");
           RetellClient.Notify (RetellClient.Loading false)].
Proof.
  intros r. split; [|reflexivity].
  apply (proj1 failed_start_releases_everything RetellClient.FetchNotOk "no client"
           (App.client connectingPage)).
  left. discriminate.
Defined.

(** X5.  When the SDK has opened the call the hook records the clock as
    call start and last activity, arms the inactivity watchdog, releases
    the starting flag and reports [onCallStarted]; every [endCall] in the
    next 10 s is then dropped. *)
Theorem opened_call_cannot_be_ended_early (c : RetellClient.t) (now now' : Z) :
  now <> 0 ->
  now' - now < 10000 ->
  let r := RetellClient.sdkStartSettled None now c in
  snd r = [RetellClient.Notify RetellClient.CallStarted] /\
  RetellClient.callStartTimeRef (fst r) = Some now /\
  RetellClient.lastActivityTimeRef (fst r) = Some now /\
  RetellClient.inactivityTimerRef (fst r) = true /\
  RetellClient.isStartingCallRef (fst r) = false /\
  RetellClient.endCall now' (fst r) = (fst r, []).
Proof.
  intros Hz Hlt r. repeat split.
  apply (endCall_too_short (fst r) now' now); [reflexivity | exact Hz | exact Hlt].
Qed.

Lemma opened_call_cannot_be_ended_early_witness :
  RetellClient.endCall 1009999 openCall = (openCall, []).
Proof.
  apply (opened_call_cannot_be_ended_early
           (fst (RetellClient.initializeClient RetellClient.initial)) 1000000 1009999);
    lia.
Defined.

(** X6.  The inactivity watchdog invokes no callback.  When a call start
    is recorded, more than 10 s have passed since and no operation is in
    progress, it registers the end of the call (the request passes the
    minimum-duration guard); in every other case it only disarms itself. *)
Theorem inactivity_timeout_ends_only_long_calls (now : Z) (c : RetellClient.t) :
  let r := RetellClient.inactivityTimeout now c in
  snd r = [] /\
  (forall t0,
     RetellClient.callStartTimeRef c = Some t0 -> t0 <> 0 -> 10000 < now - t0 ->
     RetellClient.isStartingCallRef c = false -> RetellClient.isEndingCallRef c = false ->
     RetellClient.isEndingCallRef (fst r) = true /\
     RetellClient.operationTimeoutRef (fst r) = Some RetellClient.EndOperation /\
     RetellClient.inactivityTimerRef (fst r) = false) /\
  ((RetellClient.callStartTimeRef c = None \/
    RetellClient.callStartTimeRef c = Some 0 \/
    (exists t0, RetellClient.callStartTimeRef c = Some t0 /\ now - t0 <= 10000) \/
    RetellClient.isStartingCallRef c = true \/ RetellClient.isEndingCallRef c = true) ->
   fst r = RetellClient.set_inactivityTimerRef false c).
Proof.
  intros r. unfold r, RetellClient.inactivityTimeout, RetellClient.endCall,
    RetellClient.timeSet, RetellClient.MIN_CALL_DURATION_MS. simpl.
  split; [|split].
  - destruct (_ && _); [|reflexivity].
    destruct (_ || _); [reflexivity|]. destruct (_ && _); reflexivity.
  - intros t0 Hs Hz Hgt Hst He. rewrite Hs, Hst, He. simpl.
    destruct (Z.eqb_spec t0 0); [contradiction|]. simpl.
    destruct (Z.ltb_spec 10000 (now - t0)); [|lia]. simpl.
    destruct (Z.ltb_spec (now - t0) 10000); [lia|]. simpl. auto.
  - intros H.
    destruct (RetellClient.callStartTimeRef c) as [t0|] eqn:Hs; simpl; [|reflexivity].
    destruct (Z.eqb_spec t0 0) as [E|E]; simpl; [reflexivity|].
    destruct (Z.ltb_spec 10000 (now - t0)) as [Hgt|Hle]; simpl; [|reflexivity].
    destruct H as [H|[H|[(t1 & [= <-] & H)|[H|H]]]];
      try discriminate H; try (injection H as ->; contradiction); try lia;
      rewrite H; simpl; rewrite ?orb_true_r; reflexivity.
Qed.

Lemma inactivity_timeout_ends_only_long_calls_witness :
  RetellClient.isEndingCallRef (fst (RetellClient.inactivityTimeout 1300001 openCall)) = true /\
  fst (RetellClient.inactivityTimeout 1005000 openCall) =
    RetellClient.set_inactivityTimerRef false openCall.
Proof.
  split.
  - apply (proj1 (proj2 (inactivity_timeout_ends_only_long_calls 1300001 openCall))
             1000000); first [reflexivity | lia].
  - apply (proj2 (proj2 (inactivity_timeout_ends_only_long_calls 1005000 openCall))).
    right. right. left. exists 1000000. split; [reflexivity|lia].
Defined.

(** X7.  The end of a call is reported exactly once, as the last thing
    done, with the hook released: by the "call_ended" listener, and by the
    debounced body of [endCall] when [stopCall] throws, which reports the
    error first.  When [stopCall] succeeds the body reports nothing and
    keeps the ending flag for the "call_ended" event to clear. *)
Theorem call_end_is_reported_once :
  (forall c,
     let r := RetellClient.onSdkCallEnded c in
     released (fst r) /\ countb isCallEnded (snd r) = 1%nat /\
     last (snd r) = Some (RetellClient.Notify RetellClient.CallEnded)) /\
  (forall m c,
     RetellClient.clientRef c = true ->
     let r := RetellClient.endCallTimeout (Some m) c in
     released (fst r) /\ countb isCallEnded (snd r) = 1%nat /\
     last (snd r) = Some (RetellClient.Notify RetellClient.CallEnded) /\
     firstn 2 (snd r) = [RetellClient.SdkStopCall; RetellClient.Notify (RetellClient.Error m)]) /\
  (forall c,
     RetellClient.clientRef c = true ->
     RetellClient.endCallTimeout None c = (c, [RetellClient.SdkStopCall])).
Proof.
  split; [|split].
  - intros c r. unfold r, RetellClient.onSdkCallEnded. simpl.
    split; [unfold released; simpl; repeat split|].
    destruct (_ && _); simpl; auto.
  - intros m c Hc r. unfold r, RetellClient.endCallTimeout. rewrite Hc. simpl.
    split; [unfold released; simpl; repeat split|].
    destruct (_ && _); simpl; repeat split.
  - intros c Hc. unfold RetellClient.endCallTimeout. rewrite Hc. reflexivity.
Qed.

Lemma call_end_is_reported_once_witness :
  snd (RetellClient.endCallTimeout (Some "boom") openCall) =
    [RetellClient.SdkStopCall; RetellClient.Notify (RetellClient.Error "boom");
     RetellClient.SdkStopCall; RetellClient.Notify RetellClient.CallEnded] /\
  countb isCallEnded (snd (RetellClient.endCallTimeout (Some "boom") openCall)) = 1%nat.
Proof.
  split; [reflexivity|].
  apply (proj1 (proj2 call_end_is_reported_once) "boom" openCall). reflexivity.
Defined.

(** X25.  The debounced body of [startCall] starts from a fresh client: it
    reports [onLoading(true)] first, stops the previous call exactly when
    one was recorded on a held client, posts one create-call request last,
    and leaves a client held with no call recorded, no watchdog and no
    operation flag, one more request in flight. *)
Theorem start_begins_with_a_fresh_client (c : RetellClient.t) :
  let r := RetellClient.startCallTimeout c in
  head (snd r) = Some (RetellClient.Notify (RetellClient.Loading true)) /\
  last (snd r) = Some RetellClient.FetchCreateCall /\
  countb isStopCall (snd r) =
    (if RetellClient.clientRef c && RetellClient.timeSet (RetellClient.callStartTimeRef c)
     then 1 else 0)%nat /\
  (length (snd r) <= 3)%nat /\
  RetellClient.clientRef (fst r) = true /\
  RetellClient.callStartTimeRef (fst r) = None /\
  RetellClient.inactivityTimerRef (fst r) = false /\
  RetellClient.isStartingCallRef (fst r) = false /\
  RetellClient.isEndingCallRef (fst r) = false /\
  RetellClient.fetchesInFlight (fst r) = S (RetellClient.fetchesInFlight c).
Proof.
  intros r. unfold r, RetellClient.startCallTimeout, RetellClient.initializeClient.
  simpl. destruct (_ && _); simpl; repeat split; lia.
Qed.

(** * Further properties of the "update" listener *)

Lemma trimEnd_idempotent s : JS.trimEnd (JS.trimEnd s) = JS.trimEnd s.
Proof.
  induction s as [|c r IH]; simpl; [reflexivity|].
  destruct (JS.trimEnd r) as [|d r'] eqn:E.
  - destruct (JS.isWhiteSpace c) eqn:Ec; simpl; [reflexivity|].
    rewrite Ec. reflexivity.
  - simpl. simpl in IH. rewrite IH. reflexivity.
Qed.

Lemma trimEnd_keeps_head c r :
  JS.isWhiteSpace c = false -> exists r', JS.trimEnd (String c r) = String c r'.
Proof.
  intros Hc. simpl. rewrite Hc. destruct (JS.trimEnd r); eauto.
Qed.

(** Trimming what is trimmed changes nothing. *)
Lemma trim_idempotent s : JS.trim (JS.trim s) = JS.trim s.
Proof.
  unfold JS.trim. destruct (JS.trimStart s) as [|c r] eqn:E; [reflexivity|].
  pose proof (trimStart_head s c r E) as Hc.
  destruct (trimEnd_keeps_head c r Hc) as [r' Hr'].
  rewrite Hr'. cbn [JS.trimStart]. rewrite Hc, <- Hr'. apply trimEnd_idempotent.
Qed.

Lemma responseCallbacks_shape u :
  (length (RetellClient.responseCallbacks u) <= 1)%nat /\
  Forall (fun cb => isResponseUpdate cb = true) (RetellClient.responseCallbacks u).
Proof.
  unfold RetellClient.responseCallbacks.
  destruct (RetellClient.response u) as [[s|c x j]|]; [destruct (JS.truthy s)| |];
    simpl; split; try lia; repeat constructor.
Qed.

(** X8.  Of the transcript array only the last element is read; and the
    listener invokes at most one [onTranscriptUpdate], then at most one
    [onResponseUpdate], and nothing else. *)
Theorem update_reads_last_element_only :
  (forall earlier latest resp,
     RetellClient.updateCallbacks
       {| RetellClient.transcript := Some (earlier ++ [latest]);
          RetellClient.response := resp |} =
     RetellClient.updateCallbacks
       {| RetellClient.transcript := Some [latest]; RetellClient.response := resp |}) /\
  (forall u, exists ts rs,
     RetellClient.updateCallbacks u = ts ++ rs /\
     (length ts <= 1)%nat /\ (length rs <= 1)%nat /\
     Forall (fun cb => isTranscriptUpdate cb = true) ts /\
     Forall (fun cb => isResponseUpdate cb = true) rs).
Proof.
  split.
  - intros earlier latest resp. unfold RetellClient.updateCallbacks. simpl.
    rewrite last_snoc. reflexivity.
  - intros u. destruct (responseCallbacks_shape u) as [Hlen Hall].
    unfold RetellClient.updateCallbacks.
    destruct (RetellClient.transcript u) as [items|].
    + destruct (last items) as [latest|].
      * destruct (negb _).
        -- exists [], []. simpl. repeat split; auto.
        -- eexists [_], (RetellClient.responseCallbacks u). simpl.
           repeat split; auto.
      * exists [], []. simpl. repeat split; auto.
    + exists [], (RetellClient.responseCallbacks u). simpl. repeat split; auto.
Qed.

(** X9.  The text handed to [onTranscriptUpdate] is never empty and has no
    white space at either end: it is the trimmed content of the last
    transcript element. *)
Theorem transcript_content_is_trimmed (u : RetellClient.Update) (r c : string) :
  In (RetellClient.TranscriptUpdate r c) (RetellClient.updateCallbacks u) ->
  c <> EmptyString /\ JS.trim c = c /\
  exists items latest,
    RetellClient.transcript u = Some items /\ last items = Some latest /\
    c = JS.trim (RetellClient.content latest).
Proof.
  unfold RetellClient.updateCallbacks, RetellClient.responseCallbacks.
  destruct (RetellClient.transcript u) as [items|].
  - destruct (last items) as [latest|] eqn:El; [|intros []].
    destruct (JS.truthy (JS.trim (RetellClient.content latest))) eqn:Et;
      simpl; [|intros []].
    intros [H|H].
    + injection H as _ <-. split; [|split].
      * intros E. rewrite E in Et. discriminate Et.
      * apply trim_idempotent.
      * exists items, latest. auto.
    + exfalso. destruct (RetellClient.response u) as [[x|x y j]|];
        [destruct (JS.truthy x)| |]; simpl in H; intuition discriminate.
  - intros H. exfalso. destruct (RetellClient.response u) as [[x|x y j]|];
      [destruct (JS.truthy x)| |]; simpl in H; intuition discriminate.
Qed.

Lemma transcript_content_is_trimmed_witness :
  "hi there" <> EmptyString /\ JS.trim "hi there" = "hi there".
Proof.
  destruct (transcript_content_is_trimmed (fragment "User" "  hi there ") "user" "hi there")
    as (H1 & H2 & _); [left; reflexivity|].
  split; assumption.
Defined.

(** * Further properties of the component *)

Lemma evolves_refl m : evolves m m.
Proof. unfold evolves. auto. Qed.

Lemma evolves_trans m1 m2 m3 : evolves m1 m2 -> evolves m2 m3 -> evolves m1 m3.
Proof.
  intros (Hi & Ht & Hr & Hs & Hc) (Hi' & Ht' & Hr' & Hs' & Hc').
  unfold evolves. repeat split; try congruence.
  intros H. specialize (Hc H). subst m2. apply Hc'. exact H.
Qed.

Lemma logExtends_refl ms : logExtends ms ms.
Proof. intros i m H. exists m. split; [exact H|apply evolves_refl]. Qed.

Lemma logExtends_trans ms1 ms2 ms3 :
  logExtends ms1 ms2 -> logExtends ms2 ms3 -> logExtends ms1 ms3.
Proof.
  intros H12 H23 i m H. destruct (H12 i m H) as (m2 & H2 & E2).
  destruct (H23 i m2 H2) as (m3 & H3 & E3).
  exists m3. split; [exact H3|]. eapply evolves_trans; eassumption.
Qed.

Lemma logExtends_snoc ms m : logExtends ms (ms ++ [m]).
Proof.
  intros i x H. exists x. split; [|apply evolves_refl].
  rewrite lookup_app_l; [exact H|]. eapply lookup_lt_Some; eassumption.
Qed.

Lemma logExtends_insert ms i m m' :
  ms !! i = Some m -> evolves m m' -> logExtends ms (<[i := m']> ms).
Proof.
  intros Hl He j x Hj. destruct (decide (i = j)) as [<-|Hne].
  - exists m'. rewrite list_lookup_insert_eq by (eapply lookup_lt_Some; eassumption).
    split; [reflexivity|]. congruence.
  - exists x. rewrite list_lookup_insert_ne by assumption.
    split; [exact Hj|apply evolves_refl].
Qed.

Lemma logExtends_onTranscriptUpdate uuid now r c prev :
  logExtends (VoiceBot.messages prev)
    (VoiceBot.messages (VoiceBot.onTranscriptUpdate uuid now r c prev)).
Proof.
  destruct (onTranscriptUpdate_cases uuid now r c prev)
    as [[_ ->]|(i & m & Hl & Hp & _ & ->)]; rewrite messages_set_messages.
  - apply logExtends_snoc.
  - apply (logExtends_insert _ _ m); [exact Hl|].
    apply andb_true_iff in Hp as [_ Hn].
    unfold evolves. simpl. repeat split. rewrite Hn. discriminate.
Qed.

Lemma logExtends_onSentenceComplete prev :
  logExtends (VoiceBot.messages prev)
    (VoiceBot.messages (VoiceBot.onSentenceComplete prev)).
Proof.
  destruct (onSentenceComplete_cases prev) as [[_ ->]|(i & m & Hl & Hp & _ & ->)];
    [apply logExtends_refl|].
  rewrite messages_set_messages. apply (logExtends_insert _ _ m); [exact Hl|].
  unfold evolves. simpl. repeat split. rewrite Hp. discriminate.
Qed.

Lemma logExtends_notify seen uuid now cb b :
  logExtends (VoiceBot.messages (VoiceBot.state b))
    (VoiceBot.messages (VoiceBot.state (App.notify seen uuid now cb b))).
Proof.
  rewrite messages_notify. destruct cb; try apply logExtends_refl.
  - apply logExtends_onTranscriptUpdate.
  - apply logExtends_snoc.
  - apply logExtends_onSentenceComplete.
Qed.

Lemma logExtends_deliver env seen acts : forall k b,
  logExtends (VoiceBot.messages (VoiceBot.state b))
    (VoiceBot.messages (VoiceBot.state (App.deliver env seen k acts b))).
Proof.
  induction acts as [|a r IH]; intros k b; simpl; [apply logExtends_refl|].
  destruct a; try apply IH.
  eapply logExtends_trans; [apply logExtends_notify | apply IH].
Qed.

Lemma logExtends_fromClient env seen r s :
  logExtends (App.log s) (App.log (App.fromClient env seen r s)).
Proof. apply logExtends_deliver. Qed.

Lemma bot_startCall env seen s :
  App.bot (App.startCall env seen s) =
  App.bot (App.fromClient env seen (RetellClient.startCall (App.client s)) s).
Proof. unfold App.startCall. destruct (_ && _); reflexivity. Qed.

Lemma bot_endCall env seen s :
  App.bot (App.endCall env seen s) =
  App.bot (App.fromClient env seen (RetellClient.endCall (App.now env) (App.client s)) s).
Proof. unfold App.endCall. destruct (_ && _); reflexivity. Qed.

Lemma logExtends_startWakeWordDetection uuid now b :
  logExtends (VoiceBot.messages (VoiceBot.state b))
    (VoiceBot.messages (VoiceBot.state (VoiceBot.startWakeWordDetection uuid now b))).
Proof.
  unfold VoiceBot.startWakeWordDetection, VoiceBot.startWakeWordDetectionOf.
  destruct (_ || _); [apply logExtends_refl|].
  destruct (negb _); simpl; [apply logExtends_snoc | apply logExtends_refl].
Qed.

Ltac by_deliver :=
  unfold App.log, App.fromClient; cbn [App.bot App.set_bot App.set_pending];
  match goal with
  | |- context [App.deliver ?e ?sn ?k ?a ?b] => exact (logExtends_deliver e sn a k b)
  end.

(** An event that runs no handler of an older render extends the log. *)
Lemma logExtends_handle env e s :
  runsOlderHandler e = false -> logExtends (App.log s) (App.log (App.handle env e s)).
Proof.
  intros He. destruct e; try discriminate He; cbn [App.handle].
  - destruct (App.listening s); [apply logExtends_refl|].
    apply logExtends_startWakeWordDetection.
  - destruct (App.callActive s).
    + unfold App.handleEndCall, App.log. rewrite bot_endCall. by_deliver.
    + unfold App.handleStartCall. destruct (_ || _); [apply logExtends_refl|].
      unfold App.log. cbn [App.bot App.set_bot]. rewrite bot_startCall. by_deliver.
  - apply logExtends_startWakeWordDetection.
  - unfold App.startCallTimeout.
    destruct (VoiceBot.startCallTimers (App.bot s)); [apply logExtends_refl|].
    unfold App.log. cbn [App.bot App.set_bot]. rewrite bot_startCall. by_deliver.
  - unfold App.operationTimeout. destruct (App.operation _); [|apply logExtends_refl].
    destruct (RetellClient.operationTimeout _ _); [|apply logExtends_refl].
    by_deliver.
  - unfold App.inactivityTimeout. destruct (_ && _); by_deliver.
  - unfold App.fetchSettled.
    destruct (App.takeAt _ _) as [[seen rest]|]; [|apply logExtends_refl].
    by_deliver.
  - unfold App.sdkStartSettled.
    destruct (App.takeAt _ _) as [[seen rest]|]; [|apply logExtends_refl].
    by_deliver.
  - apply logExtends_fromClient.
  - apply logExtends_fromClient.
  - apply logExtends_fromClient.
  - apply logExtends_fromClient.
  - unfold App.detectionTimeout. destruct (App.detectionTimer _); [|apply logExtends_refl].
    unfold App.log. cbn [App.bot App.set_pending].
    rewrite bot_fromMonitor_quiet by apply startDetection_quiet. apply logExtends_refl.
  - unfold App.restartTimeout.
    destruct (App.recognitionHandlers _); [|apply logExtends_refl].
    unfold App.log. cbn [App.bot App.set_pending].
    rewrite bot_fromMonitor_quiet by apply restartTimeout_quiet. apply logExtends_refl.
  - unfold App.retryTimeout. destruct (App.retries _); [apply logExtends_refl|].
    unfold App.log. cbn [App.bot App.set_pending].
    rewrite bot_fromMonitor_quiet by apply retryTimeout_quiet. apply logExtends_refl.
  - unfold App.recognition.
    destruct (App.recognitionHandlers _); [|apply logExtends_refl].
    unfold App.log. rewrite bot_fromMonitor_quiet by (simpl; tauto). apply logExtends_refl.
  - unfold App.recognition.
    destruct (App.recognitionHandlers _); [|apply logExtends_refl].
    unfold App.log. rewrite bot_fromMonitor_quiet by apply onerror_quiet.
    apply logExtends_refl.
Qed.

(** X10.  Apart from the two events that run a handler of an older render
    (the 1500 ms timer of [onCallEnded] / [onError] and a result of the
    recognition object, which put back the log that handler has seen),
    the log is append-only: along every run of other events each entry
    keeps its position, identifier, kind, role and timestamp; an entry
    that is complete is not changed; so the log does not get shorter. *)
Theorem log_is_append_only (es : list (App.Env * App.Event)) (s s' : App.t) :
  Forall (fun ee => runsOlderHandler (snd ee) = false) es ->
  App.run es s = Some s' ->
  logExtends (App.log s) (App.log s') /\
  (forall i m, App.log s !! i = Some m -> VoiceBot.notComplete m = false ->
     App.log s' !! i = Some m) /\
  (length (App.log s) <= length (App.log s'))%nat.
Proof.
  intros Hes Hrun.
  assert (Hext : logExtends (App.log s) (App.log s')).
  { revert s Hrun. induction Hes as [|[env e] r He Hr IH]; intros s Hrun; simpl in Hrun.
    - injection Hrun as <-. apply logExtends_refl.
    - destruct (App.step env e s) as [s1|] eqn:E; [|discriminate].
      eapply logExtends_trans; [|apply IH; exact Hrun].
      unfold App.step in E. destruct (App.enabled e s); [|discriminate].
      injection E as <-. rewrite log_rendered. apply logExtends_handle. exact He. }
  split; [exact Hext|]. split.
  - intros i m Hl Hc. destruct (Hext i m Hl) as (m' & Hl' & (_ & _ & _ & _ & Hsame)).
    rewrite Hl', (Hsame Hc). reflexivity.
  - destruct (Nat.le_gt_cases (length (App.log s)) (length (App.log s'))) as [H|H];
      [exact H|]. exfalso.
    destruct (lookup_lt_is_Some_2 (App.log s) (length (App.log s'))) as [m Hm]; [lia|].
    destruct (Hext _ _ Hm) as (m' & Hm' & _).
    apply lookup_lt_Some in Hm'. lia.
Qed.

Lemma log_is_append_only_witness :
  exists s', App.run sampleSession App.mounted = Some s' /\
    logExtends (App.log App.mounted) (App.log s').
Proof.
  destruct (App.run sampleSession App.mounted) as [s'|] eqn:E;
    [|vm_compute in E; discriminate].
  exists s'. split; [reflexivity|].
  refine (proj1 (log_is_append_only sampleSession App.mounted s' _ E)).
  repeat constructor.
Defined.

(** X11.  [startWakeWordDetection] is idempotent: called again, with the
    flag already on, it changes nothing; in particular the "Listening for
    wake word" notice is appended once. *)
Theorem startWakeWordDetection_idempotent (uuid uuid' : string) (now now' : Z)
    (b : VoiceBot.t) :
  VoiceBot.startWakeWordDetection uuid' now' (VoiceBot.startWakeWordDetection uuid now b) =
  VoiceBot.startWakeWordDetection uuid now b.
Proof.
  destruct b as [[a l e cs ms lw lt ltr] f w mi sc lc].
  unfold VoiceBot.startWakeWordDetection, VoiceBot.startWakeWordDetectionOf. simpl.
  destruct a, l, w; simpl; try reflexivity; destruct lw; reflexivity.
Qed.

(** X12.  [handleStartCall] is idempotent: a second press before the
    debounce timer has fired is absorbed by the hook's starting flag, so
    one start stays registered and nothing else changes. *)
Theorem handleStartCall_idempotent (env env' : App.Env) (s : App.t) :
  App.handleStartCall env' (App.handleStartCall env s) = App.handleStartCall env s.
Proof.
  destruct s as [[[a l e cs ms lw lt ltr] f w mi sc lc] c m tr p].
  destruct c as [cr ci st la it ie ist ot ff sf].
  unfold App.handleStartCall, App.callActive, App.loading.
  cbn [App.bot VoiceBot.state VoiceBot.isStartingCallRef VoiceBot.isCallActive
       VoiceBot.isLoading].
  destruct f, a, l; cbn [orb]; try reflexivity.
  all: destruct ist, ie; cbv -[app]; rewrite ?app_nil_r; reflexivity.
Qed.

(** After a handler that has turned the call flags off, the
    listen-by-default effect has its timer registered. *)
Lemma boot_timer_registered env s after :
  App.callActive s = true \/ App.loading s = true ->
  App.callActive after = false -> App.loading after = false ->
  RetellClient.isInitialized (App.client after) = true ->
  App.bootTimer (App.pending (App.rendered env s after)) = true.
Proof.
  intros Hon Ha Hl Hi. unfold App.rendered. rewrite bootTimer_isActiveEffect.
  unfold App.listenByDefault, App.callbacksChanged. rewrite Ha, Hl, Hi.
  destruct Hon as [-> | ->]; simpl; rewrite ?orb_true_r; reflexivity.
Qed.

(** The timer of the listen-by-default effect on a page whose call flags
    are off. *)
Lemma boot_timer_starts_listening env s :
  App.bootTimer (App.pending s) = true ->
  App.callActive s = false -> App.loading s = false ->
  exists s', App.step env App.BootTimer s = Some s' /\
    App.listening s' = true /\ App.callActive s' = false /\ App.loading s' = false.
Proof.
  intros Ht Ha Hl. unfold App.step. simpl. rewrite Ht.
  eexists. split; [reflexivity|].
  unfold App.listening, App.callActive, App.loading in *.
  rewrite bot_rendered. simpl.
  destruct s as [[[a l e cs ms lw lt ltr] f w mi sc lc] c m tr p]. simpl in *. subst.
  unfold VoiceBot.startWakeWordDetection, VoiceBot.startWakeWordDetectionOf. simpl.
  destruct w; simpl; auto.
Qed.

(** X13.  Recovery.  An "error" event of the channel, a "call_ended" event
    and a failed create-call request, on a page whose call is active or
    loading, each leave the call flags off and the timer of the
    listen-by-default effect registered; when that timer fires next, the
    page is listening for the wake word again.  The 1500 ms timer that
    [onError] / [onCallEnded] register themselves on a channel event holds
    the [startWakeWordDetection] of the render that saw the call: it
    returns at its guard. *)
Theorem failures_recover_to_listening (env env' : App.Env) (s : App.t) :
  RetellClient.isInitialized (App.client s) = true ->
  App.callActive s = true \/ App.loading s = true ->
  (forall message,
     RetellClient.clientRef (App.client s) = true ->
     exists s1 s2,
       App.step env (App.SdkError message) s = Some s1 /\
       VoiceBot.callStatus (VoiceBot.state (App.bot s1)) = CallStatus.error /\
       VoiceBot.error (VoiceBot.state (App.bot s1)) =
         Some (RetellClient.orElse message "An error occurred") /\
       App.callActive s1 = false /\ App.loading s1 = false /\
       VoiceBot.listenTimers (App.bot s1) =
         VoiceBot.listenTimers (App.bot s) ++ [App.current s] /\
       App.step env' App.BootTimer s1 = Some s2 /\
       App.listening s2 = true /\ App.callActive s2 = false /\ App.loading s2 = false) /\
  (RetellClient.clientRef (App.client s) = true ->
   exists s1 s2,
     App.step env App.SdkCallEnded s = Some s1 /\
     VoiceBot.callStatus (VoiceBot.state (App.bot s1)) = CallStatus.ended /\
     App.callActive s1 = false /\ App.loading s1 = false /\
     released (App.client s1) /\
     VoiceBot.listenTimers (App.bot s1) =
       VoiceBot.listenTimers (App.bot s) ++ [App.current s] /\
     App.step env' App.BootTimer s1 = Some s2 /\
     App.listening s2 = true /\ App.callActive s2 = false /\ App.loading s2 = false) /\
  (forall o tyErr,
     (0 < RetellClient.fetchesInFlight (App.client s))%nat ->
     App.fetches (App.pending s) <> [] ->
     o <> RetellClient.FetchOk ->
     exists s1 s2,
       App.step env (App.FetchSettled o tyErr) s = Some s1 /\
       VoiceBot.callStatus (VoiceBot.state (App.bot s1)) = CallStatus.error /\
       App.callActive s1 = false /\ App.loading s1 = false /\
       released (App.client s1) /\
       App.step env' App.BootTimer s1 = Some s2 /\
       App.listening s2 = true /\ App.callActive s2 = false /\ App.loading s2 = false) /\
  (forall uuid now b,
     VoiceBot.startWakeWordDetectionOf (App.current s) uuid now b = b).
Proof.
  intros Hi Hon. split; [|split; [|split]].
  - intros message Hc.
    set (after := App.handle env (App.SdkError message) s).
    assert (Hb : App.bot after =
              VoiceBot.onError (App.current s)
                (RetellClient.orElse message "An error occurred") (App.bot s))
      by reflexivity.
    assert (Ht : App.bootTimer (App.pending (App.rendered env s after)) = true).
    { apply boot_timer_registered; auto;
        unfold App.callActive, App.loading; rewrite Hb; reflexivity. }
    destruct (boot_timer_starts_listening env' _ Ht) as (s2 & H2 & Hl & Ha & Hd);
      try (unfold App.callActive, App.loading; rewrite bot_rendered, Hb; reflexivity).
    exists (App.rendered env s after), s2. unfold App.step at 1. simpl. rewrite Hc.
    fold after. unfold App.callActive, App.loading. rewrite bot_rendered, Hb.
    simpl. repeat split; auto.
  - intros Hc.
    set (after := App.handle env App.SdkCallEnded s).
    assert (Hb : App.bot after = VoiceBot.onCallEnded (App.current s) (App.bot s)).
    { unfold after. cbn [App.handle]. unfold App.fromClient.
      simpl. destruct (_ && _); reflexivity. }
    assert (Hcl : released (App.client after) /\
                  RetellClient.isInitialized (App.client after) = true).
    { unfold after, released. simpl. repeat split. exact Hi. }
    destruct Hcl as [Hcl Hi1].
    assert (Ht : App.bootTimer (App.pending (App.rendered env s after)) = true).
    { apply boot_timer_registered; auto;
        unfold App.callActive, App.loading; rewrite Hb; reflexivity. }
    destruct (boot_timer_starts_listening env' _ Ht) as (s2 & H2 & Hl & Ha & Hd);
      try (unfold App.callActive, App.loading; rewrite bot_rendered, Hb; reflexivity).
    exists (App.rendered env s after), s2. unfold App.step at 1.
    cbn [App.enabled]. rewrite Hc. fold after.
    unfold App.callActive, App.loading. rewrite bot_rendered, client_rendered, Hb.
    simpl. repeat split; auto; apply Hcl.
  - intros o tyErr Hf Hp Ho.
    destruct (takeAt_Some (App.which env) (App.fetches (App.pending s)))
      as (seen & rest & Htake).
    { destruct (App.fetches (App.pending s)); [contradiction|reflexivity]. }
    set (after := App.handle env (App.FetchSettled o tyErr) s).
    assert (Hr : exists m,
              App.bot after = VoiceBot.onLoading false (VoiceBot.onError seen m (App.bot s)) /\
              released (App.client after) /\
              RetellClient.isInitialized (App.client after) = true).
    { unfold after. cbn [App.handle]. unfold App.fetchSettled. rewrite Htake.
      unfold App.fromClient, RetellClient.fetchSettled, RetellClient.startCallFailed.
      destruct o as [| |m]; [contradiction| |]; simpl;
        eexists; (split; [destruct (_ && _); reflexivity|]);
        unfold released; simpl; repeat split; exact Hi. }
    destruct Hr as (m & Hb & Hcl & Hi1).
    assert (Ht : App.bootTimer (App.pending (App.rendered env s after)) = true).
    { apply boot_timer_registered; auto;
        unfold App.callActive, App.loading; rewrite Hb; reflexivity. }
    destruct (boot_timer_starts_listening env' _ Ht) as (s2 & H2 & Hl & Ha & Hd);
      try (unfold App.callActive, App.loading; rewrite bot_rendered, Hb; reflexivity).
    exists (App.rendered env s after), s2. unfold App.step at 1. cbn [App.enabled].
    destruct (Nat.ltb_spec 0 (RetellClient.fetchesInFlight (App.client s))); [|lia].
    assert (Hne : App.nonEmpty (App.fetches (App.pending s)) = true).
    { destruct (App.fetches (App.pending s)); [contradiction|reflexivity]. }
    rewrite Hne. cbn [andb]. fold after.
    unfold App.callActive, App.loading. rewrite bot_rendered, client_rendered, Hb.
    simpl. repeat split; auto; apply Hcl.
  - intros uuid now b. apply startWakeWordDetection_guard.
    unfold App.current, App.callActive, App.loading in *. simpl. exact Hon.
Qed.

Lemma failures_recover_to_listening_witness :
  exists s1 s2,
    App.step (at_time 2000) (App.FetchSettled RetellClient.FetchNotOk "no client")
      connectingPage = Some s1 /\
    App.step (at_time 3500) App.BootTimer s1 = Some s2 /\ App.listening s2 = true.
Proof.
  destruct (failures_recover_to_listening (at_time 2000) (at_time 3500) connectingPage)
    as (_ & _ & H & _); [reflexivity | right; reflexivity |].
  destruct (H RetellClient.FetchNotOk "no client")
    as (s1 & s2 & H1 & _ & _ & _ & _ & H2 & Hl & _);
    [vm_compute; lia | discriminate | discriminate |].
  exists s1, s2. auto.
Defined.

(** X14.  "End Call" pressed while the call is less than 10 s old: the
    hook drops the request, so the call goes on, but the component has
    set its loading flag first, which disables the button. *)
Theorem end_button_pressed_early (env : App.Env) (s : App.t) (opened : Z) :
  App.callActive s = true -> App.loading s = false -> App.listening s = false ->
  RetellClient.callStartTimeRef (App.client s) = Some opened ->
  opened <> 0 ->
  App.now env - opened < 10000 ->
  exists s', App.step env App.ClickCallButton s = Some s' /\
    App.client s' = App.client s /\ App.log s' = App.log s /\
    App.callActive s' = true /\ App.loading s' = true /\
    App.enabled App.ClickCallButton s' = false.
Proof.
  intros Ha Hl Hw Hs Hz Hlt. unfold App.step.
  assert (He : App.enabled App.ClickCallButton s = true).
  { simpl. rewrite Hl, Hw. reflexivity. }
  rewrite He. eexists. split; [reflexivity|].
  cbn [App.handle]. rewrite Ha.
  destruct (handleEndCall_below_minimum_duration env s opened Hs Hz Hlt)
    as (Hc & _ & Ha' & Hlog & Hl').
  unfold App.log, App.callActive, App.loading, App.enabled, App.listening in *.
  rewrite bot_rendered, client_rendered.
  repeat split; auto; try congruence.
  unfold App.loading. rewrite bot_rendered, Hl'. reflexivity.
Qed.

Lemma end_button_pressed_early_witness :
  exists s', App.step (at_time 1004000) App.ClickCallButton activeCallPage = Some s' /\
    App.callActive s' = true /\ App.loading s' = true.
Proof.
  destruct (end_button_pressed_early (at_time 1004000) activeCallPage 1000000)
    as (s' & H & _ & _ & Ha & Hl & _); try reflexivity; try (simpl; lia).
  exists s'. auto.
Defined.

(** * Further properties of the activation monitor *)

Lemma prefix_append p : forall a b,
  String.prefix p a = true -> String.prefix p (String.append a b) = true.
Proof.
  induction p as [|c p IH]; intros a b.
  - intros _. destruct (String.append a b); reflexivity.
  - destruct a as [|d a]; simpl; [discriminate|].
    destruct (ascii_dec c d); [apply IH|discriminate].
Qed.

Lemma prefix_empty_inv p : String.prefix p EmptyString = true -> p = EmptyString.
Proof. destruct p; simpl; [reflexivity|discriminate]. Qed.

Lemma includes_cons p c s :
  JS.includes p (String c s) = String.prefix p (String c s) || JS.includes p s.
Proof. reflexivity. Qed.

Lemma includes_append_l p a b :
  JS.includes p a = true -> JS.includes p (String.append a b) = true.
Proof.
  induction a as [|c a IH].
  - simpl. rewrite orb_false_r. intros H. apply prefix_empty_inv in H. subst p.
    destruct b; reflexivity.
  - rewrite includes_cons. intros H.
    change (String.append (String c a) b) with (String c (String.append a b)).
    rewrite includes_cons. apply orb_true_iff in H as [H|H].
    + change (String c (String.append a b)) with (String.append (String c a) b).
      rewrite (prefix_append p (String c a) b H). reflexivity.
    + rewrite (IH H). apply orb_true_r.
Qed.

Lemma includes_append_r p a b :
  JS.includes p b = true -> JS.includes p (String.append a b) = true.
Proof.
  intros H. induction a as [|c a IH]; [exact H|].
  change (String.append (String c a) b) with (String c (String.append a b)).
  rewrite includes_cons, IH. apply orb_true_r.
Qed.

Lemma includes_join p sep x xs :
  In x xs -> JS.includes p x = true -> JS.includes p (JS.join sep xs) = true.
Proof.
  induction xs as [|y r IH]; intros Hin Hx; [destruct Hin|].
  destruct Hin as [->|Hin].
  - destruct r as [|z r]; simpl; [exact Hx|]. apply includes_append_l. exact Hx.
  - destruct r as [|z r]; [destruct Hin|].
    change (JS.join sep (y :: z :: r))
      with (String.append y (String.append sep (JS.join sep (z :: r)))).
    apply includes_append_r, includes_append_r, IH; assumption.
Qed.

Lemma onresult_sets_flag ts m :
  In WakeWord.WakeWordDetected (snd (WakeWord.onresult ts m)) ->
  WakeWord.wakeWordDetectedRef (fst (WakeWord.onresult ts m)) = true /\
  countb isDetection (snd (WakeWord.onresult ts m)) = 1%nat.
Proof.
  unfold WakeWord.onresult, WakeWord.safelyStopRecognition.
  destruct (WakeWord.wakeWordDetectedRef m); simpl; [intros []|].
  destruct (JS.includes _ _); simpl; [|intros []].
  destruct (_ && _); simpl; auto.
Qed.

Lemma onresult_quiet ts m :
  ~ In WakeWord.WakeWordDetected (snd (WakeWord.onresult ts m)) ->
  WakeWord.onresult ts m = (m, []).
Proof.
  unfold WakeWord.onresult, WakeWord.safelyStopRecognition.
  destruct (WakeWord.wakeWordDetectedRef m); simpl; [reflexivity|].
  destruct (JS.includes _ _); simpl; [|reflexivity].
  destruct (_ && _); simpl; intros H; exfalso; apply H; auto.
Qed.

Lemma onresults_after_detection events : forall m,
  WakeWord.wakeWordDetectedRef m = true -> onresults events m = (m, []).
Proof.
  induction events as [|ts r IH]; intros m Hd; simpl; [reflexivity|].
  rewrite (onresult_after_detection ts m Hd), (IH m Hd). reflexivity.
Qed.

(** X15.  One activation per start: whatever results the engine delivers
    after a start, [onWakeWordDetected] is invoked at most once; once the
    trigger flag is set, further results change nothing. *)
Theorem at_most_one_activation_per_start :
  (forall events m, (countb isDetection (snd (onresults events m)) <= 1)%nat) /\
  (forall events m,
     WakeWord.wakeWordDetectedRef m = true -> onresults events m = (m, [])).
Proof.
  split; [|exact onresults_after_detection].
  induction events as [|ts r IH]; intros m; simpl; [lia|].
  destruct (in_dec (fun a b : WakeWord.Action =>
              ltac:(decide equality; apply string_dec) : {a = b} + {a <> b})
              WakeWord.WakeWordDetected (snd (WakeWord.onresult ts m))) as [Hin|Hno].
  - destruct (onresult_sets_flag ts m Hin) as [Hflag Hcount].
    destruct (WakeWord.onresult ts m) as [m1 acts]. simpl in *.
    rewrite (onresults_after_detection r m1 Hflag). simpl.
    rewrite app_nil_r, Hcount. lia.
  - rewrite (onresult_quiet ts m Hno). specialize (IH m).
    destruct (onresults r m) as [m2 acts']. simpl in *. exact IH.
Qed.

Lemma at_most_one_activation_per_start_witness :
  let started := fst (WakeWord.startDetection WakeWord.Created false WakeWord.initial) in
  countb isDetection
    (snd (onresults [["hello"]; ["Hey Assistant"]; ["hey assistant"; "hey assistant"]]
            started)) = 1%nat /\
  onresults [["hey assistant"]] (fst (WakeWord.onresult ["hey assistant"] started)) =
    (fst (WakeWord.onresult ["hey assistant"] started), []).
Proof.
  intros started. split; [reflexivity|].
  apply (proj2 at_most_one_activation_per_start). reflexivity.
Defined.

(** X16.  The trigger phrase is found in any letter case, anywhere in the
    text, in any result of the event: when the flag is not set yet,
    [onWakeWordDetected] is invoked, the flag is set and the engine is
    stopped. *)
Theorem wake_word_is_found_in_any_case (ts : list string) (t0 : string) (m : WakeWord.t) :
  WakeWord.wakeWordDetectedRef m = false ->
  WakeWord.recognitionRef m = true ->
  In t0 ts ->
  JS.includes "hey assistant" (JS.toLowerCase t0) = true ->
  let r := WakeWord.onresult ts m in
  In WakeWord.WakeWordDetected (snd r) /\
  WakeWord.wakeWordDetectedRef (fst r) = true /\
  WakeWord.isRecognitionActiveRef (fst r) = false /\
  (WakeWord.isRecognitionActiveRef m = true -> In WakeWord.EngineStop (snd r)).
Proof.
  intros Hd Hr Hin Hinc r. unfold r, WakeWord.onresult. rewrite Hd.
  assert (Hj : JS.includes WakeWord.WAKE_WORD
                 (JS.join " " (map JS.toLowerCase ts)) = true).
  { apply (includes_join _ _ (JS.toLowerCase t0)); [|exact Hinc].
    apply in_map. exact Hin. }
  rewrite Hj. unfold WakeWord.safelyStopRecognition. simpl. rewrite Hr. simpl.
  destruct (WakeWord.isRecognitionActiveRef m) eqn:Ea; simpl;
    rewrite ?Ea; repeat split; auto; discriminate.
Qed.

Lemma wake_word_is_found_in_any_case_witness :
  let started := fst (WakeWord.startDetection WakeWord.Created false WakeWord.initial) in
  In WakeWord.WakeWordDetected
    (snd (WakeWord.onresult ["so"; "I said HEY Assistant please"] started)).
Proof.
  intros started.
  assert (Hd : WakeWord.wakeWordDetectedRef started = false) by reflexivity.
  assert (Hr : WakeWord.recognitionRef started = true) by reflexivity.
  assert (Hin : In "I said HEY Assistant please" ["so"; "I said HEY Assistant please"])
    by (right; left; reflexivity).
  assert (Hinc : JS.includes "hey assistant"
                   (JS.toLowerCase "I said HEY Assistant please") = true)
    by (vm_compute; reflexivity).
  exact (proj1 (wake_word_is_found_in_any_case ["so"; "I said HEY Assistant please"]
                  "I said HEY Assistant please" started Hd Hr Hin Hinc)).
Defined.

(** X17.  [stopDetection] cancels the pending restart and stops the engine
    if it runs; it keeps the trigger flag and the failure counter; called
    again it changes nothing and calls nothing. *)
Theorem stopDetection_cancels_and_stops (m : WakeWord.t) :
  let m1 := fst (WakeWord.stopDetection m) in
  WakeWord.restartTimerRef m1 = None /\
  (WakeWord.recognitionRef m = true -> WakeWord.isRecognitionActiveRef m1 = false) /\
  (WakeWord.recognitionRef m = true -> WakeWord.isRecognitionActiveRef m = true ->
   snd (WakeWord.stopDetection m) = [WakeWord.EngineStop]) /\
  WakeWord.stopDetection m1 = (m1, []) /\
  WakeWord.wakeWordDetectedRef m1 = WakeWord.wakeWordDetectedRef m /\
  WakeWord.setupAttemptRef m1 = WakeWord.setupAttemptRef m /\
  WakeWord.recognitionRef m1 = WakeWord.recognitionRef m.
Proof.
  intros m1. unfold m1, WakeWord.stopDetection, WakeWord.safelyStopRecognition.
  destruct m as [r a d le rt n k]. simpl.
  destruct r, a; simpl; rewrite ?andb_false_r; repeat split; auto; discriminate.
Qed.

(** X18.  In a browser without speech recognition every start attempt
    shows the "not supported" toast and ends with the failure counter at
    1, the engine off and no restart or retry registered. *)
Theorem unsupported_browser_start (th : bool) (m : WakeWord.t) :
  WakeWord.isRecognitionActiveRef m = false ->
  WakeWord.recognitionRef m = false ->
  let r := WakeWord.startDetection WakeWord.NotSupported th m in
  snd r = [WakeWord.ToastNotSupported] /\
  WakeWord.setupAttemptRef (fst r) = 1%nat /\
  WakeWord.isRecognitionActiveRef (fst r) = false /\
  WakeWord.recognitionRef (fst r) = false /\
  WakeWord.restartTimerRef (fst r) = None /\
  WakeWord.retryTimers (fst r) = WakeWord.retryTimers m.
Proof.
  intros Ha Hr r. unfold r, WakeWord.startDetection. rewrite Ha. simpl. rewrite Hr.
  simpl. unfold WakeWord.setupRecognition, WakeWord.cleanup,
    WakeWord.safelyStopRecognition. simpl. rewrite Hr. simpl. repeat split.
  exact Hr.
Qed.

Lemma unsupported_browser_start_witness :
  let failedBefore := WakeWord.set_setupAttempt 3 WakeWord.initial in
  snd (WakeWord.startDetection WakeWord.NotSupported false failedBefore) =
    [WakeWord.ToastNotSupported] /\
  WakeWord.setupAttemptRef
    (fst (WakeWord.startDetection WakeWord.NotSupported false failedBefore)) = 1%nat.
Proof.
  intros failedBefore.
  destruct (unsupported_browser_start false failedBefore) as (H1 & H2 & _);
    try reflexivity. split; assumption.
Defined.

(** X19.  The retry of a failed start sets the recognition up again, which
    resets the failure counter: while [recognition.start()] keeps throwing,
    every retry ends with the counter at 1 and registers the next retry. *)
Theorem retry_of_failed_start_repeats (o o' : WakeWord.SetupOutcome) (m : WakeWord.t) :
  WakeWord.recognitionRef m = true ->
  let r := WakeWord.retryTimeout true o o' true m in
  WakeWord.setupAttemptRef (fst r) = 1%nat /\
  WakeWord.retryTimers (fst r) = S (pred (WakeWord.retryTimers m)) /\
  WakeWord.isRecognitionActiveRef (fst r) = false /\
  In WakeWord.EngineStart (snd r).
Proof.
  intros Hr r. unfold r, WakeWord.retryTimeout, WakeWord.setupRecognition,
    WakeWord.cleanup, WakeWord.safelyStopRecognition.
  destruct m as [rr a d le rt n k]. simpl in Hr. subst rr. simpl.
  destruct a, o; simpl; unfold WakeWord.startDetection, WakeWord.tryStart; simpl;
    repeat split; auto 10.
Qed.

Lemma retry_of_failed_start_repeats_witness :
  let failing := fst (WakeWord.startDetection WakeWord.Created true WakeWord.initial) in
  WakeWord.retryTimers failing = 1%nat /\
  WakeWord.retryTimers
    (fst (WakeWord.retryTimeout true WakeWord.Created WakeWord.Created true failing)) = 1%nat.
Proof.
  intros failing. split; [reflexivity|].
  destruct (retry_of_failed_start_repeats WakeWord.Created WakeWord.Created failing)
    as (_ & H & _); [reflexivity|]. exact H.
Defined.

Lemma stopDetection_cancels_and_stops_witness :
  let running := fst (WakeWord.startDetection WakeWord.Created false WakeWord.initial) in
  WakeWord.isRecognitionActiveRef running = true /\
  WakeWord.isRecognitionActiveRef (fst (WakeWord.stopDetection running)) = false.
Proof.
  intros running. split; [reflexivity|].
  apply (proj1 (proj2 (stopDetection_cancels_and_stops running))). reflexivity.
Defined.

(** * Properties of the call-history route *)

Lemma orString_nonempty x d : d <> EmptyString -> GetCalls.orString x d <> EmptyString.
Proof.
  intros Hd. unfold GetCalls.orString. destruct x as [s|]; [|exact Hd].
  destruct s; simpl; [exact Hd|discriminate].
Qed.

Lemma withAnalysis_copies l :
  GetCalls.t_call_id (GetCalls.withAnalysis l) = GetCalls.call_id (GetCalls.call l) /\
  GetCalls.t_call_status (GetCalls.withAnalysis l) = GetCalls.call_status (GetCalls.call l) /\
  GetCalls.t_duration (GetCalls.withAnalysis l) = GetCalls.duration (GetCalls.call l) /\
  GetCalls.userSentiment (GetCalls.analysis (GetCalls.withAnalysis l)) <> EmptyString.
Proof.
  unfold GetCalls.withAnalysis. destruct (GetCalls.retrieved l); simpl;
    repeat split; try discriminate.
  apply orString_nonempty. discriminate.
Qed.

(** X20.  With an API key and a list of calls the route answers 200 with
    one entry per listed call, in the order listed, each carrying the call's
    id, status and duration and a sentiment that is not empty, whether the
    retrieval of the call's details succeeds or fails; it sends the list
    request and then one retrieval per call. *)
Theorem route_answers_one_entry_per_call (key : string) (calls : list GetCalls.Listed) :
  key <> EmptyString ->
  exists data,
    GetCalls.GET (Some key) (GetCalls.ListReturned calls) =
      (GetCalls.Ok data,
       GetCalls.ListCalls 50 ::
         map (fun l => GetCalls.RetrieveCall (GetCalls.call_id (GetCalls.call l))) calls) /\
    length data = length calls /\
    map GetCalls.t_call_id data = map (fun l => GetCalls.call_id (GetCalls.call l)) calls /\
    map GetCalls.t_call_status data =
      map (fun l => GetCalls.call_status (GetCalls.call l)) calls /\
    map GetCalls.t_duration data = map (fun l => GetCalls.duration (GetCalls.call l)) calls /\
    Forall (fun t => GetCalls.userSentiment (GetCalls.analysis t) <> EmptyString) data.
Proof.
  intros Hk. exists (map GetCalls.withAnalysis calls).
  split; [|split; [|split; [|split; [|split]]]].
  - unfold GetCalls.GET. destruct key; [contradiction|reflexivity].
  - apply length_map.
  - rewrite map_map. apply map_ext. intros l. apply withAnalysis_copies.
  - rewrite map_map. apply map_ext. intros l. apply withAnalysis_copies.
  - rewrite map_map. apply map_ext. intros l. apply withAnalysis_copies.
  - apply Forall_map. apply Forall_forall. intros l _. apply withAnalysis_copies.
Qed.

Lemma route_answers_one_entry_per_call_witness :
  exists data,
    fst (GetCalls.GET (Some "key")
           (GetCalls.ListReturned
              [ {| GetCalls.call := sampleCall "a"; GetCalls.retrieved := None;
                   GetCalls.nowIso := "2025-01-01T00:00:00.000Z" |};
                {| GetCalls.call := sampleCall "b";
                   GetCalls.retrieved := Some (sampleCall "b");
                   GetCalls.nowIso := "2025-01-01T00:00:00.001Z" |} ])) = GetCalls.Ok data /\
    map GetCalls.t_call_id data = ["a"; "b"].
Proof.
  destruct (route_answers_one_entry_per_call "key"
              [ {| GetCalls.call := sampleCall "a"; GetCalls.retrieved := None;
                   GetCalls.nowIso := "2025-01-01T00:00:00.000Z" |};
                {| GetCalls.call := sampleCall "b";
                   GetCalls.retrieved := Some (sampleCall "b");
                   GetCalls.nowIso := "2025-01-01T00:00:00.001Z" |} ])
    as (data & Hget & _ & Hids & _); [discriminate|].
  exists data. split; [rewrite Hget; reflexivity|exact Hids].
Defined.

(** X21.  A retrieval that fails gives the same entry as a retrieval that
    succeeds for a call without analysis, or with an analysis whose fields
    are all absent: empty texts, sentiment "Unknown", not successful. *)
Theorem failed_retrieval_is_an_empty_analysis (now : string)
    (call detailed : GetCalls.RetellCall) :
  GetCalls.call_analysis detailed = None \/
  GetCalls.call_analysis detailed = Some GetCalls.noAnalysis \/
  GetCalls.call_analysis detailed =
    Some {| GetCalls.user_sentiment := None; GetCalls.call_successful := None;
            GetCalls.call_summary := None;
            GetCalls.custom_analysis_data := Some GetCalls.noCustomAnalysis |} ->
  GetCalls.transformCall now call detailed = GetCalls.defaultCall now call.
Proof.
  unfold GetCalls.transformCall, GetCalls.defaultCall.
  intros [-> | [-> | ->]]; reflexivity.
Qed.

Lemma failed_retrieval_is_an_empty_analysis_witness :
  GetCalls.transformCall "2025-01-01T00:00:00.000Z" (sampleCall "a") (sampleCall "a") =
  GetCalls.defaultCall "2025-01-01T00:00:00.000Z" (sampleCall "a").
Proof.
  apply failed_retrieval_is_an_empty_analysis. left. reflexivity.
Defined.

(** X22.  Without an API key the route answers 400 and sends nothing;
    with one, a list request that throws or does not resolve to an array
    gives 500 after that single request, never a partial list. *)
Theorem route_failures (o : GetCalls.ListOutcome) :
  (forall key, key = None \/ key = Some EmptyString ->
     GetCalls.GET key o = (GetCalls.Failed 400 "API key is required", [])) /\
  (forall key, key <> EmptyString ->
     (forall calls, o <> GetCalls.ListReturned calls) ->
     exists message,
       GetCalls.GET (Some key) o = (GetCalls.Failed 500 message, [GetCalls.ListCalls 50])).
Proof.
  split.
  - intros key [-> | ->]; reflexivity.
  - intros key Hk Hno. unfold GetCalls.GET.
    destruct key; [contradiction|]. simpl.
    destruct o as [m| |calls]; eauto. exfalso. apply (Hno calls). reflexivity.
Qed.

Lemma route_failures_witness :
  GetCalls.GET None GetCalls.ListInvalid = (GetCalls.Failed 400 "API key is required", []) /\
  exists message,
    GetCalls.GET (Some "key") (GetCalls.ListThrew None) =
      (GetCalls.Failed 500 message, [GetCalls.ListCalls 50]).
Proof.
  split.
  - apply (proj1 (route_failures GetCalls.ListInvalid)). left. reflexivity.
  - apply (proj2 (route_failures (GetCalls.ListThrew None)) "key");
      [discriminate|]. intros calls. discriminate.
Defined.

(** * A call from start to open *)

Lemma hook_pending_rendered env before after :
  let s' := App.rendered env before after in
  App.operation (App.pending s') = App.operation (App.pending after) /\
  App.fetches (App.pending s') = App.fetches (App.pending after) /\
  App.sdkStartCalls (App.pending s') = App.sdkStartCalls (App.pending after) /\
  App.recognitionHandlers (App.pending s') = App.recognitionHandlers (App.pending after).
Proof.
  unfold App.rendered, App.isActiveEffect.
  destruct (_ || _); [destruct (_ || _)|]; cbn [App.pending App.set_pending];
    rewrite ?pending_fromMonitor; unfold App.listenByDefault;
    destruct (_ || _); repeat split; reflexivity.
Qed.

Lemma step_enabled env e s :
  App.enabled e s = true ->
  exists s', App.step env e s = Some s' /\
    App.bot s' = App.bot (App.handle env e s) /\
    App.client s' = App.client (App.handle env e s) /\
    App.operation (App.pending s') = App.operation (App.pending (App.handle env e s)) /\
    App.fetches (App.pending s') = App.fetches (App.pending (App.handle env e s)) /\
    App.sdkStartCalls (App.pending s') =
      App.sdkStartCalls (App.pending (App.handle env e s)).
Proof.
  intros He. unfold App.step. rewrite He. eexists. split; [reflexivity|].
  rewrite bot_rendered, client_rendered.
  destruct (hook_pending_rendered env s (App.handle env e s)) as (H1 & H2 & H3 & _).
  auto.
Qed.

(** The hook's [startCall()] when no operation is in progress. *)
Lemma startCall_taken env seen s :
  RetellClient.isStartingCallRef (App.client s) = false ->
  RetellClient.isEndingCallRef (App.client s) = false ->
  App.bot (App.startCall env seen s) = App.bot s /\
  App.client (App.startCall env seen s) =
    RetellClient.set_operationTimeoutRef (Some RetellClient.StartOperation)
      (RetellClient.set_flags false true (App.client s)) /\
  App.operation (App.pending (App.startCall env seen s)) = Some seen.
Proof.
  intros Hs He. unfold App.startCall, RetellClient.startCall. rewrite Hs, He. simpl.
  auto.
Qed.

(** The debounced body of a start up to its [await fetch]. *)
Lemma start_operation_posts_the_request env threw s seen :
  RetellClient.operationTimeoutRef (App.client s) = Some RetellClient.StartOperation ->
  App.operation (App.pending s) = Some seen ->
  exists s',
    App.step env (App.OperationTimer threw) s = Some s' /\
    App.bot s' = VoiceBot.onLoading true (App.bot s) /\
    App.client s' =
      fst (RetellClient.startCallTimeout
             (RetellClient.set_operationTimeoutRef None (App.client s))) /\
    App.fetches (App.pending s') = App.fetches (App.pending s) ++ [seen].
Proof.
  intros Hop Hseen.
  destruct (step_enabled env (App.OperationTimer threw) s)
    as (s' & H & Hb & Hc & _ & Hf & _);
    [unfold App.enabled; rewrite Hop, Hseen; reflexivity|].
  exists s'. split; [exact H|].
  cbn [App.handle] in Hb, Hc, Hf. unfold App.operationTimeout in Hb, Hc, Hf.
  rewrite Hseen in Hb, Hc, Hf.
  unfold RetellClient.operationTimeout in Hb, Hc, Hf. rewrite Hop in Hb, Hc, Hf.
  rewrite Hb, Hc, Hf. clear.
  cbn [App.bot App.client App.pending App.set_pending App.fromClient fst].
  split; [|split; [reflexivity|]].
  - unfold RetellClient.startCallTimeout, RetellClient.initializeClient,
      RetellClient.cleanupClient.
    destruct (_ && _); reflexivity.
  - assert (E : (RetellClient.fetchesInFlight (App.client s) <?
                 RetellClient.fetchesInFlight
                   (RetellClient.startCallTimeout
                      (RetellClient.set_operationTimeoutRef None (App.client s))).1)%nat
                = true).
    { apply Nat.ltb_lt. simpl. lia. }
    rewrite E. reflexivity.
Qed.

(** The create-call request of a start is accepted: the body calls the
    SDK's [startCall]. *)
Lemma accepted_request_starts_the_sdk env tyErr s :
  RetellClient.clientRef (App.client s) = true ->
  (0 < RetellClient.fetchesInFlight (App.client s))%nat ->
  App.fetches (App.pending s) <> [] ->
  exists s',
    App.step env (App.FetchSettled RetellClient.FetchOk tyErr) s = Some s' /\
    App.bot s' = App.bot s /\
    App.client s' = fst (RetellClient.fetchSettled RetellClient.FetchOk tyErr (App.client s)) /\
    App.sdkStartCalls (App.pending s') <> [].
Proof.
  intros Hcr Hn Hf.
  assert (Hne : App.nonEmpty (App.fetches (App.pending s)) = true).
  { destruct (App.fetches (App.pending s)); [contradiction|reflexivity]. }
  destruct (takeAt_Some (App.which env) _ Hne) as (seen & rest & Htake).
  destruct (step_enabled env (App.FetchSettled RetellClient.FetchOk tyErr) s)
    as (s' & H & Hb & Hc & _ & _ & Hsd).
  { unfold App.enabled. rewrite Hne. apply andb_true_iff. split; [|reflexivity].
    apply Nat.ltb_lt. exact Hn. }
  exists s'. split; [exact H|].
  cbn [App.handle] in Hb, Hc, Hsd. unfold App.fetchSettled in Hb, Hc, Hsd.
  rewrite Htake in Hb, Hc, Hsd. rewrite Hb, Hc, Hsd. clear Hb Hc Hsd H.
  cbn [App.bot App.client App.pending App.set_pending App.fromClient fst].
  unfold RetellClient.fetchSettled. simpl RetellClient.clientRef. rewrite Hcr.
  split; [reflexivity|]. split; [reflexivity|].
  assert (E : (RetellClient.sdkStartsInFlight (App.client s) <?
               S (RetellClient.sdkStartsInFlight (App.client s)))%nat = true)
    by (apply Nat.ltb_lt; lia).
  simpl. rewrite E. simpl. intros Habs. apply app_eq_nil in Habs as [_ Habs].
  discriminate.
Qed.

(** The SDK's [startCall] of a start resolves: the call is open. *)
Lemma resolved_start_opens_the_call env s :
  (0 < RetellClient.sdkStartsInFlight (App.client s))%nat ->
  App.sdkStartCalls (App.pending s) <> [] ->
  exists s',
    App.step env (App.SdkStartSettled None) s = Some s' /\
    App.bot s' = VoiceBot.onCallStarted (App.bot s) /\
    App.client s' = fst (RetellClient.sdkStartSettled None (App.now env) (App.client s)).
Proof.
  intros Hn Hf.
  assert (Hne : App.nonEmpty (App.sdkStartCalls (App.pending s)) = true).
  { destruct (App.sdkStartCalls (App.pending s)); [contradiction|reflexivity]. }
  destruct (takeAt_Some (App.which env) _ Hne) as (seen & rest & Htake).
  destruct (step_enabled env (App.SdkStartSettled None) s) as (s' & H & Hb & Hc & _).
  { unfold App.enabled. rewrite Hne. apply andb_true_iff. split; [|reflexivity].
    apply Nat.ltb_lt. exact Hn. }
  exists s'. split; [exact H|].
  cbn [App.handle] in Hb, Hc. unfold App.sdkStartSettled in Hb, Hc.
  rewrite Htake in Hb, Hc. rewrite Hb, Hc. split; reflexivity.
Qed.

(** The debounced body of a start, the create-call request accepted and
    the SDK's [startCall] resolved. *)
Lemma start_operation_opens_the_call e2 e3 e4 threw tyErr s seen :
  RetellClient.operationTimeoutRef (App.client s) = Some RetellClient.StartOperation ->
  App.operation (App.pending s) = Some seen ->
  exists s',
    App.run [ (e2, App.OperationTimer threw);
              (e3, App.FetchSettled RetellClient.FetchOk tyErr);
              (e4, App.SdkStartSettled None) ] s = Some s' /\
    App.bot s' = VoiceBot.onCallStarted (VoiceBot.onLoading true (App.bot s)) /\
    RetellClient.clientRef (App.client s') = true /\
    RetellClient.callStartTimeRef (App.client s') = Some (App.now e4) /\
    RetellClient.inactivityTimerRef (App.client s') = true /\
    RetellClient.isStartingCallRef (App.client s') = false /\
    RetellClient.isEndingCallRef (App.client s') = false.
Proof.
  intros Hop Hseen.
  destruct (start_operation_posts_the_request e2 threw s seen Hop Hseen)
    as (s2 & H2 & Hb2 & Hc2 & Hf2).
  assert (Hc2' : RetellClient.clientRef (App.client s2) = true /\
                 (0 < RetellClient.fetchesInFlight (App.client s2))%nat /\
                 RetellClient.isEndingCallRef (App.client s2) = false).
  { rewrite Hc2. unfold RetellClient.startCallTimeout, RetellClient.initializeClient,
      RetellClient.cleanupClient.
    destruct (_ && _); simpl; repeat split; lia. }
  destruct Hc2' as (Hcr2 & Hn2 & He2).
  destruct (accepted_request_starts_the_sdk e3 tyErr s2 Hcr2 Hn2)
    as (s3 & H3 & Hb3 & Hc3 & Hf3).
  { rewrite Hf2. intros Habs. apply app_eq_nil in Habs as [_ Habs]. discriminate. }
  assert (Hc3' : (0 < RetellClient.sdkStartsInFlight (App.client s3))%nat /\
                 RetellClient.clientRef (App.client s3) = true /\
                 RetellClient.isEndingCallRef (App.client s3) = false).
  { rewrite Hc3. unfold RetellClient.fetchSettled. simpl RetellClient.clientRef.
    rewrite Hcr2. simpl. repeat split; [lia | exact Hcr2 | exact He2]. }
  destruct Hc3' as (Hn3 & Hcr3 & He3).
  destruct (resolved_start_opens_the_call e4 s3 Hn3 Hf3) as (s4 & H4 & Hb4 & Hc4).
  exists s4. split.
  - cbn [App.run]. rewrite H2. cbn [App.run]. rewrite H3. cbn [App.run].
    rewrite H4. reflexivity.
  - rewrite Hb4, Hb3, Hb2, Hc4. simpl. repeat split; assumption.
Qed.

(** X23.  "Start Call" on an idle page, the debounce timer, an accepted
    create-call request and an SDK [startCall] that resolves: the call is
    active, nothing is loading, the status is "ongoing", the error is
    cleared, the page does not listen for the wake word, and the hook
    holds the client with the call start recorded, the watchdog armed and
    no operation in progress. *)
Theorem manual_start_opens_the_call (e1 e2 e3 e4 : App.Env) (threw : option string)
    (tyErr : string) (s : App.t) :
  VoiceBot.isStartingCallRef (App.bot s) = false ->
  App.callActive s = false -> App.loading s = false -> App.listening s = false ->
  RetellClient.isStartingCallRef (App.client s) = false ->
  RetellClient.isEndingCallRef (App.client s) = false ->
  exists s',
    App.run [ (e1, App.ClickCallButton); (e2, App.OperationTimer threw);
              (e3, App.FetchSettled RetellClient.FetchOk tyErr);
              (e4, App.SdkStartSettled None) ] s = Some s' /\
    App.callActive s' = true /\ App.loading s' = false /\ App.listening s' = false /\
    VoiceBot.callStatus (VoiceBot.state (App.bot s')) = CallStatus.ongoing /\
    VoiceBot.error (VoiceBot.state (App.bot s')) = None /\
    App.log s' = App.log s /\
    RetellClient.clientRef (App.client s') = true /\
    RetellClient.callStartTimeRef (App.client s') = Some (App.now e4) /\
    RetellClient.inactivityTimerRef (App.client s') = true /\
    RetellClient.isStartingCallRef (App.client s') = false /\
    RetellClient.isEndingCallRef (App.client s') = false.
Proof.
  intros Hf Ha Hl Hw Hcs Hce.
  destruct (step_enabled e1 App.ClickCallButton s) as (s1 & H1 & Hb1 & Hc1 & Ho1 & _);
    [simpl; rewrite Hl, Hw; reflexivity|].
  cbn [App.handle] in Hb1, Hc1, Ho1. rewrite Ha in Hb1, Hc1, Ho1.
  unfold App.handleStartCall in Hb1, Hc1, Ho1. rewrite Hf, Ha, Hl in Hb1, Hc1, Ho1.
  cbn [orb App.bot App.client App.pending App.set_bot] in Hb1, Hc1, Ho1.
  match type of Hb1 with context [App.startCall ?e ?sn ?x] =>
    destruct (startCall_taken e sn x Hcs Hce) as (Tb & Tc & To) end.
  rewrite Tb in Hb1. rewrite Tc in Hc1. rewrite To in Ho1.
  cbn [App.bot App.client App.set_bot] in Hb1, Hc1.
  destruct (start_operation_opens_the_call e2 e3 e4 threw tyErr s1 _
              ltac:(rewrite Hc1; reflexivity) Ho1)
    as (s4 & Hrun & Hb4 & Hrest).
  exists s4. split.
  - cbn [App.run]. rewrite H1. exact Hrun.
  - unfold App.callActive, App.loading, App.listening, App.log in *.
    rewrite Hb4, Hb1. simpl. repeat split; try apply Hrest.
Qed.

Lemma manual_start_opens_the_call_witness :
  exists s',
    App.run [ (at_time 3000, App.ClickCallButton); (at_time 3500, App.OperationTimer None);
              (at_time 3800, App.FetchSettled RetellClient.FetchOk "no client");
              (at_time 4000, App.SdkStartSettled None) ] App.mounted = Some s' /\
    App.callActive s' = true /\ App.loading s' = false.
Proof.
  destruct (manual_start_opens_the_call (at_time 3000) (at_time 3500) (at_time 3800)
              (at_time 4000) None "no client" App.mounted)
    as (s' & Hrun & Ha & Hl & _); try reflexivity.
  exists s'. auto.
Defined.

Lemma onresult_detection_actions ts m :
  In WakeWord.WakeWordDetected (snd (WakeWord.onresult ts m)) ->
  snd (WakeWord.onresult ts m) = [WakeWord.EngineStop; WakeWord.WakeWordDetected] \/
  snd (WakeWord.onresult ts m) = [WakeWord.WakeWordDetected].
Proof.
  unfold WakeWord.onresult, WakeWord.safelyStopRecognition.
  destruct (WakeWord.wakeWordDetectedRef m); simpl; [intros []|].
  destruct (JS.includes _ _); simpl; [|intros []].
  destruct (_ && _); simpl; auto.
Qed.

(** X24.  The wake word heard by a recognition object whose handler has
    seen no call active or loading, while the component is not starting a
    call, then the 800 ms timer, the debounce timer, an accepted
    create-call request and an SDK [startCall] that resolves: the log is
    the one the handler has seen, as it was when the recognition object
    was made, with the "Wake word detected" notice appended; the page has
    stopped listening; and the call is active with the hook in the same
    state as after a manual start.  The call flags of the page as they are
    when the wake word is heard play no part. *)
Theorem wake_word_opens_the_call (e0 e1 e2 e3 e4 : App.Env) (threw : option string)
    (tyErr : string) (ts : list string) (s : App.t) (cl : App.Closure) :
  WakeWord.recognitionRef (App.monitor s) = true ->
  App.recognitionHandlers (App.pending s) = Some cl ->
  In WakeWord.WakeWordDetected (snd (WakeWord.onresult ts (App.monitor s))) ->
  VoiceBot.isStartingCallRef (App.bot s) = false ->
  VoiceBot.snapCallActive (App.seen cl) = false ->
  VoiceBot.snapLoading (App.seen cl) = false ->
  RetellClient.isStartingCallRef (App.client s) = false ->
  RetellClient.isEndingCallRef (App.client s) = false ->
  exists s',
    App.run [ (e0, App.RecognitionResult ts); (e1, App.StartCallTimer);
              (e2, App.OperationTimer threw);
              (e3, App.FetchSettled RetellClient.FetchOk tyErr);
              (e4, App.SdkStartSettled None) ] s = Some s' /\
    App.callActive s' = true /\ App.loading s' = false /\ App.listening s' = false /\
    VoiceBot.callStatus (VoiceBot.state (App.bot s')) = CallStatus.ongoing /\
    VoiceBot.isStartingCallRef (App.bot s') = false /\
    App.log s' =
      VoiceBot.snapMessages (App.seen cl) ++
        [VoiceBot.systemMessage (App.uuid e0 0) (App.now e0)
           "Wake word detected! Starting conversation..."] /\
    RetellClient.clientRef (App.client s') = true /\
    RetellClient.callStartTimeRef (App.client s') = Some (App.now e4) /\
    RetellClient.inactivityTimerRef (App.client s') = true /\
    RetellClient.isStartingCallRef (App.client s') = false /\
    RetellClient.isEndingCallRef (App.client s') = false.
Proof.
  intros Hrec Hcl Hin Hf Ha Hl Hcs Hce.
  destruct (step_enabled e0 (App.RecognitionResult ts) s) as (s1 & H1 & Hb1 & Hc1 & _);
    [simpl; rewrite Hrec, Hcl; reflexivity|].
  assert (Hb1' : App.bot s1 =
            VoiceBot.handleWakeWordDetected (App.seen cl) (App.uuid e0 0) (App.now e0)
              (App.bot s)).
  { rewrite Hb1. cbn [App.handle]. unfold App.recognition. rewrite Hcl.
    unfold App.fromMonitor.
    destruct (onresult_detection_actions ts _ Hin) as [-> | ->]; reflexivity. }
  assert (Hc1' : App.client s1 = App.client s).
  { rewrite Hc1. cbn [App.handle]. unfold App.recognition. rewrite Hcl.
    apply client_fromMonitor. }
  clear Hb1 Hc1. unfold VoiceBot.handleWakeWordDetected in Hb1'.
  rewrite Hf, Ha, Hl in Hb1'. cbn [orb] in Hb1'.
  destruct (VoiceBot.startCallTimers (App.bot s1)) as [|seen0 rest] eqn:Et.
  { exfalso. rewrite Hb1' in Et. simpl in Et.
    apply app_eq_nil in Et as [_ Et]. discriminate. }
  destruct (step_enabled e1 App.StartCallTimer s1) as (s2 & H2 & Hb2 & Hc2 & Ho2 & _);
    [simpl; rewrite Et; reflexivity|].
  cbn [App.handle] in Hb2, Hc2, Ho2. unfold App.startCallTimeout in Hb2, Hc2, Ho2.
  rewrite Et in Hb2, Hc2, Ho2.
  cbn [App.bot App.client App.pending App.set_bot] in Hb2, Hc2, Ho2.
  match type of Hb2 with context [App.startCall ?e ?sn ?x] =>
    destruct (startCall_taken e sn x) as (Tb & Tc & To);
      [cbn [App.client App.set_bot]; rewrite Hc1'; assumption
      |cbn [App.client App.set_bot]; rewrite Hc1'; assumption|] end.
  rewrite Tb in Hb2. rewrite Tc in Hc2. rewrite To in Ho2.
  cbn [App.bot App.client App.set_bot] in Hb2, Hc2.
  destruct (start_operation_opens_the_call e2 e3 e4 threw tyErr s2 _
              ltac:(rewrite Hc2; reflexivity) Ho2)
    as (s5 & Hrun & Hb5 & Hrest).
  exists s5. split.
  - cbn [App.run]. rewrite H1. cbn [App.run]. rewrite H2. exact Hrun.
  - unfold App.callActive, App.loading, App.listening, App.log.
    rewrite Hb5, Hb2, Hb1'. simpl. repeat split; try apply Hrest.
Qed.

Lemma wake_word_opens_the_call_witness :
  exists s0 s',
    App.run [ (at_time 1500, App.BootTimer);
              (at_time 2000, App.DetectionTimer WakeWord.Created false) ] App.mounted
      = Some s0 /\
    App.run [ (at_time 10000, App.RecognitionResult ["Hey assistant"]);
              (at_time 10800, App.StartCallTimer);
              (at_time 11300, App.OperationTimer None);
              (at_time 11600, App.FetchSettled RetellClient.FetchOk "no client");
              (at_time 11900, App.SdkStartSettled None) ] s0 = Some s' /\
    App.callActive s' = true /\ App.listening s' = false.
Proof.
  destruct (App.run [ (at_time 1500, App.BootTimer);
                      (at_time 2000, App.DetectionTimer WakeWord.Created false) ]
              App.mounted) as [s0|] eqn:E0; [|vm_compute in E0; discriminate].
  vm_compute in E0. injection E0 as E0.
  pose proof (wake_word_opens_the_call (at_time 10000) (at_time 10800) (at_time 11300)
                (at_time 11600) (at_time 11900) None "no client" ["Hey assistant"] s0
                {| App.isActive := true;
                   App.seen := VoiceBot.snapshot (VoiceBot.state (App.bot s0)) |}) as H.
  assert (H1 : WakeWord.recognitionRef (App.monitor s0) = true)
    by (subst s0; reflexivity).
  assert (H2 : App.recognitionHandlers (App.pending s0) =
               Some {| App.isActive := true;
                       App.seen := VoiceBot.snapshot (VoiceBot.state (App.bot s0)) |})
    by (subst s0; vm_compute; reflexivity).
  assert (H3 : In WakeWord.WakeWordDetected
                 (snd (WakeWord.onresult ["Hey assistant"] (App.monitor s0))))
    by (subst s0; vm_compute; auto).
  destruct (H H1 H2 H3) as (s' & Hrun & Ha & _ & Hw & _); try (subst s0; reflexivity).
  exists s0, s'. auto.
Defined.
